(** * LeadFlow: the record mutation pipeline and its supporting rules

    A shallow embedding of the server side of the LeadFlow buyer-lead
    tracker: the zod validation schema ([lib/validations/buyer.ts]), the
    authorization helpers ([lib/auth.ts]), the in-memory rate limiter and the
    server actions ([lib/actions/buyers.ts], [lib/actions/csv.ts]) and the
    list query of the buyers page; further the query of the page of one
    lead, the text of the export and the form of a new lead.

    Conventions.
    - JavaScript values that reach the modelled code are strings, integers,
      [NaN], [undefined], [null] and arrays of strings.  Numbers are exact
      integers ([Z]); floating point rounding, [Infinity] and fractions are
      outside the model (every number the server actions hand to the schema
      comes out of [parseInt]).
    - Strings are Rocq strings; their length is counted in characters of the
      8-bit alphabet, which coincides with the JavaScript length on ASCII.
    - Functions of libraries and of the platform that the repository only
      calls (the e-mail and UUID formats of zod, [Date.prototype.toISOString],
      SQL [ILIKE], the id generator of the database, the partial and omitted
      variants of the schema) are fields of the class [Externals]; every
      general statement holds for all of them.
    - What zod does with the schema as it is written (fields parsed in the
      order of the shape, unions, defaults, transforms, refinements skipped
      after an aborting issue) and what [lru-cache] does with [get] and
      [set] (recency, expiry after [ttl], eviction at [max]) are modelled in
      the modules [Zod], [Validation] and [LRUCache].
    - The database is two lists of rows; a statement that violates a
      constraint of a column throws, and a transaction that throws keeps
      nothing.  A query hands over the rows that match in an order of
      its own ([Query.scan_order]), which [ORDER BY] then arranges, so
      that rows with the same sort key come in no fixed order.  The
      identifiers handed to it are taken to be well-formed UUIDs, as
      those of the session and of stored rows are. *)

From Stdlib Require Import String Ascii ZArith List Bool Arith Lia.
From Stdlib Require Import Permutation Sorted.
Import ListNotations.
Local Open Scope string_scope.
Local Open Scope list_scope.

(* ================================================================== *)
(** ** JavaScript values *)
(* ================================================================== *)

Module JS.

Inductive number : Type :=
| NaN
| Num (z : Z).

Inductive value : Type :=
| Undefined
| Null
| Str (s : string)
| Number (n : number)
| Array (l : list string).

(** [!!v] *)
Definition truthy (v : value) : bool :=
  match v with
  | Undefined | Null => false
  | Str s => negb (s =? "")
  | Number NaN => false
  | Number (Num z) => negb (z =? 0)%Z
  | Array _ => true
  end.

Definition isNaN (n : number) : bool :=
  match n with NaN => true | Num _ => false end.

(** White space skipped by [parseInt] and removed by [trim] (the ASCII
    part of it: space, tab, line feed, vertical tab, form feed, carriage
    return). *)
Definition is_white (c : ascii) : bool :=
  let n := nat_of_ascii c in
  (n =? 32)%nat || ((9 <=? n)%nat && (n <=? 13)%nat).

Fixpoint trimStart (s : string) : string :=
  match s with
  | EmptyString => EmptyString
  | String c r => if is_white c then trimStart r else s
  end.

Fixpoint rev_string (s acc : string) : string :=
  match s with
  | EmptyString => acc
  | String c r => rev_string r (String c acc)
  end.

Definition trimEnd (s : string) : string :=
  rev_string (trimStart (rev_string s EmptyString)) EmptyString.

(** [s.trim()] *)
Definition trim (s : string) : string := trimEnd (trimStart s).

(** [s.split(sep)] for a separator of one character: the pieces between
    its occurrences, at least one piece. *)
Fixpoint split_aux (sep : ascii) (s cur : string) : list string :=
  match s with
  | EmptyString => [rev_string cur EmptyString]
  | String c r =>
      if Ascii.eqb c sep
      then rev_string cur EmptyString :: split_aux sep r EmptyString
      else split_aux sep r (String c cur)
  end.

Definition split (sep : ascii) (s : string) : list string :=
  split_aux sep s EmptyString.

(** Value of a character as a digit in the given radix. *)
Definition digit_of (radix : Z) (c : ascii) : option Z :=
  let n := Z.of_nat (nat_of_ascii c) in
  let d :=
    if ((48 <=? n) && (n <=? 57))%Z then Some (n - 48)%Z
    else if ((97 <=? n) && (n <=? 122))%Z then Some (n - 87)%Z
    else if ((65 <=? n) && (n <=? 90))%Z then Some (n - 55)%Z
    else None in
  match d with
  | Some v => if (v <? radix)%Z then Some v else None
  | None => None
  end.

(** The longest prefix of digits, read in the radix; [None] when the
    prefix is empty. *)
Fixpoint digits (radix : Z) (s : string) (acc : option Z) : option Z :=
  match s with
  | EmptyString => acc
  | String c r =>
      match digit_of radix c with
      | Some d =>
          digits radix r
            (Some (match acc with
                   | Some a => a * radix + d
                   | None => d
                   end)%Z)
      | None => acc
      end
  end.

(** [parseInt(s)] without a radix: leading white space, an optional sign,
    an optional [0x]/[0X] prefix selecting radix 16, then digits; [NaN]
    when no digit follows. *)
Definition parseInt (s : string) : number :=
  let s1 := trimStart s in
  let '(neg, s2) :=
    match s1 with
    | String c r =>
        if Ascii.eqb c "-"%char then (true, r)
        else if Ascii.eqb c "+"%char then (false, r)
        else (false, s1)
    | EmptyString => (false, s1)
    end in
  let '(radix, s3) :=
    match s2 with
    | String c0 (String cx r) =>
        if Ascii.eqb c0 "0"%char
           && (Ascii.eqb cx "x"%char || Ascii.eqb cx "X"%char)
        then (16%Z, r) else (10%Z, s2)
    | _ => (10%Z, s2)
    end in
  match digits radix s3 None with
  | None => NaN
  | Some z => Num (if neg then (- z)%Z else z)
  end.

Definition number_eqb (a b : number) : bool :=
  match a, b with
  | Num x, Num y => (x =? y)%Z
  | _, _ => false
  end.

Fixpoint list_string_eqb (a b : list string) : bool :=
  match a, b with
  | [], [] => true
  | x :: a', y :: b' => (x =? y) && list_string_eqb a' b'
  | _, _ => false
  end.

(** [a === b] on primitives ([NaN] differs from itself; two arrays are
    compared by identity and the model never compares arrays this way). *)
Definition strict_eq (a b : value) : bool :=
  match a, b with
  | Undefined, Undefined => true
  | Null, Null => true
  | Str x, Str y => x =? y
  | Number x, Number y => number_eqb x y
  | _, _ => false
  end.

(** The text produced by [JSON.stringify], kept as the JSON tree it
    denotes: two values have the same text exactly when they have the same
    tree.  [NaN] is written [null]. *)
Inductive json : Type :=
| JNull
| JString (s : string)
| JNumber (z : Z)
| JArray (l : list string).

(** [JSON.stringify(v)]: JavaScript [undefined] (here [None]) for
    [undefined], a text otherwise. *)
Definition JSON_stringify (v : value) : option json :=
  match v with
  | Undefined => None
  | Null => Some JNull
  | Str s => Some (JString s)
  | Number NaN => Some JNull
  | Number (Num z) => Some (JNumber z)
  | Array l => Some (JArray l)
  end.

Definition json_eqb (a b : json) : bool :=
  match a, b with
  | JNull, JNull => true
  | JString x, JString y => x =? y
  | JNumber x, JNumber y => (x =? y)%Z
  | JArray x, JArray y => list_string_eqb x y
  | _, _ => false
  end.

(** [JSON.stringify(a) !== JSON.stringify(b)] *)
Definition stringify_differs (a b : value) : bool :=
  match JSON_stringify a, JSON_stringify b with
  | None, None => false
  | Some x, Some y => negb (json_eqb x y)
  | _, _ => true
  end.

End JS.

(* ================================================================== *)
(** ** Functions of the platform and of libraries *)
(* ================================================================== *)

(** Enumerations of the data model ([z.enum] in the schema, [pgEnum] in the
    table definition). *)
Inductive City := Chandigarh | Mohali | Zirakpur | Panchkula | OtherCity.
Inductive PropertyType := Apartment | Villa | Plot | Office | Retail.
Inductive BHK := Bhk1 | Bhk2 | Bhk3 | Bhk4 | Studio.
Inductive Purpose := Buy | Rent.
Inductive Timeline := T0_3m | T3_6m | TOver6m | Exploring.
Inductive Source := Website | Referral | WalkIn | Call | OtherSource.
Inductive Status :=
  New | Qualified | Contacted | Visited | Negotiation | Converted | Dropped.

(** The typed value that [buyerSchema] produces. *)
Record BuyerData := {
  fullName : string;
  email : option string;
  phone : string;
  city : City;
  propertyType : PropertyType;
  bhk : option BHK;
  purpose : Purpose;
  budgetMin : option Z;
  budgetMax : option Z;
  timeline : Timeline;
  source : Source;
  status : Status;
  notes : option string;
  tags : list string
}.

(** The loosely typed object handed to a schema: one JavaScript value per
    field, [Undefined] for a missing property. *)
Record RawBuyer := {
  raw_fullName : JS.value;
  raw_email : JS.value;
  raw_phone : JS.value;
  raw_city : JS.value;
  raw_propertyType : JS.value;
  raw_bhk : JS.value;
  raw_purpose : JS.value;
  raw_budgetMin : JS.value;
  raw_budgetMax : JS.value;
  raw_timeline : JS.value;
  raw_source : JS.value;
  raw_status : JS.value;
  raw_notes : JS.value;
  raw_tags : JS.value
}.

(** What [buyerSchema.partial()] produces: every field may be [undefined]. *)
Record PartialBuyer := {
  p_fullName : option string;
  p_email : option string;
  p_phone : option string;
  p_city : option City;
  p_propertyType : option PropertyType;
  p_bhk : option BHK;
  p_purpose : option Purpose;
  p_budgetMin : option Z;
  p_budgetMax : option Z;
  p_timeline : option Timeline;
  p_source : option Source;
  p_status : option Status;
  p_notes : option string;
  p_tags : option (list string)
}.

(** A row of the table [buyers]; a nullable column is an [option] whose
    [None] is SQL [NULL].  Timestamps are milliseconds since the epoch. *)
Record Buyer := {
  b_id : string;
  b_fullName : string;
  b_email : option string;
  b_phone : string;
  b_city : City;
  b_propertyType : PropertyType;
  b_bhk : option BHK;
  b_purpose : Purpose;
  b_budgetMin : option Z;
  b_budgetMax : option Z;
  b_timeline : Timeline;
  b_source : Source;
  b_status : Status;
  b_notes : option string;
  b_tags : option (list string);
  b_ownerId : string;
  b_updatedAt : Z;
  b_createdAt : Z
}.

(** What the repository calls and does not define.  The two schemas derived
    from [buyerSchema] are among them: what [.partial()] and [.omit()] keep
    of the refinements and of the defaults of the schema they start from is
    a matter of the version of zod, which the repository does not pin. *)
Class Externals := {
  (** the format accepted by zod's [z.string().email()] *)
  is_email : string -> bool;
  (** the format accepted by zod's [z.string().uuid()] *)
  is_uuid : string -> bool;
  (** [Date.prototype.toISOString] *)
  toISOString : Z -> string;
  (** [buyerSchema.partial().parse], [None] when it throws *)
  buyerSchema_partial : RawBuyer -> option PartialBuyer;
  (** whether [csvBuyerSchema.parse] (that is
      [buyerSchema.omit({status, tags}).parse]) returns *)
  csvBuyerSchema_accepts : RawBuyer -> bool;
  (** [gen_random_uuid()], as a function of the number of ids drawn so far *)
  gen_random_uuid : nat -> string;
  (** papaparse's [parse(text, {header: true, skipEmptyLines: true,
      transformHeader})]: the number of errors and the data rows, each row
      an object from transformed header to cell *)
  papa_parse : string -> nat * list (list (string * string));
  (** SQL [text ILIKE pattern] *)
  ilike : string -> string -> bool;
  (** the order of the database on the column that the table object has
      under the given property name, [None] when it has none *)
  column_leb : string -> option (Buyer -> Buyer -> bool)
}.

(* ================================================================== *)
(** ** Validation Engine: [buyerSchema] *)
(* ================================================================== *)

Module Zod.

Inductive code : Type :=
| invalid_type
| invalid_value
| invalid_union
| too_small
| too_big
| invalid_format
| custom.

(** An issue of a failed parse.  [i_message] is the message the schema
    gives; [None] stands for the default text of the library. *)
Record issue := {
  i_code : code;
  i_path : string;
  i_message : option string
}.

(** A failed check of a value of the right type lets parsing continue; a
    value of the wrong type, outside an enumeration or matching no member
    of a union aborts. *)
Definition continuable (i : issue) : bool :=
  match i_code i with
  | too_small | too_big | invalid_format | custom => true
  | invalid_type | invalid_value | invalid_union => false
  end.

Definition aborted (l : list issue) : bool :=
  existsb (fun i => negb (continuable i)) l.

(** The state of a parse: the value so far ([None] once aborted) and the
    issues found. *)
Definition parsed (A : Type) : Type := (option A * list issue)%type.

Definition ok {A} (v : A) : parsed A := (Some v, []).
Definition dirty {A} (v : A) (i : issue) : parsed A := (Some v, [i]).
Definition abort {A} (c : code) (path : string) : parsed A :=
  (None, [{| i_code := c; i_path := path; i_message := None |}]).

(** [z.string().min(lo, lo_msg).max(hi, hi_msg)] *)
Definition string_min_max (path : string) (lo : nat) (lo_msg : string)
    (hi : nat) (hi_msg : string) (v : JS.value) : parsed string :=
  match v with
  | JS.Str s =>
      (Some s,
       (if (String.length s <? lo)%nat
        then [{| i_code := too_small; i_path := path;
                 i_message := Some lo_msg |}]
        else [])
       ++
       (if (hi <? String.length s)%nat
        then [{| i_code := too_big; i_path := path;
                 i_message := Some hi_msg |}]
        else []))
  | _ => abort invalid_type path
  end.

(** [z.enum([...])], given the reading of the literals *)
Definition enum {A} (read : string -> option A) (path : string)
    (v : JS.value) : parsed A :=
  match v with
  | JS.Str s =>
      match read s with
      | Some a => ok a
      | None => abort invalid_value path
      end
  | _ => abort invalid_value path
  end.

(** A parse state is [tidy] when it has a value only without an aborting
    issue, and none of its issues comes from a refinement. *)
Definition tidy {A} (p : parsed A) : Prop :=
  (fst p <> None -> aborted (snd p) = false)
  /\ (forall i, In i (snd p) -> i_code i <> custom).

End Zod.

Module Validation.
Import Zod.

Definition citySchema (s : string) : option City :=
  if s =? "Chandigarh" then Some Chandigarh
  else if s =? "Mohali" then Some Mohali
  else if s =? "Zirakpur" then Some Zirakpur
  else if s =? "Panchkula" then Some Panchkula
  else if s =? "Other" then Some OtherCity
  else None.

Definition propertyTypeSchema (s : string) : option PropertyType :=
  if s =? "Apartment" then Some Apartment
  else if s =? "Villa" then Some Villa
  else if s =? "Plot" then Some Plot
  else if s =? "Office" then Some Office
  else if s =? "Retail" then Some Retail
  else None.

Definition bhkSchema (s : string) : option BHK :=
  if s =? "1" then Some Bhk1
  else if s =? "2" then Some Bhk2
  else if s =? "3" then Some Bhk3
  else if s =? "4" then Some Bhk4
  else if s =? "Studio" then Some Studio
  else None.

Definition purposeSchema (s : string) : option Purpose :=
  if s =? "Buy" then Some Buy
  else if s =? "Rent" then Some Rent
  else None.

Definition timelineSchema (s : string) : option Timeline :=
  if s =? "0-3m" then Some T0_3m
  else if s =? "3-6m" then Some T3_6m
  else if s =? ">6m" then Some TOver6m
  else if s =? "Exploring" then Some Exploring
  else None.

Definition sourceSchema (s : string) : option Source :=
  if s =? "Website" then Some Website
  else if s =? "Referral" then Some Referral
  else if s =? "Walk-in" then Some WalkIn
  else if s =? "Call" then Some Call
  else if s =? "Other" then Some OtherSource
  else None.

Definition statusSchema (s : string) : option Status :=
  if s =? "New" then Some New
  else if s =? "Qualified" then Some Qualified
  else if s =? "Contacted" then Some Contacted
  else if s =? "Visited" then Some Visited
  else if s =? "Negotiation" then Some Negotiation
  else if s =? "Converted" then Some Converted
  else if s =? "Dropped" then Some Dropped
  else None.

Section Fields.
Context {E : Externals}.

(** [fullName: z.string().min(1, ...).max(80, ...)] *)
Definition fullName_field : JS.value -> parsed string :=
  string_min_max "fullName" 1 "Full name is required"
    80 "Full name must be 80 characters or less".

(** [email: z.union([z.string().email(...), z.literal('')]).optional()
    .transform(val => val === '' ? undefined : val)].  A string that is
    neither an address nor empty keeps the issue of the first member of
    the union, the only member that accepts its type. *)
Definition email_field (v : JS.value) : parsed (option string) :=
  match v with
  | JS.Undefined => ok None
  | JS.Str s =>
      if is_email s || (s =? "")
      then ok (if s =? "" then None else Some s)
      else dirty (Some s)
             {| i_code := invalid_format; i_path := "email";
                i_message := Some "Invalid email address" |}
  | _ => abort invalid_union "email"
  end.

(** [phone: z.string().min(1, ...).max(15, ...)] *)
Definition phone_field : JS.value -> parsed string :=
  string_min_max "phone" 1 "Phone number is required"
    15 "Phone number must be 15 characters or less".

(** [bhk: z.union([bhkSchema, z.literal('')]).optional()
    .transform(val => val === '' ? undefined : val)] *)
Definition bhk_field (v : JS.value) : parsed (option BHK) :=
  match v with
  | JS.Undefined => ok None
  | JS.Str s =>
      match bhkSchema s with
      | Some b => ok (Some b)
      | None => if s =? "" then ok None else abort invalid_union "bhk"
      end
  | _ => abort invalid_union "bhk"
  end.

(** The transform of both budget fields:
    [if (!val || val === '') return undefined;
     const num = typeof val === 'string' ? parseInt(val) : val;
     return isNaN(num) ? undefined : num;] *)
Definition budget_transform (val : JS.value) : option Z :=
  if negb (JS.truthy val) || JS.strict_eq val (JS.Str "") then None
  else
    let num :=
      match val with
      | JS.Str s => JS.parseInt s
      | JS.Number n => n
      | _ => JS.NaN
      end in
    if JS.isNaN num then None
    else match num with JS.Num z => Some z | JS.NaN => None end.

(** [z.union([z.string(), z.number()]).optional().transform(...)];
    [z.number()] does not accept [NaN]. *)
Definition budget_field (path : string) (v : JS.value)
  : parsed (option Z) :=
  match v with
  | JS.Undefined => ok (budget_transform v)
  | JS.Str _ => ok (budget_transform v)
  | JS.Number (JS.Num _) => ok (budget_transform v)
  | _ => abort invalid_union path
  end.

(** [status: statusSchema.default('New')] *)
Definition status_field (v : JS.value) : parsed Status :=
  match v with
  | JS.Undefined => ok New
  | _ => enum statusSchema "status" v
  end.

(** [notes: z.union([z.string().max(1000, ...), z.literal('')])
    .optional().transform(val => val === '' ? undefined : val)] *)
Definition notes_field (v : JS.value) : parsed (option string) :=
  match v with
  | JS.Undefined => ok None
  | JS.Str s =>
      if (1000 <? String.length s)%nat
      then dirty (Some s)
             {| i_code := too_big; i_path := "notes";
                i_message :=
                  Some "Notes must be 1000 characters or less" |}
      else ok (if s =? "" then None else Some s)
  | _ => abort invalid_union "notes"
  end.

(** [tags: z.array(z.string()).default([])] *)
Definition tags_field (v : JS.value) : parsed (list string) :=
  match v with
  | JS.Undefined => ok []
  | JS.Array l => ok l
  | _ => abort invalid_type "tags"
  end.

(** [z.object({...})]: every field is parsed, in the order of the
    shape; the issues of all fields are collected and the object has a
    value when every field has one. *)
Definition object_parse (r : RawBuyer) : parsed BuyerData :=
  let f1 := fullName_field (raw_fullName r) in
  let f2 := email_field (raw_email r) in
  let f3 := phone_field (raw_phone r) in
  let f4 := enum citySchema "city" (raw_city r) in
  let f5 := enum propertyTypeSchema "propertyType" (raw_propertyType r) in
  let f6 := bhk_field (raw_bhk r) in
  let f7 := enum purposeSchema "purpose" (raw_purpose r) in
  let f8 := budget_field "budgetMin" (raw_budgetMin r) in
  let f9 := budget_field "budgetMax" (raw_budgetMax r) in
  let f10 := enum timelineSchema "timeline" (raw_timeline r) in
  let f11 := enum sourceSchema "source" (raw_source r) in
  let f12 := status_field (raw_status r) in
  let f13 := notes_field (raw_notes r) in
  let f14 := tags_field (raw_tags r) in
  (match fst f1, fst f2, fst f3, fst f4, fst f5, fst f6, fst f7,
         fst f8, fst f9, fst f10, fst f11, fst f12, fst f13, fst f14 with
   | Some v1, Some v2, Some v3, Some v4, Some v5, Some v6, Some v7,
     Some v8, Some v9, Some v10, Some v11, Some v12, Some v13, Some v14 =>
       Some {| fullName := v1; email := v2; phone := v3; city := v4;
               propertyType := v5; bhk := v6; purpose := v7;
               budgetMin := v8; budgetMax := v9; timeline := v10;
               source := v11; status := v12; notes := v13;
               tags := v14 |}
   | _, _, _, _, _, _, _, _, _, _, _, _, _, _ => None
   end,
   snd f1 ++ snd f2 ++ snd f3 ++ snd f4 ++ snd f5 ++ snd f6 ++ snd f7
   ++ snd f8 ++ snd f9 ++ snd f10 ++ snd f11 ++ snd f12 ++ snd f13
   ++ snd f14).

End Fields.

(** A [.refine(check, {message, path})] step. *)
Record refinement := {
  check : BuyerData -> bool;
  r_message : string;
  r_path : string
}.

Definition issue_of (r : refinement) : issue :=
  {| i_code := custom; i_path := r_path r;
     i_message := Some (r_message r) |}.

Definition some_nonzero (o : option Z) : bool :=
  match o with Some z => negb (z =? 0)%Z | None => false end.

(** BHK is required for Apartment and Villa *)
Definition bhk_required : refinement :=
  {| check := fun data =>
       if (match propertyType data with
           | Apartment | Villa => true
           | _ => false
           end)
          && negb (match bhk data with Some _ => true | None => false end)
       then false else true;
     r_message := "BHK is required for Apartment and Villa properties";
     r_path := "bhk" |}.

(** Budget max should be greater than or equal to budget min *)
Definition budget_order : refinement :=
  {| check := fun data =>
       if some_nonzero (budgetMin data) && some_nonzero (budgetMax data)
          && (match budgetMin data, budgetMax data with
              | Some lo, Some hi => (hi <? lo)%Z
              | _, _ => false
              end)
       then false else true;
     r_message :=
       "Maximum budget must be greater than or equal to minimum budget";
     r_path := "budgetMax" |}.

(** Budget values should be positive if provided *)
Definition budgetMin_positive : refinement :=
  {| check := fun data =>
       match budgetMin data with
       | Some lo => if (lo <=? 0)%Z then false else true
       | None => true
       end;
     r_message := "Budget minimum must be positive";
     r_path := "budgetMin" |}.

Definition budgetMax_positive : refinement :=
  {| check := fun data =>
       match budgetMax data with
       | Some hi => if (hi <=? 0)%Z then false else true
       | None => true
       end;
     r_message := "Budget maximum must be positive";
     r_path := "budgetMax" |}.

(** The chain of [.refine] calls of [buyerSchema], in source order. *)
Definition refinements : list refinement :=
  [bhk_required; budget_order; budgetMin_positive; budgetMax_positive].

(** How zod runs the checks attached to a schema: in order, each one
    skipped when the issues found so far contain one that aborts; a
    failed refinement adds its issue, which does not abort. *)
Fixpoint runChecks (checks : list refinement) (data : BuyerData)
    (issues : list issue) : list issue :=
  match checks with
  | [] => issues
  | ch :: rest =>
      if aborted issues then runChecks rest data issues
      else if check ch data then runChecks rest data issues
      else runChecks rest data (issues ++ [issue_of ch])
  end.

Inductive SafeParse : Type :=
| Success (data : BuyerData)
| Failure (issues : list issue).

Section Schema.
Context {E : Externals}.

(** All issues [buyerSchema] reports on an input. *)
Definition buyerSchema_issues (r : RawBuyer) : list issue :=
  match object_parse r with
  | (Some data, issues) => runChecks refinements data issues
  | (None, issues) => issues
  end.

(** [buyerSchema.safeParse(r)] *)
Definition buyerSchema_safeParse (r : RawBuyer) : SafeParse :=
  match object_parse r with
  | (Some data, issues) =>
      match runChecks refinements data issues with
      | [] => Success data
      | l => Failure l
      end
  | (None, issues) => Failure issues
  end.

Definition success (r : SafeParse) : bool :=
  match r with Success _ => true | Failure _ => false end.

End Schema.

(** [validateBudgetConstraints(budgetMin, budgetMax)]; [None] is [null] or
    [undefined]. *)
Definition validateBudgetConstraints (budgetMin budgetMax : option Z)
  : bool :=
  if some_nonzero budgetMin && some_nonzero budgetMax
     && (match budgetMin, budgetMax with
         | Some lo, Some hi => (hi <? lo)%Z
         | _, _ => false
         end)
  then false else true.

End Validation.

(* ================================================================== *)
(** ** Errors of the server actions *)
(* ================================================================== *)

(** The errors the actions throw, named after the taxonomy of the
    specification; the comment gives the message in the source. *)
Inductive Error : Type :=
| Unauthenticated     (* 'Authentication required' *)
| RedirectToLogin     (* redirect('/login') of the buyers page *)
| RateLimited         (* 'Too many requests. Please try again later.' *)
| ValidationFailed    (* the ZodError of a schema's parse *)
| NotFound            (* 'Buyer not found' *)
| Forbidden           (* 'Unauthorized to edit this buyer' *)
| Conflict            (* 'This record was modified by another user ...' *)
| PersistenceFailure  (* an error raised by the database or its driver *)
| NoFile              (* 'No file provided' *)
| FileTooLarge        (* 'File too large. Maximum size is 5MB.' *)
| CsvParsingError     (* 'CSV parsing error: ...' *)
| TooManyRows         (* 'Too many rows. Maximum 200 rows allowed ...' *)
| RowsInvalid (n : nat). (* 'Validation failed for n rows. ...' *)

Inductive outcome (A : Type) : Type :=
| Done (a : A)
| Thrown (e : Error).
Arguments Done {A} a.
Arguments Thrown {A} e.

(* ================================================================== *)
(** ** Authorization Policy: [lib/auth.ts] *)
(* ================================================================== *)

Module Auth.

(** The user object of the identity provider, as far as it is read. *)
Record SupabaseUser := {
  su_id : string;
  su_email : option string;
  (** [user.user_metadata?.role] *)
  user_metadata_role : JS.value;
  (** [user.app_metadata?.role] *)
  app_metadata_role : JS.value
}.

Record UserWithRole := {
  user_id : string;
  user_email : option string;
  isAdmin : bool
}.

Definition demo_admin_email : string := "admin@leadflow.com".

(** [getCurrentUser()], given the user of the session if there is one. *)
Definition getCurrentUser (session : option SupabaseUser)
  : option UserWithRole :=
  match session with
  | None => None
  | Some user =>
      let isAdmin :=
        JS.strict_eq (user_metadata_role user) (JS.Str "admin")
        || JS.strict_eq (app_metadata_role user) (JS.Str "admin")
        || match su_email user with
           | Some e => e =? demo_admin_email
           | None => false
           end in
      Some {| user_id := su_id user;
              user_email := su_email user;
              isAdmin := isAdmin |}
  end.

Definition requireAuth (session : option SupabaseUser)
  : outcome UserWithRole :=
  match getCurrentUser session with
  | None => Thrown Unauthenticated
  | Some user => Done user
  end.

Definition canEditBuyer (user : UserWithRole) (buyerOwnerId : string)
  : bool :=
  isAdmin user || (user_id user =? buyerOwnerId).

Definition canViewAllBuyers (user : UserWithRole) : bool :=
  isAdmin user.

End Auth.

(* ================================================================== *)
(** ** Rate Limiter *)
(* ================================================================== *)

(** The part of [lru-cache] the limiter uses: a cache bounded by [max]
    entries whose entries expire [ttl] milliseconds after they were last
    written.  The entries are kept most recently used first; keys are
    distinct in every cache built by [set] from the empty one. *)
Module LRUCache.

Record entry := {
  e_key : string;
  e_value : nat;
  (** the time of the last write *)
  e_start : Z
}.

Definition t : Type := list entry.

Record options := { max : nat; ttl : Z }.

Definition isStale (o : options) (now : Z) (e : entry) : bool :=
  (ttl o <? now - e_start e)%Z.

Definition lookup (k : string) (c : t) : option entry :=
  find (fun e => e_key e =? k) c.

Definition delete (k : string) (c : t) : t :=
  filter (fun e => negb (e_key e =? k)) c.

(** [cache.get(k)]: [undefined] for a missing or expired key (an expired
    entry is dropped); a hit makes the entry the most recently used and
    leaves its age alone. *)
Definition get (o : options) (now : Z) (k : string) (c : t)
  : option nat * t :=
  match lookup k c with
  | None => (None, c)
  | Some e =>
      if isStale o now e then (None, delete k c)
      else (Some (e_value e), e :: delete k c)
  end.

(** [cache.set(k, v)]: the entry becomes the most recently used and its
    age restarts; a new key in a full cache evicts the least recently
    used entry. *)
Definition set (o : options) (now : Z) (k : string) (v : nat) (c : t) : t :=
  let e := {| e_key := k; e_value := v; e_start := now |} in
  match lookup k c with
  | Some _ => e :: delete k c
  | None =>
      e :: (if (length c =? max o)%nat then removelast c else c)
  end.

End LRUCache.

Module RateLimit.

(** [new LRUCache<string, number>({ max: 1000, ttl: 60 * 1000 })] *)
Definition rateLimitCache_options : LRUCache.options :=
  {| LRUCache.max := 1000; LRUCache.ttl := 60 * 1000 |}.

Definition default_maxRequests : nat := 10.

Definition rate_key (userId : string) : string :=
  ("rate_limit_" ++ userId)%string.

(** [checkRateLimit(userId, maxRequests)] at time [now], on the cache
    [c]; returns the answer and the cache afterwards. *)
Definition checkRateLimit (now : Z) (userId : string) (maxRequests : nat)
    (c : LRUCache.t) : bool * LRUCache.t :=
  let key := rate_key userId in
  let '(got, c1) := LRUCache.get rateLimitCache_options now key c in
  let current :=
    match got with
    | Some v => if (v =? 0)%nat then 0%nat else v
    | None => 0%nat
    end in
  if (maxRequests <=? current)%nat then (false, c1)
  else (true,
        LRUCache.set rateLimitCache_options now key (current + 1)%nat c1).

(** The count the limiter reads for a caller, [cache.get(key) || 0],
    without touching the cache. *)
Definition current_count (now : Z) (userId : string) (c : LRUCache.t)
  : nat :=
  match LRUCache.lookup (rate_key userId) c with
  | Some e =>
      if LRUCache.isStale rateLimitCache_options now e then 0%nat
      else LRUCache.e_value e
  | None => 0%nat
  end.

(** A sequence of checks, each with its time and its caller, run from
    the cache [c]: the number of requests of [userId] that are
    admitted. *)
Fixpoint admitted (userId : string) (maxRequests : nat)
    (checks : list (Z * string)) (c : LRUCache.t) : nat :=
  match checks with
  | [] => 0%nat
  | (now, caller) :: rest =>
      let '(answer, c') := checkRateLimit now caller maxRequests c in
      (if answer && (caller =? userId) then 1%nat else 0%nat)
      + admitted userId maxRequests rest c'
  end.

(** How many more requests of the caller the cache can admit during the
    window that starts at [t0]: the threshold less the count of an entry
    written in the window, the whole threshold otherwise. *)
Definition allowance (t0 : Z) (userId : string) (maxRequests : nat)
    (c : LRUCache.t) : nat :=
  match LRUCache.lookup (rate_key userId) c with
  | Some e =>
      if (t0 <=? LRUCache.e_start e)%Z
      then (maxRequests - LRUCache.e_value e)%nat
      else maxRequests
  | None => maxRequests
  end.

(** All checks happen within one time-to-live of [t0]. *)
Definition within_window (t0 : Z) (checks : list (Z * string)) : Prop :=
  Forall (fun ev =>
            (t0 <= fst ev <= t0 + LRUCache.ttl rateLimitCache_options)%Z)
         checks.

(** The keys of the entries in front of the entry of [k], which are
    those used more recently. *)
Fixpoint ahead (k : string) (c : LRUCache.t) : list string :=
  match c with
  | [] => []
  | e :: r =>
      if LRUCache.e_key e =? k then []
      else LRUCache.e_key e :: ahead k r
  end.

(** The same, [None] when [k] has no entry. *)
Definition in_front (k : string) (c : LRUCache.t)
  : option (list string) :=
  match LRUCache.lookup k c with
  | Some _ => Some (ahead k c)
  | None => None
  end.

Definition more_recent (k : string) (c : LRUCache.t) : list string :=
  match LRUCache.lookup k c with
  | Some _ => ahead k c
  | None => []
  end.

(** The number of different keys in a list. *)
Definition distinct (keys : list string) : nat :=
  length (nodup string_dec keys).

(** Whether the entry of the caller stays in the cache during the
    checks.  [front] lists the keys used since the entry of the caller
    was last read or written ([None] as long as the caller has no
    entry): a check of the caller puts its entry first, a check of
    another caller puts the key of that caller in front of it, and the
    entry is kept as long as the different keys in front of it,
    together with the key checked, are fewer than the thousand entries
    that the cache holds. *)
Fixpoint entry_kept (userId : string) (front : option (list string))
    (checks : list (Z * string)) : bool :=
  match checks with
  | [] => true
  | (_, caller) :: rest =>
      if caller =? userId then entry_kept userId (Some []) rest
      else
        match front with
        | None => entry_kept userId None rest
        | Some keys =>
            (distinct (rate_key caller :: keys) <=? 999)%nat
            && entry_kept userId (Some (rate_key caller :: keys)) rest
        end
  end.

End RateLimit.

(* ================================================================== *)
(** ** The database: tables [buyers] and [buyer_history] *)
(* ================================================================== *)

Module Db.

(** The diff payload of a history entry before it is written as text:
    [{ field: [oldValue, newValue] }] in the order the fields were added,
    or the synthetic [{ created: [null, <row>] }] of an import. *)
Inductive Diff : Type :=
| Changes (l : list (string * (JS.value * JS.value)))
| Created (row : RawBuyer) (ownerId : string).

Record HistoryEntry := {
  h_id : string;
  h_buyerId : string;
  h_changedBy : string;
  h_changedAt : Z;
  h_diff : Diff
}.

(** The two tables, in insertion order, and the number of ids the
    database has generated. *)
Record t := {
  buyers : list Buyer;
  buyerHistory : list HistoryEntry;
  ids_drawn : nat
}.

(** Range of a column of type [integer]. *)
Definition int4 (z : Z) : bool :=
  ((-2147483648 <=? z) && (z <=? 2147483647))%Z.

Definition opt_int4 (o : option Z) : bool :=
  match o with Some z => int4 z | None => true end.

(** The constraints of the columns that the types of [Buyer] do not
    express: [varchar(80)], [varchar(15)] and [integer]. *)
Definition constraints_ok (b : Buyer) : bool :=
  (String.length (b_fullName b) <=? 80)%nat
  && (String.length (b_phone b) <=? 15)%nat
  && opt_int4 (b_budgetMin b)
  && opt_int4 (b_budgetMax b).

(** [db.transaction(body)]: the writes of [body] are kept when it
    returns and discarded when it throws ([None]). *)
Definition transaction {A} (body : t -> option (A * t)) (db : t)
  : option A * t :=
  match body db with
  | Some (a, db') => (Some a, db')
  | None => (None, db)
  end.

(** [select().from(buyers).where(eq(buyers.id, id)).limit(1)] *)
Definition select_by_id (id : string) (db : t) : option Buyer :=
  find (fun b => b_id b =? id) (buyers db).

Definition or_keep {A} (new : option A) (old : A) : A :=
  match new with Some v => v | None => old end.

Definition or_keep_opt {A} (new : option A) (old : option A) : option A :=
  match new with Some v => Some v | None => old end.

(** The row after [.set({...})]: a property that is [undefined] leaves
    its column alone, and [updatedAt] is renewed by its [$onUpdate]. *)
Definition apply_set (now : Z) (d : PartialBuyer) (b : Buyer) : Buyer :=
  {| b_id := b_id b;
     b_fullName := or_keep (p_fullName d) (b_fullName b);
     b_email := or_keep_opt (p_email d) (b_email b);
     b_phone := or_keep (p_phone d) (b_phone b);
     b_city := or_keep (p_city d) (b_city b);
     b_propertyType := or_keep (p_propertyType d) (b_propertyType b);
     b_bhk := or_keep_opt (p_bhk d) (b_bhk b);
     b_purpose := or_keep (p_purpose d) (b_purpose b);
     b_budgetMin := or_keep_opt (p_budgetMin d) (b_budgetMin b);
     b_budgetMax := or_keep_opt (p_budgetMax d) (b_budgetMax b);
     b_timeline := or_keep (p_timeline d) (b_timeline b);
     b_source := or_keep (p_source d) (b_source b);
     b_status := or_keep (p_status d) (b_status b);
     b_notes := or_keep_opt (p_notes d) (b_notes b);
     b_tags := or_keep_opt (p_tags d) (b_tags b);
     b_ownerId := b_ownerId b;
     b_updatedAt := now;
     b_createdAt := b_createdAt b |}.

Definition is_none {A} (o : option A) : bool :=
  match o with None => true | Some _ => false end.

(** Every property handed to [.set] is [undefined]: the driver throws
    'No values to set'. *)
Definition no_values (d : PartialBuyer) : bool :=
  is_none (p_fullName d) && is_none (p_email d) && is_none (p_phone d)
  && is_none (p_city d) && is_none (p_propertyType d)
  && is_none (p_bhk d) && is_none (p_purpose d)
  && is_none (p_budgetMin d) && is_none (p_budgetMax d)
  && is_none (p_timeline d) && is_none (p_source d)
  && is_none (p_status d) && is_none (p_notes d) && is_none (p_tags d).

(** [update(buyers).set(d).where(eq(buyers.id, id))] *)
Definition update_buyers (now : Z) (id : string) (d : PartialBuyer)
    (db : t) : option t :=
  if no_values d then None
  else
    let rows :=
      map (fun b => if b_id b =? id then apply_set now d b else b)
          (buyers db) in
    if forallb (fun b => negb (b_id b =? id) || constraints_ok b) rows
    then Some {| buyers := rows;
                 buyerHistory := buyerHistory db;
                 ids_drawn := ids_drawn db |}
    else None.

Section Inserts.
Context {E : Externals}.

(** [insert(buyerHistory).values({ buyerId, changedBy, diff })]; the
    buyer it references exists wherever the actions call it. *)
Definition insert_history (now : Z) (buyerId changedBy : string)
    (diff : Diff) (db : t) : t :=
  {| buyers := buyers db;
     buyerHistory :=
       buyerHistory db ++
       [{| h_id := gen_random_uuid (ids_drawn db);
           h_buyerId := buyerId;
           h_changedBy := changedBy;
           h_changedAt := now;
           h_diff := diff |}];
     ids_drawn := S (ids_drawn db) |}.

(** How the database reads the values of an inserted row. *)
Definition text_column (v : JS.value) : option string :=
  match v with JS.Str s => Some s | _ => None end.

Definition nullable_text_column (v : JS.value)
  : option (option string) :=
  match v with
  | JS.Undefined | JS.Null => Some None
  | JS.Str s => Some (Some s)
  | _ => None
  end.

Definition enum_column {A} (read : string -> option A) (v : JS.value)
  : option A :=
  match v with JS.Str s => read s | _ => None end.

Definition nullable_enum_column {A} (read : string -> option A)
    (v : JS.value) : option (option A) :=
  match v with
  | JS.Undefined | JS.Null => Some None
  | JS.Str s => match read s with Some a => Some (Some a) | None => None end
  | _ => None
  end.

Definition integer_column (v : JS.value) : option (option Z) :=
  match v with
  | JS.Undefined | JS.Null => Some None
  | JS.Number (JS.Num z) => if int4 z then Some (Some z) else None
  | _ => None
  end.

(** [status] has the default ['New'], [tags] the default ['{}']. *)
Definition status_column (v : JS.value) : option Status :=
  match v with
  | JS.Undefined => Some New
  | _ => enum_column Validation.statusSchema v
  end.

Definition tags_column (v : JS.value) : option (option (list string)) :=
  match v with
  | JS.Undefined => Some (Some [])
  | JS.Null => Some None
  | JS.Array l => Some (Some l)
  | _ => None
  end.

(** [insert(buyers).values({...row, ownerId}).returning()]: the new row
    and the table with it, or [None] when the database rejects a
    value. *)
Definition insert_buyer (now : Z) (row : RawBuyer) (ownerId : string)
    (db : t) : option (Buyer * t) :=
  match text_column (raw_fullName row),
        nullable_text_column (raw_email row),
        text_column (raw_phone row),
        enum_column Validation.citySchema (raw_city row),
        enum_column Validation.propertyTypeSchema (raw_propertyType row),
        nullable_enum_column Validation.bhkSchema (raw_bhk row),
        enum_column Validation.purposeSchema (raw_purpose row) with
  | Some v1, Some v2, Some v3, Some v4, Some v5, Some v6, Some v7 =>
      match integer_column (raw_budgetMin row),
            integer_column (raw_budgetMax row),
            enum_column Validation.timelineSchema (raw_timeline row),
            enum_column Validation.sourceSchema (raw_source row),
            status_column (raw_status row),
            nullable_text_column (raw_notes row),
            tags_column (raw_tags row) with
      | Some v8, Some v9, Some v10, Some v11, Some v12, Some v13,
        Some v14 =>
          let b :=
            {| b_id := gen_random_uuid (ids_drawn db);
               b_fullName := v1; b_email := v2; b_phone := v3;
               b_city := v4; b_propertyType := v5; b_bhk := v6;
               b_purpose := v7; b_budgetMin := v8; b_budgetMax := v9;
               b_timeline := v10; b_source := v11; b_status := v12;
               b_notes := v13; b_tags := v14;
               b_ownerId := ownerId;
               b_updatedAt := now; b_createdAt := now |} in
          if constraints_ok b
          then Some (b, {| buyers := buyers db ++ [b];
                           buyerHistory := buyerHistory db;
                           ids_drawn := S (ids_drawn db) |})
          else None
      | _, _, _, _, _, _, _ => None
      end
  | _, _, _, _, _, _, _ => None
  end.

End Inserts.

End Db.

(* ================================================================== *)
(** ** Mutation Pipeline: the server actions *)
(* ================================================================== *)

Module Actions.
Import Auth.

(** The state the actions share: the cache of the rate limiter and the
    database. *)
Record World := {
  cache : LRUCache.t;
  db : Db.t
}.

(** What a request brings besides its arguments: the user of the session
    and the time at which it is served (milliseconds). *)
Record Request := {
  session : option SupabaseUser;
  now : Z
}.

(** A [FormData] of text fields; [formData.get(name)] is the first value
    under the name, [null] (here [None]) when there is none. *)
Definition FormData : Type := list (string * string).

Definition formData_get (name : string) (formData : FormData)
  : option string :=
  match find (fun kv => fst kv =? name) formData with
  | Some kv => Some (snd kv)
  | None => None
  end.

(** [formData.get(name) as string] *)
Definition as_string (o : option string) : JS.value :=
  match o with Some s => JS.Str s | None => JS.Null end.

(** [formData.get(name) as string || undefined] *)
Definition or_undefined (o : option string) : JS.value :=
  match o with
  | Some s => if s =? "" then JS.Undefined else JS.Str s
  | None => JS.Undefined
  end.

(** [val && val !== '' ? parseInt(val) : undefined] *)
Definition budget_of_form (o : option string) : JS.value :=
  match o with
  | Some val =>
      if JS.truthy (JS.Str val) && negb (val =? "")
      then JS.Number (JS.parseInt val)
      else JS.Undefined
  | None => JS.Undefined
  end.

(** [t.split(',').map(t => t.trim()).filter(Boolean)] *)
Definition split_tags (t : string) : list string :=
  filter (fun s => negb (s =? ""))
         (map JS.trim (JS.split ","%char t)).

(** [formData.get('tags') ? ... : []] *)
Definition tags_of_form (o : option string) : JS.value :=
  match o with
  | Some t => if t =? "" then JS.Array [] else JS.Array (split_tags t)
  | None => JS.Array []
  end.

(** The fields compared for the history, [fieldsToCheck]. *)
Inductive Field : Type :=
| FullName | Email | Phone | FCity | FPropertyType | Bhk | FPurpose
| BudgetMin | BudgetMax | FTimeline | FSource | FStatus | Notes | Tags.

Definition fieldsToCheck : list Field :=
  [FullName; Email; Phone; FCity; FPropertyType; Bhk; FPurpose;
   BudgetMin; BudgetMax; FTimeline; FSource; FStatus; Notes; Tags].

Definition field_name (f : Field) : string :=
  match f with
  | FullName => "fullName" | Email => "email" | Phone => "phone"
  | FCity => "city" | FPropertyType => "propertyType" | Bhk => "bhk"
  | FPurpose => "purpose" | BudgetMin => "budgetMin"
  | BudgetMax => "budgetMax" | FTimeline => "timeline"
  | FSource => "source" | FStatus => "status" | Notes => "notes"
  | Tags => "tags"
  end.

Definition city_text (c : City) : string :=
  match c with
  | Chandigarh => "Chandigarh" | Mohali => "Mohali"
  | Zirakpur => "Zirakpur" | Panchkula => "Panchkula"
  | OtherCity => "Other"
  end.

Definition propertyType_text (p : PropertyType) : string :=
  match p with
  | Apartment => "Apartment" | Villa => "Villa" | Plot => "Plot"
  | Office => "Office" | Retail => "Retail"
  end.

Definition bhk_text (b : BHK) : string :=
  match b with
  | Bhk1 => "1" | Bhk2 => "2" | Bhk3 => "3" | Bhk4 => "4"
  | Studio => "Studio"
  end.

Definition purpose_text (p : Purpose) : string :=
  match p with Buy => "Buy" | Rent => "Rent" end.

Definition timeline_text (t : Timeline) : string :=
  match t with
  | T0_3m => "0-3m" | T3_6m => "3-6m" | TOver6m => ">6m"
  | Exploring => "Exploring"
  end.

Definition source_text (s : Source) : string :=
  match s with
  | Website => "Website" | Referral => "Referral" | WalkIn => "Walk-in"
  | Call => "Call" | OtherSource => "Other"
  end.

Definition status_text (s : Status) : string :=
  match s with
  | New => "New" | Qualified => "Qualified" | Contacted => "Contacted"
  | Visited => "Visited" | Negotiation => "Negotiation"
  | Converted => "Converted" | Dropped => "Dropped"
  end.

(** A column read from the database: [null] for SQL [NULL]. *)
Definition or_null {A} (show : A -> JS.value) (o : option A) : JS.value :=
  match o with Some a => show a | None => JS.Null end.

(** A property of validated data: [undefined] when absent. *)
Definition or_undef {A} (show : A -> JS.value) (o : option A) : JS.value :=
  match o with Some a => show a | None => JS.Undefined end.

Definition num (z : Z) : JS.value := JS.Number (JS.Num z).

(** [currentBuyer[field]] *)
Definition row_field (b : Buyer) (f : Field) : JS.value :=
  match f with
  | FullName => JS.Str (b_fullName b)
  | Email => or_null JS.Str (b_email b)
  | Phone => JS.Str (b_phone b)
  | FCity => JS.Str (city_text (b_city b))
  | FPropertyType => JS.Str (propertyType_text (b_propertyType b))
  | Bhk => or_null (fun x => JS.Str (bhk_text x)) (b_bhk b)
  | FPurpose => JS.Str (purpose_text (b_purpose b))
  | BudgetMin => or_null num (b_budgetMin b)
  | BudgetMax => or_null num (b_budgetMax b)
  | FTimeline => JS.Str (timeline_text (b_timeline b))
  | FSource => JS.Str (source_text (b_source b))
  | FStatus => JS.Str (status_text (b_status b))
  | Notes => or_null JS.Str (b_notes b)
  | Tags => or_null JS.Array (b_tags b)
  end.

(** [validatedData[field]] *)
Definition data_field (d : PartialBuyer) (f : Field) : JS.value :=
  match f with
  | FullName => or_undef JS.Str (p_fullName d)
  | Email => or_undef JS.Str (p_email d)
  | Phone => or_undef JS.Str (p_phone d)
  | FCity => or_undef (fun x => JS.Str (city_text x)) (p_city d)
  | FPropertyType =>
      or_undef (fun x => JS.Str (propertyType_text x)) (p_propertyType d)
  | Bhk => or_undef (fun x => JS.Str (bhk_text x)) (p_bhk d)
  | FPurpose => or_undef (fun x => JS.Str (purpose_text x)) (p_purpose d)
  | BudgetMin => or_undef num (p_budgetMin d)
  | BudgetMax => or_undef num (p_budgetMax d)
  | FTimeline => or_undef (fun x => JS.Str (timeline_text x)) (p_timeline d)
  | FSource => or_undef (fun x => JS.Str (source_text x)) (p_source d)
  | FStatus => or_undef (fun x => JS.Str (status_text x)) (p_status d)
  | Notes => or_undef JS.Str (p_notes d)
  | Tags => or_undef JS.Array (p_tags d)
  end.

(** The loop that fills [changes]:
    [if (JSON.stringify(oldValue) !== JSON.stringify(newValue))
       changes[field] = [oldValue, newValue];] *)
Fixpoint changes_loop (fields : list Field) (currentBuyer : Buyer)
    (validatedData : PartialBuyer)
    (changes : list (string * (JS.value * JS.value)))
  : list (string * (JS.value * JS.value)) :=
  match fields with
  | [] => changes
  | field :: rest =>
      let oldValue := row_field currentBuyer field in
      let newValue := data_field validatedData field in
      if JS.stringify_differs oldValue newValue
      then changes_loop rest currentBuyer validatedData
             (changes ++ [(field_name field, (oldValue, newValue))])
      else changes_loop rest currentBuyer validatedData changes
  end.

Definition compute_changes (currentBuyer : Buyer)
    (validatedData : PartialBuyer)
  : list (string * (JS.value * JS.value)) :=
  changes_loop fieldsToCheck currentBuyer validatedData [].

(** [Object.keys(changes).length > 0] *)
Definition has_changes (changes : list (string * (JS.value * JS.value)))
  : bool :=
  match changes with [] => false | _ :: _ => true end.

(** The row after [.set({ status })]. *)
Definition set_status (now : Z) (s : Status) (b : Buyer) : Buyer :=
  {| b_id := b_id b; b_fullName := b_fullName b; b_email := b_email b;
     b_phone := b_phone b; b_city := b_city b;
     b_propertyType := b_propertyType b; b_bhk := b_bhk b;
     b_purpose := b_purpose b; b_budgetMin := b_budgetMin b;
     b_budgetMax := b_budgetMax b; b_timeline := b_timeline b;
     b_source := b_source b; b_status := s; b_notes := b_notes b;
     b_tags := b_tags b; b_ownerId := b_ownerId b;
     b_updatedAt := now; b_createdAt := b_createdAt b |}.

Section WithExternals.
Context {E : Externals}.

(** [updateBuyerSchema = buyerSchema.partial().extend({
      id: z.string().uuid(...), updatedAt: z.string().optional() })]:
    the parse returns when the partial schema accepts the fields, [id]
    is a string in UUID format and [updatedAt] is a string or
    [undefined] ([null] is neither). *)
Definition updateBuyerSchema_parse (rawData : RawBuyer)
    (id updatedAt : JS.value) : option PartialBuyer :=
  match buyerSchema_partial rawData with
  | None => None
  | Some validatedData =>
      let id_ok :=
        match id with JS.Str s => is_uuid s | _ => false end in
      let updatedAt_ok :=
        match updatedAt with
        | JS.Undefined | JS.Str _ => true
        | _ => false
        end in
      if id_ok && updatedAt_ok then Some validatedData else None
  end.

(** The object [rawData] that [updateBuyer] builds from the form. *)
Definition update_rawData (formData : FormData) : RawBuyer :=
  {| raw_fullName := as_string (formData_get "fullName" formData);
     raw_email := or_undefined (formData_get "email" formData);
     raw_phone := as_string (formData_get "phone" formData);
     raw_city := as_string (formData_get "city" formData);
     raw_propertyType :=
       as_string (formData_get "propertyType" formData);
     raw_bhk := or_undefined (formData_get "bhk" formData);
     raw_purpose := as_string (formData_get "purpose" formData);
     raw_budgetMin := budget_of_form (formData_get "budgetMin" formData);
     raw_budgetMax := budget_of_form (formData_get "budgetMax" formData);
     raw_timeline := as_string (formData_get "timeline" formData);
     raw_source := as_string (formData_get "source" formData);
     raw_status := as_string (formData_get "status" formData);
     raw_notes := or_undefined (formData_get "notes" formData);
     raw_tags := tags_of_form (formData_get "tags" formData) |}.

(** [submittedUpdatedAt &&
     currentBuyer.updatedAt.toISOString() !== submittedUpdatedAt] *)
Definition stale_token (submittedUpdatedAt : option string)
    (currentBuyer : Buyer) : bool :=
  match submittedUpdatedAt with
  | Some token =>
      negb (token =? "")
      && negb (toISOString (b_updatedAt currentBuyer) =? token)
  | None => false
  end.

(** [updateBuyer(formData)] *)
Definition updateBuyer (rq : Request) (formData : FormData) (w : World)
  : outcome unit * World :=
  match requireAuth (session rq) with
  | Thrown e => (Thrown e, w)
  | Done user =>
      let '(admitted, cache1) :=
        RateLimit.checkRateLimit (now rq) (user_id user)
          RateLimit.default_maxRequests (cache w) in
      let w1 := {| cache := cache1; db := db w |} in
      if negb admitted then (Thrown RateLimited, w1)
      else
        let buyerId := formData_get "id" formData in
        let submittedUpdatedAt := formData_get "updatedAt" formData in
        match updateBuyerSchema_parse (update_rawData formData)
                (as_string buyerId) (as_string submittedUpdatedAt) with
        | None => (Thrown ValidationFailed, w1)
        | Some validatedData =>
            match buyerId with
            | None =>
                (* not reached: the parse requires [id] to be a string *)
                (Thrown NotFound, w1)
            | Some id =>
                match Db.select_by_id id (db w1) with
                | None => (Thrown NotFound, w1)
                | Some currentBuyer =>
                    if negb (canEditBuyer user (b_ownerId currentBuyer))
                    then (Thrown Forbidden, w1)
                    else if stale_token submittedUpdatedAt currentBuyer
                    then (Thrown Conflict, w1)
                    else
                      let changes :=
                        compute_changes currentBuyer validatedData in
                      let '(committed, db1) :=
                        Db.transaction
                          (fun tx =>
                             match Db.update_buyers (now rq) id
                                     validatedData tx with
                             | None => None
                             | Some tx1 =>
                                 Some (tt,
                                       if has_changes changes
                                       then Db.insert_history (now rq) id
                                              (user_id user)
                                              (Db.Changes changes) tx1
                                       else tx1)
                             end)
                          (db w1) in
                      match committed with
                      | Some _ =>
                          (Done tt, {| cache := cache1; db := db1 |})
                      | None =>
                          (Thrown PersistenceFailure,
                           {| cache := cache1; db := db1 |})
                      end
                end
            end
        end
  end.

(** [updateBuyerStatus(buyerId, status)]; the column [status] is an
    enumeration, so the database rejects any other text. *)
Definition updateBuyerStatus (rq : Request) (buyerId status : string)
    (w : World) : outcome unit * World :=
  match requireAuth (session rq) with
  | Thrown e => (Thrown e, w)
  | Done user =>
      let '(admitted, cache1) :=
        RateLimit.checkRateLimit (now rq) (user_id user)
          RateLimit.default_maxRequests (cache w) in
      let w1 := {| cache := cache1; db := db w |} in
      if negb admitted then (Thrown RateLimited, w1)
      else
        match Db.select_by_id buyerId (db w1) with
        | None => (Thrown NotFound, w1)
        | Some currentBuyer =>
            if negb (canEditBuyer user (b_ownerId currentBuyer))
            then (Thrown Forbidden, w1)
            else
              let '(committed, db1) :=
                Db.transaction
                  (fun tx =>
                     match Validation.statusSchema status with
                     | None => None
                     | Some s =>
                         let tx1 :=
                           {| Db.buyers :=
                                map (fun b =>
                                       if b_id b =? buyerId
                                       then set_status (now rq) s b
                                       else b)
                                    (Db.buyers tx);
                              Db.buyerHistory := Db.buyerHistory tx;
                              Db.ids_drawn := Db.ids_drawn tx |} in
                         Some (tt,
                               Db.insert_history (now rq) buyerId
                                 (user_id user)
                                 (Db.Changes
                                    [("status",
                                      (JS.Str (status_text
                                                 (b_status currentBuyer)),
                                       JS.Str status))])
                                 tx1)
                     end)
                  (db w1) in
              match committed with
              | Some _ => (Done tt, {| cache := cache1; db := db1 |})
              | None =>
                  (Thrown PersistenceFailure,
                   {| cache := cache1; db := db1 |})
              end
        end
  end.

End WithExternals.

End Actions.

(* ================================================================== *)
(** ** Bulk import and export: [lib/actions/csv.ts] *)
(* ================================================================== *)

Module Csv.
Import Auth Actions.

(** The uploaded file: its size in bytes and its text. *)
Record File := {
  size : Z;
  text : string
}.

(** A parsed row: an object from (transformed) header to cell. *)
Definition Row : Type := list (string * string).

(** [row.name], when it is a non-empty string (that is, truthy). *)
Definition truthy_cell (name : string) (row : Row) : option string :=
  match find (fun kv => fst kv =? name) row with
  | Some kv => if snd kv =? "" then None else Some (snd kv)
  | None => None
  end.

(** [row.a || row.b || ...], when one of them is truthy. *)
Fixpoint first_truthy (names : list string) (row : Row) : option string :=
  match names with
  | [] => None
  | name :: rest =>
      match truthy_cell name row with
      | Some s => Some s
      | None => first_truthy rest row
      end
  end.

(** [row.a || row.b || ''] *)
Definition text_or_empty (names : list string) (row : Row) : JS.value :=
  JS.Str (match first_truthy names row with Some s => s | None => "" end).

(** [row.a || undefined] *)
Definition text_or_undefined (name : string) (row : Row) : JS.value :=
  match truthy_cell name row with
  | Some s => JS.Str s
  | None => JS.Undefined
  end.

(** [row.a || row.b ? parseInt(row.a || row.b) : undefined] *)
Definition budget_cell (names : list string) (row : Row) : JS.value :=
  match first_truthy names row with
  | Some s => JS.Number (JS.parseInt s)
  | None => JS.Undefined
  end.

(** [row.tags ? row.tags.split(',').map(...).filter(Boolean) : []] *)
Definition tags_cell (row : Row) : JS.value :=
  match truthy_cell "tags" row with
  | Some t => JS.Array (split_tags t)
  | None => JS.Array []
  end.

(** The object [transformedRow] built from a row (without [ownerId],
    which only the inserted copy carries). *)
Definition transformedRow (row : Row) : RawBuyer :=
  {| raw_fullName := text_or_empty ["fullname"; "full_name"] row;
     raw_email := text_or_undefined "email" row;
     raw_phone := text_or_empty ["phone"; "phonenumber"; "phonenumber"] row;
     raw_city := text_or_empty ["city"] row;
     raw_propertyType :=
       text_or_empty ["propertytype"; "property_type"] row;
     raw_bhk := text_or_undefined "bhk" row;
     raw_purpose := text_or_empty ["purpose"] row;
     raw_budgetMin := budget_cell ["budgetmin"; "budget_min"] row;
     raw_budgetMax := budget_cell ["budgetmax"; "budget_max"] row;
     raw_timeline := text_or_empty ["timeline"] row;
     raw_source := text_or_empty ["source"] row;
     raw_status := JS.Undefined;
     raw_notes := text_or_undefined "notes" row;
     raw_tags := tags_cell row |}.

(** [5 * 1024 * 1024] *)
Definition max_file_size : Z := 5 * 1024 * 1024.

Definition max_rows : nat := 200.

Section WithExternals.
Context {E : Externals}.

(** The pass that fills [validationErrors]: the numbers ([index + 1])
    of the rows that [csvBuyerSchema.parse] rejects. *)
Fixpoint validate_rows (rows : list Row) (index : nat) : list nat :=
  match rows with
  | [] => []
  | row :: rest =>
      if csvBuyerSchema_accepts (transformedRow row)
      then validate_rows rest (S index)
      else (index + 1)%nat :: validate_rows rest (S index)
  end.

(** The loop inside the transaction: insert the row, then its history
    entry; [None] when an insert throws. *)
Fixpoint insert_rows (now : Z) (userId : string) (rows : list Row)
    (tx : Db.t) (insertedBuyers : list Buyer)
  : option (list Buyer * Db.t) :=
  match rows with
  | [] => Some (insertedBuyers, tx)
  | row :: rest =>
      match Db.insert_buyer now (transformedRow row) userId tx with
      | None => None
      | Some (buyer, tx1) =>
          let tx2 :=
            Db.insert_history now (b_id buyer) userId
              (Db.Created (transformedRow row) userId) tx1 in
          insert_rows now userId rest tx2 (insertedBuyers ++ [buyer])
      end
  end.

(** [importCSV(formData)], given [formData.get('file')]; returns
    [imported]. *)
Definition importCSV (rq : Request) (file : option File) (w : World)
  : outcome nat * World :=
  match requireAuth (session rq) with
  | Thrown e => (Thrown e, w)
  | Done user =>
      match file with
      | None => (Thrown NoFile, w)
      | Some file =>
          if (max_file_size <? size file)%Z then (Thrown FileTooLarge, w)
          else
            let '(errors, rows) := papa_parse (text file) in
            if (0 <? errors)%nat then (Thrown CsvParsingError, w)
            else if (max_rows <? length rows)%nat
            then (Thrown TooManyRows, w)
            else
              let validationErrors := validate_rows rows 0 in
              if (0 <? length validationErrors)%nat
              then (Thrown (RowsInvalid (length validationErrors)), w)
              else
                let '(results, db1) :=
                  Db.transaction
                    (fun tx =>
                       insert_rows (now rq) (user_id user) rows tx [])
                    (db w) in
                match results with
                | Some insertedBuyers =>
                    (Done (length insertedBuyers),
                     {| cache := cache w; db := db1 |})
                | None =>
                    (Thrown PersistenceFailure,
                     {| cache := cache w; db := db1 |})
                end
      end
  end.

End WithExternals.

End Csv.

(* ================================================================== *)
(** ** Query/Filter Builder: the list page and the export *)
(* ================================================================== *)

Module Query.
Import Auth Actions.

Record SearchParams := {
  sp_page : option string;
  sp_search : option string;
  sp_city : option string;
  sp_propertyType : option string;
  sp_status : option string;
  sp_timeline : option string;
  sp_sort : option string
}.

(** The conditions pushed on the list [conditions]. *)
Inductive condition : Type :=
| OwnerIs (userId : string)          (* eq(buyers.ownerId, user.id) *)
| Matches (search : string)          (* or(ilike(fullName, ...), ...) *)
| CityIs (label : string)            (* eq(buyers.city, ...) *)
| PropertyTypeIs (label : string)
| StatusIs (label : string)
| TimelineIs (label : string).

(** [if (params.x)]: the parameter is a non-empty string. *)
Definition given (o : option string) : option string :=
  match o with
  | Some s => if s =? "" then None else Some s
  | None => None
  end.

Definition when_given (o : option string) (c : string -> condition)
  : list condition :=
  match given o with Some s => [c s] | None => [] end.

(** The conditions pushed for the search text and the filters. *)
Definition filters (params : SearchParams) : list condition :=
  when_given (sp_search params) Matches
  ++ when_given (sp_city params) CityIs
  ++ when_given (sp_propertyType params) PropertyTypeIs
  ++ when_given (sp_status params) StatusIs
  ++ when_given (sp_timeline params) TimelineIs.

(** The list [conditions] of both [getBuyers] and [exportCSV]: it starts
    as [canViewAllBuyers(user) ? [] : [eq(buyers.ownerId, user.id)]]. *)
Definition conditions (user : UserWithRole) (params : SearchParams)
  : list condition :=
  (if canViewAllBuyers user then [] else [OwnerIs (user_id user)])
  ++ filters params.

Definition is_some {A} (o : option A) : bool :=
  match o with Some _ => true | None => false end.

(** A text compared with a column of an enumeration has to be one of
    its labels, otherwise the database rejects the query. *)
Definition well_typed (c : condition) : bool :=
  match c with
  | OwnerIs _ | Matches _ => true
  | CityIs l => is_some (Validation.citySchema l)
  | PropertyTypeIs l => is_some (Validation.propertyTypeSchema l)
  | StatusIs l => is_some (Validation.statusSchema l)
  | TimelineIs l => is_some (Validation.timelineSchema l)
  end.

(** The order [desc(buyers.updatedAt)]. *)
Definition updatedAt_desc (a b : Buyer) : bool :=
  (b_updatedAt b <=? b_updatedAt a)%Z.

(** The order in which the database hands over the rows that match one
    statement, before [ORDER BY] arranges them: a rearrangement that the
    database chooses statement by statement.  [ORDER BY] keeps the rows
    that its order does not tell apart as they are handed over, so that
    among such rows every order can come out. *)
Definition scan_order : Type := list Buyer -> list Buyer.

(** Sorting by insertion; [leb] is the order of the listing. *)
Fixpoint insert_by (leb : Buyer -> Buyer -> bool) (x : Buyer)
    (l : list Buyer) : list Buyer :=
  match l with
  | [] => [x]
  | y :: r => if leb x y then x :: l else y :: insert_by leb x r
  end.

Fixpoint sort_by (leb : Buyer -> Buyer -> bool) (l : list Buyer)
  : list Buyer :=
  match l with
  | [] => []
  | x :: r => insert_by leb x (sort_by leb r)
  end.



Section WithExternals.
Context {E : Externals}.

(** Whether a row satisfies a condition; SQL [NULL] in [email] matches
    no pattern. *)
Definition holds (c : condition) (b : Buyer) : bool :=
  match c with
  | OwnerIs userId => b_ownerId b =? userId
  | Matches search =>
      let pattern := ("%" ++ search ++ "%")%string in
      ilike (b_fullName b) pattern
      || ilike (b_phone b) pattern
      || match b_email b with
         | Some e => ilike e pattern
         | None => false
         end
  | CityIs l => city_text (b_city b) =? l
  | PropertyTypeIs l => propertyType_text (b_propertyType b) =? l
  | StatusIs l => status_text (b_status b) =? l
  | TimelineIs l => timeline_text (b_timeline b) =? l
  end.

(** [.where(and(...conditions))] *)
Definition where_and (conds : list condition) (rows : list Buyer)
  : list Buyer :=
  filter (fun b => forallb (fun c => holds c b) conds) rows.







(** The rows [results] from which [exportCSV(searchParams)] writes its
    text (one line per row, after the header); [scan] is the order in
    which the database hands over the rows of the query. *)
Definition exportCSV_results (scan : scan_order)
    (session : option SupabaseUser)
    (params : SearchParams) (db : Db.t) : outcome (list Buyer) :=
  match requireAuth session with
  | Thrown e => Thrown e
  | Done user =>
      let conds := conditions user params in
      if negb (forallb well_typed conds) then Thrown PersistenceFailure
      else
        Done (sort_by updatedAt_desc
                (scan (where_and conds (Db.buyers db))))
  end.

End WithExternals.

End Query.

(* ================================================================== *)
(** ** One choice of the external functions, and sample data *)
(* ================================================================== *)

(** The statements below hold for every [Externals]; this module fixes one
    so that the model can be run on concrete requests. *)
Module Sample.

Definition digit_char (d : Z) : ascii :=
  ascii_of_nat (48 + Z.to_nat d).

(** The last [width] decimal digits of [z], in front of [acc]. *)
Fixpoint pad (width : nat) (z : Z) (acc : string) : string :=
  match width with
  | O => acc
  | S w => pad w (z / 10)%Z (String (digit_char (z mod 10)%Z) acc)
  end.

(** [YYYY-MM-DDTHH:mm:ss.sssZ] for a time in milliseconds since the
    epoch (years 0 to 9999). *)
Definition iso (ms : Z) : string :=
  let days := (ms / 86400000)%Z in
  let rest := (ms mod 86400000)%Z in
  let z := (days + 719468)%Z in
  let era := (z / 146097)%Z in
  let doe := (z - era * 146097)%Z in
  let yoe :=
    ((doe - doe / 1460 + doe / 36524 - doe / 146096) / 365)%Z in
  let doy := (doe - (365 * yoe + yoe / 4 - yoe / 100))%Z in
  let mp := ((5 * doy + 2) / 153)%Z in
  let d := (doy - (153 * mp + 2) / 5 + 1)%Z in
  let m := (if mp <? 10 then mp + 3 else mp - 9)%Z in
  let y := (yoe + era * 400 + (if m <=? 2 then 1 else 0))%Z in
  pad 4 y
    (String "-" (pad 2 m
    (String "-" (pad 2 d
    (String "T" (pad 2 (rest / 3600000)
    (String ":" (pad 2 (rest / 60000 mod 60)
    (String ":" (pad 2 (rest / 1000 mod 60)
    (String "." (pad 3 (rest mod 1000) "Z"))))))))))))%Z.

Definition lower (c : ascii) : ascii :=
  let n := nat_of_ascii c in
  if ((65 <=? n) && (n <=? 90))%nat then ascii_of_nat (n + 32) else c.

Fixpoint map_string (f : ascii -> ascii) (s : string) : string :=
  match s with
  | EmptyString => EmptyString
  | String c r => String (f c) (map_string f r)
  end.

Fixpoint drop_char (x : ascii) (s : string) : string :=
  match s with
  | EmptyString => EmptyString
  | String c r =>
      if Ascii.eqb c x then drop_char x r else String c (drop_char x r)
  end.

Fixpoint drop_white (s : string) : string :=
  match s with
  | EmptyString => EmptyString
  | String c r =>
      if JS.is_white c then drop_white r else String c (drop_white r)
  end.

Definition contains (needle hay : string) : bool :=
  match index 0 needle hay with Some _ => true | None => false end.

(** A text with an at sign. *)
Definition sample_is_email (s : string) : bool := contains "@" s.

(** A text of 36 characters. *)
Definition sample_is_uuid (s : string) : bool :=
  (String.length s =? 36)%nat.

(** The pattern without its percent signs occurs in the text, letters
    compared without case. *)
Definition sample_ilike (text pattern : string) : bool :=
  contains (map_string lower (drop_char "%"%char pattern))
           (map_string lower text).

Definition sample_uuid (n : nat) : string :=
  ("00000000-0000-4000-8000-" ++ pad 12 (Z.of_nat n) "")%string.

(** Comma separated lines without quoting; the header is trimmed, put in
    lower case and stripped of white space; empty lines are skipped. *)
Definition sample_papa_parse (text : string)
  : nat * list (list (string * string)) :=
  match filter (fun l => negb (l =? ""))
               (JS.split (ascii_of_nat 10) text) with
  | [] => (0%nat, [])
  | header :: lines =>
      let names :=
        map (fun h => drop_white (map_string lower h))
            (JS.split ","%char header) in
      (0%nat, map (fun l => combine names (JS.split ","%char l)) lines)
  end.

Definition sample_column_leb (field : string)
  : option (Buyer -> Buyer -> bool) :=
  if field =? "fullName"
  then Some (fun a b => String.leb (b_fullName a) (b_fullName b))
  else if field =? "updatedAt"
  then Some (fun a b => (b_updatedAt a <=? b_updatedAt b)%Z)
  else if field =? "createdAt"
  then Some (fun a b => (b_createdAt a <=? b_createdAt b)%Z)
  else None.

(** The formats alone; the two derived schemas are filled in below. *)
Definition formats : Externals :=
  {| is_email := sample_is_email;
     is_uuid := sample_is_uuid;
     toISOString := iso;
     buyerSchema_partial := fun _ => None;
     csvBuyerSchema_accepts := fun _ => false;
     gen_random_uuid := sample_uuid;
     papa_parse := sample_papa_parse;
     ilike := sample_ilike;
     column_leb := sample_column_leb |}.

(** A field of the partial schema: [undefined] is accepted as it is, any
    other value has to pass the field without an issue. *)
Definition optional {A} (field : JS.value -> Zod.parsed A) (v : JS.value)
  : option (option A) :=
  match v with
  | JS.Undefined => Some None
  | _ =>
      match field v with
      | (Some a, []) => Some (Some a)
      | _ => None
      end
  end.

Definition optional_flat {A} (field : JS.value -> Zod.parsed (option A))
    (v : JS.value) : option (option A) :=
  match field v with
  | (Some a, []) => Some a
  | _ => None
  end.

(** The partial schema read field by field, without cross-field rules. *)
Definition sample_partial (r : RawBuyer) : option PartialBuyer :=
  match
    optional (@Validation.fullName_field) (raw_fullName r),
    optional_flat (@Validation.email_field formats) (raw_email r),
    optional (@Validation.phone_field) (raw_phone r),
    optional (Zod.enum Validation.citySchema "city") (raw_city r),
    optional (Zod.enum Validation.propertyTypeSchema "propertyType")
      (raw_propertyType r),
    optional_flat (@Validation.bhk_field) (raw_bhk r),
    optional (Zod.enum Validation.purposeSchema "purpose") (raw_purpose r)
  with
  | Some v1, Some v2, Some v3, Some v4, Some v5, Some v6, Some v7 =>
      match
        optional_flat (@Validation.budget_field "budgetMin")
          (raw_budgetMin r),
        optional_flat (@Validation.budget_field "budgetMax")
          (raw_budgetMax r),
        optional (Zod.enum Validation.timelineSchema "timeline")
          (raw_timeline r),
        optional (Zod.enum Validation.sourceSchema "source")
          (raw_source r),
        optional (Zod.enum Validation.statusSchema "status")
          (raw_status r),
        optional_flat (@Validation.notes_field) (raw_notes r),
        optional (@Validation.tags_field) (raw_tags r)
      with
      | Some v8, Some v9, Some v10, Some v11, Some v12, Some v13,
        Some v14 =>
          Some {| p_fullName := v1; p_email := v2; p_phone := v3;
                  p_city := v4; p_propertyType := v5; p_bhk := v6;
                  p_purpose := v7; p_budgetMin := v8; p_budgetMax := v9;
                  p_timeline := v10; p_source := v11; p_status := v12;
                  p_notes := v13; p_tags := v14 |}
      | _, _, _, _, _, _, _ => None
      end
  | _, _, _, _, _, _, _ => None
  end.

Definition externals : Externals :=
  {| is_email := sample_is_email;
     is_uuid := sample_is_uuid;
     toISOString := iso;
     buyerSchema_partial := sample_partial;
     csvBuyerSchema_accepts :=
       fun r => Validation.success (@Validation.buyerSchema_safeParse
                                      formats r);
     gen_random_uuid := sample_uuid;
     papa_parse := sample_papa_parse;
     ilike := sample_ilike;
     column_leb := sample_column_leb |}.

(** An input like the one of the unit tests of the schema: a lead for a
    plot, every optional field missing. *)
Definition plot_lead : RawBuyer :=
  {| raw_fullName := JS.Str "John Doe";
     raw_email := JS.Undefined;
     raw_phone := JS.Str "9876543210";
     raw_city := JS.Str "Chandigarh";
     raw_propertyType := JS.Str "Plot";
     raw_bhk := JS.Undefined;
     raw_purpose := JS.Str "Buy";
     raw_budgetMin := JS.Undefined;
     raw_budgetMax := JS.Undefined;
     raw_timeline := JS.Str "3-6m";
     raw_source := JS.Str "Website";
     raw_status := JS.Undefined;
     raw_notes := JS.Undefined;
     raw_tags := JS.Undefined |}.

(** The complete input of the first unit test. *)
Definition complete_lead : RawBuyer :=
  {| raw_fullName := JS.Str "John Doe";
     raw_email := JS.Str "john@example.com";
     raw_phone := JS.Str "9876543210";
     raw_city := JS.Str "Chandigarh";
     raw_propertyType := JS.Str "Apartment";
     raw_bhk := JS.Str "2";
     raw_purpose := JS.Str "Buy";
     raw_budgetMin := JS.Number (JS.Num 5000000);
     raw_budgetMax := JS.Number (JS.Num 10000000);
     raw_timeline := JS.Str "3-6m";
     raw_source := JS.Str "Website";
     raw_status := JS.Undefined;
     raw_notes := JS.Str "Interested in 2BHK apartment";
     raw_tags := JS.Array ["urgent"; "premium"] |}.

(** The input of the unit test on required fields: every one empty. *)
Definition incomplete_lead : RawBuyer :=
  {| raw_fullName := JS.Str "";
     raw_email := JS.Undefined;
     raw_phone := JS.Str "";
     raw_city := JS.Str "";
     raw_propertyType := JS.Str "";
     raw_bhk := JS.Undefined;
     raw_purpose := JS.Str "";
     raw_budgetMin := JS.Undefined;
     raw_budgetMax := JS.Undefined;
     raw_timeline := JS.Str "";
     raw_source := JS.Str "";
     raw_status := JS.Undefined;
     raw_notes := JS.Undefined;
     raw_tags := JS.Undefined |}.

Definition with_propertyType (v : JS.value) (r : RawBuyer) : RawBuyer :=
  {| raw_fullName := raw_fullName r; raw_email := raw_email r;
     raw_phone := raw_phone r; raw_city := raw_city r;
     raw_propertyType := v; raw_bhk := raw_bhk r;
     raw_purpose := raw_purpose r; raw_budgetMin := raw_budgetMin r;
     raw_budgetMax := raw_budgetMax r; raw_timeline := raw_timeline r;
     raw_source := raw_source r; raw_status := raw_status r;
     raw_notes := raw_notes r; raw_tags := raw_tags r |}.

Definition with_bhk (v : JS.value) (r : RawBuyer) : RawBuyer :=
  {| raw_fullName := raw_fullName r; raw_email := raw_email r;
     raw_phone := raw_phone r; raw_city := raw_city r;
     raw_propertyType := raw_propertyType r; raw_bhk := v;
     raw_purpose := raw_purpose r; raw_budgetMin := raw_budgetMin r;
     raw_budgetMax := raw_budgetMax r; raw_timeline := raw_timeline r;
     raw_source := raw_source r; raw_status := raw_status r;
     raw_notes := raw_notes r; raw_tags := raw_tags r |}.

Definition with_budget (lo hi : JS.value) (r : RawBuyer) : RawBuyer :=
  {| raw_fullName := raw_fullName r; raw_email := raw_email r;
     raw_phone := raw_phone r; raw_city := raw_city r;
     raw_propertyType := raw_propertyType r; raw_bhk := raw_bhk r;
     raw_purpose := raw_purpose r; raw_budgetMin := lo;
     raw_budgetMax := hi; raw_timeline := raw_timeline r;
     raw_source := raw_source r; raw_status := raw_status r;
     raw_notes := raw_notes r; raw_tags := raw_tags r |}.

Definition with_city (v : JS.value) (r : RawBuyer) : RawBuyer :=
  {| raw_fullName := raw_fullName r; raw_email := raw_email r;
     raw_phone := raw_phone r; raw_city := v;
     raw_propertyType := raw_propertyType r; raw_bhk := raw_bhk r;
     raw_purpose := raw_purpose r; raw_budgetMin := raw_budgetMin r;
     raw_budgetMax := raw_budgetMax r; raw_timeline := raw_timeline r;
     raw_source := raw_source r; raw_status := raw_status r;
     raw_notes := raw_notes r; raw_tags := raw_tags r |}.

(** A signed-in user without any role. *)
Definition agent : Auth.SupabaseUser :=
  {| Auth.su_id := sample_uuid 1;
     Auth.su_email := Some "agent@example.com";
     Auth.user_metadata_role := JS.Undefined;
     Auth.app_metadata_role := JS.Undefined |}.

Definition another_agent : Auth.SupabaseUser :=
  {| Auth.su_id := sample_uuid 2;
     Auth.su_email := Some "other@example.com";
     Auth.user_metadata_role := JS.Undefined;
     Auth.app_metadata_role := JS.Undefined |}.

Definition admin : Auth.SupabaseUser :=
  {| Auth.su_id := sample_uuid 3;
     Auth.su_email := Some "boss@example.com";
     Auth.user_metadata_role := JS.Str "admin";
     Auth.app_metadata_role := JS.Undefined |}.

(** The stored lead of [agent]: a plot, every nullable column [NULL]
    except the tags. *)
Definition stored_lead : Buyer :=
  {| b_id := sample_uuid 7;
     b_fullName := "John Doe";
     b_email := None;
     b_phone := "9876543210";
     b_city := Chandigarh;
     b_propertyType := Plot;
     b_bhk := None;
     b_purpose := Buy;
     b_budgetMin := None;
     b_budgetMax := None;
     b_timeline := T3_6m;
     b_source := Website;
     b_status := New;
     b_notes := None;
     b_tags := Some [];
     b_ownerId := sample_uuid 1;
     b_updatedAt := 1757000000123;
     b_createdAt := 1756000000000 |}.

(** A lead of [another_agent]. *)
Definition other_lead : Buyer :=
  {| b_id := sample_uuid 8;
     b_fullName := "Asha Rao";
     b_email := Some "asha@example.com";
     b_phone := "9000000001";
     b_city := Mohali;
     b_propertyType := Villa;
     b_bhk := Some Bhk3;
     b_purpose := Buy;
     b_budgetMin := Some 5000000%Z;
     b_budgetMax := Some 9000000%Z;
     b_timeline := T0_3m;
     b_source := Referral;
     b_status := Qualified;
     b_notes := Some "Prefers a corner plot";
     b_tags := Some ["urgent"];
     b_ownerId := sample_uuid 2;
     b_updatedAt := 1757000500000;
     b_createdAt := 1756000500000 |}.

Definition world : Actions.World :=
  {| Actions.cache := [];
     Actions.db :=
       {| Db.buyers := [stored_lead; other_lead];
          Db.buyerHistory := [];
          Db.ids_drawn := 9 |} |}.

Definition request_of (user : Auth.SupabaseUser) : Actions.Request :=
  {| Actions.session := Some user; Actions.now := 1757000900000 |}.

(** The edit form of [stored_lead] with the given name, and with the
    token [updatedAt] when there is one. *)
Definition edit_form (name : string) (token : option string)
  : Actions.FormData :=
  [("id", sample_uuid 7); ("fullName", name); ("email", "");
   ("phone", "9876543210"); ("city", "Chandigarh");
   ("propertyType", "Plot"); ("bhk", ""); ("purpose", "Buy");
   ("budgetMin", ""); ("budgetMax", ""); ("timeline", "3-6m");
   ("source", "Website"); ("status", "New"); ("notes", "");
   ("tags", "")]
  ++ match token with
     | Some t => [("updatedAt", t)]
     | None => []
     end.

Definition no_params : Query.SearchParams :=
  {| Query.sp_page := None; Query.sp_search := None;
     Query.sp_city := None; Query.sp_propertyType := None;
     Query.sp_status := None; Query.sp_timeline := None;
     Query.sp_sort := None |}.






(** Ten requests of caller [a], then one request of each of a thousand
    other callers, then one more request of [a], all at the same
    instant. *)
Definition flood : list (Z * string) :=
  repeat (0%Z, "a") 10
  ++ map (fun i => (0%Z, pad 3 (Z.of_nat i) "")) (seq 0 1000)
  ++ [(0%Z, "a")].

End Sample.

(* ================================================================== *)
(** ** Text of numbers and of lists *)
(* ================================================================== *)

Module JSText.

Definition digit_char (d : Z) : ascii :=
  ascii_of_nat (48 + Z.to_nat d).

(** The decimal digits of [n], most significant first, in front of [acc];
    [fuel] bounds the number of digits. *)
Fixpoint of_nonneg (fuel : nat) (n : Z) (acc : string) : string :=
  match fuel with
  | O => acc
  | S f =>
      let acc' := String (digit_char (n mod 10)%Z) acc in
      if (n <? 10)%Z then acc' else of_nonneg f (n / 10)%Z acc'
  end.

(** [String(z)] and [z.toString()] for an integer below [10^21] in
    absolute value, which JavaScript writes with all its digits. *)
Definition of_Z (z : Z) : string :=
  if (z <? 0)%Z
  then String "-" (of_nonneg (S (Z.to_nat (Z.log2 (- z)))) (- z)%Z "")
  else of_nonneg (S (Z.to_nat (Z.log2 z))) z "".

(** [l.join(sep)] *)
Definition join (sep : string) (l : list string) : string :=
  String.concat sep l.

(** A character is one of the decimal digits. *)
Definition is_digit (c : ascii) : bool :=
  let n := nat_of_ascii c in ((48 <=? n) && (n <=? 57))%nat.

(** The text starts with a digit, or is empty. *)
Definition digit_head (s : string) : Prop :=
  match s with
  | EmptyString => True
  | String c _ => is_digit c = true
  end.

(** No comma occurs in the text. *)
Fixpoint comma_free (s : string) : bool :=
  match s with
  | EmptyString => true
  | String c r => negb (Ascii.eqb c ","%char) && comma_free r
  end.

(** A tag that survives being joined with commas and split again: not
    empty, without a comma, without white space at either end. *)
Definition clean_tag (t : string) : bool :=
  negb (t =? "") && comma_free t && (JS.trim t =? t).

End JSText.

(* ================================================================== *)
(** ** Mutation Pipeline: [createBuyer] and the form that calls it *)
(* ================================================================== *)

Module Create.
Import Auth Actions.

(** The object [rawData] that [createBuyer] builds from the form; it has
    no property [status]. *)
Definition create_rawData (formData : FormData) : RawBuyer :=
  {| raw_fullName := as_string (formData_get "fullName" formData);
     raw_email := or_undefined (formData_get "email" formData);
     raw_phone := as_string (formData_get "phone" formData);
     raw_city := as_string (formData_get "city" formData);
     raw_propertyType := as_string (formData_get "propertyType" formData);
     raw_bhk := or_undefined (formData_get "bhk" formData);
     raw_purpose := as_string (formData_get "purpose" formData);
     raw_budgetMin := budget_of_form (formData_get "budgetMin" formData);
     raw_budgetMax := budget_of_form (formData_get "budgetMax" formData);
     raw_timeline := as_string (formData_get "timeline" formData);
     raw_source := as_string (formData_get "source" formData);
     raw_status := JS.Undefined;
     raw_notes := or_undefined (formData_get "notes" formData);
     raw_tags := tags_of_form (formData_get "tags" formData) |}.

(** The row for [{...validatedData, ownerId}]; the database supplies the
    id and both timestamps. *)
Definition row_of_data (id : string) (now : Z) (ownerId : string)
    (data : BuyerData) : Buyer :=
  {| b_id := id;
     b_fullName := fullName data;
     b_email := email data;
     b_phone := phone data;
     b_city := city data;
     b_propertyType := propertyType data;
     b_bhk := bhk data;
     b_purpose := purpose data;
     b_budgetMin := budgetMin data;
     b_budgetMax := budgetMax data;
     b_timeline := timeline data;
     b_source := source data;
     b_status := status data;
     b_notes := notes data;
     b_tags := Some (tags data);
     b_ownerId := ownerId;
     b_updatedAt := now;
     b_createdAt := now |}.

(** The entries that the [onSubmit] of the page for a new lead appends to
    its [FormData]: a property that is [undefined] is skipped, the tags are
    joined with commas, a budget is appended when it is truthy, every other
    value as its text. *)
Definition optional_entry (key : string) (o : option string)
  : list (string * string) :=
  match o with Some v => [(key, v)] | None => [] end.

(** [String(value)] of a budget that passes [value && value !== ''],
    that is, of a budget other than zero. *)
Definition truthy_budget (o : option Z) : option string :=
  match o with
  | Some z => if (z =? 0)%Z then None else Some (JSText.of_Z z)
  | None => None
  end.

Definition onSubmit_formData (data : BuyerData) : FormData :=
  [("fullName", fullName data)]
  ++ optional_entry "email" (email data)
  ++ [("phone", phone data);
      ("city", city_text (city data));
      ("propertyType", propertyType_text (propertyType data))]
  ++ optional_entry "bhk" (option_map bhk_text (bhk data))
  ++ [("purpose", purpose_text (purpose data))]
  ++ optional_entry "budgetMin" (truthy_budget (budgetMin data))
  ++ optional_entry "budgetMax" (truthy_budget (budgetMax data))
  ++ [("timeline", timeline_text (timeline data));
      ("source", source_text (source data));
      ("status", status_text (status data))]
  ++ optional_entry "notes" (notes data)
  ++ [("tags", JSText.join "," (tags data))].

(** The data as the server reads it back from that form. *)
Definition with_tags_and_status (l : list string) (s : Status)
    (data : BuyerData) : BuyerData :=
  {| fullName := fullName data; email := email data; phone := phone data;
     city := city data; propertyType := propertyType data;
     bhk := bhk data; purpose := purpose data;
     budgetMin := budgetMin data; budgetMax := budgetMax data;
     timeline := timeline data; source := source data; status := s;
     notes := notes data; tags := l |}.

Section WithExternals.
Context {E : Externals}.

(** [JSON.stringify(validatedData)], the text kept in the history. *)
Variable JSON_stringify_data : BuyerData -> string.

(** [insert(buyers).values({...validatedData, ownerId}).returning()] *)
Definition insert_data (now : Z) (data : BuyerData) (ownerId : string)
    (db : Db.t) : option (Buyer * Db.t) :=
  let b :=
    row_of_data (gen_random_uuid (Db.ids_drawn db)) now ownerId data in
  if Db.constraints_ok b
  then Some (b, {| Db.buyers := Db.buyers db ++ [b];
                   Db.buyerHistory := Db.buyerHistory db;
                   Db.ids_drawn := S (Db.ids_drawn db) |})
  else None.

(** [createBuyer(formData)]; it ends in [redirect(`/buyers/${result.id}`)],
    here the result [Done id]. *)
Definition createBuyer (rq : Request) (formData : FormData) (w : World)
  : outcome string * World :=
  match requireAuth (session rq) with
  | Thrown e => (Thrown e, w)
  | Done user =>
      let '(admitted, cache1) :=
        RateLimit.checkRateLimit (now rq) (user_id user)
          RateLimit.default_maxRequests (cache w) in
      let w1 := {| cache := cache1; db := db w |} in
      if negb admitted then (Thrown RateLimited, w1)
      else
        match Validation.buyerSchema_safeParse (create_rawData formData) with
        | Validation.Failure _ => (Thrown ValidationFailed, w1)
        | Validation.Success validatedData =>
            let '(result, db1) :=
              Db.transaction
                (fun tx =>
                   match insert_data (now rq) validatedData (user_id user)
                           tx with
                   | None => None
                   | Some (newBuyer, tx1) =>
                       Some (newBuyer,
                             Db.insert_history (now rq) (b_id newBuyer)
                               (user_id user)
                               (Db.Changes
                                  [("created",
                                    (JS.Null,
                                     JS.Str (JSON_stringify_data
                                               validatedData)))])
                               tx1)
                   end)
                (db w1) in
            match result with
            | Some newBuyer =>
                (Done (b_id newBuyer), {| cache := cache1; db := db1 |})
            | None =>
                (Thrown PersistenceFailure,
                 {| cache := cache1; db := db1 |})
            end
        end
  end.

End WithExternals.

End Create.

(* ================================================================== *)
(** ** The page of one lead: [getBuyer] *)
(* ================================================================== *)

Module Detail.
Import Auth Actions.

(** The order [desc(buyerHistory.changedAt)]. *)
Definition changedAt_desc (a b : Db.HistoryEntry) : bool :=
  (Db.h_changedAt b <=? Db.h_changedAt a)%Z.

Fixpoint insert_entry (x : Db.HistoryEntry) (l : list Db.HistoryEntry)
  : list Db.HistoryEntry :=
  match l with
  | [] => [x]
  | y :: r => if changedAt_desc x y then x :: l else y :: insert_entry x r
  end.

Fixpoint sort_entries (l : list Db.HistoryEntry) : list Db.HistoryEntry :=
  match l with
  | [] => []
  | x :: r => insert_entry x (sort_entries r)
  end.

(** [canViewAllBuyers(user) ? eq(buyers.id, id)
      : and(eq(buyers.id, id), eq(buyers.ownerId, user.id))] *)
Definition whereCondition (user : UserWithRole) (id : string) (b : Buyer)
  : bool :=
  if canViewAllBuyers user then b_id b =? id
  else (b_id b =? id) && (b_ownerId b =? user_id user).

(** [getBuyer(id)]: [Done None] is the [null] that the page turns into
    "not found". *)
Definition getBuyer (session : option SupabaseUser) (id : string)
    (db : Db.t) : outcome (option (Buyer * list Db.HistoryEntry)) :=
  match getCurrentUser session with
  | None => Thrown RedirectToLogin
  | Some user =>
      match find (whereCondition user id) (Db.buyers db) with
      | None => Done None
      | Some buyer =>
          let history :=
            firstn 5
              (sort_entries
                 (filter (fun h => Db.h_buyerId h =? id)
                         (Db.buyerHistory db))) in
          Done (Some (buyer, history))
      end
  end.

End Detail.

(* ================================================================== *)
(** ** The text of the export *)
(* ================================================================== *)

Module CsvExport.
Import Auth Actions.

Definition dquote : ascii := ascii_of_nat 34.

Definition newline : ascii := ascii_of_nat 10.

(** The replacement of every quote by two quotes, as the export does
    before it puts a field between quotes. *)
Fixpoint double_quotes (s : string) : string :=
  match s with
  | EmptyString => EmptyString
  | String c r =>
      if Ascii.eqb c dquote
      then String dquote (String dquote (double_quotes r))
      else String c (double_quotes r)
  end.

(** The field between quotes, its own quotes doubled. *)
Definition quote_field (s : string) : string :=
  String dquote (double_quotes s ++ String dquote EmptyString)%string.

Definition headers : list string :=
  ["Full Name"; "Email"; "Phone"; "City"; "Property Type"; "BHK";
   "Purpose"; "Budget Min"; "Budget Max"; "Timeline"; "Source"; "Status";
   "Notes"; "Tags"; "Created At"; "Updated At"].

(** [x || ''] on a nullable text *)
Definition or_empty (o : option string) : string :=
  match o with Some s => s | None => "" end.

(** [String(buyer.budgetMin || '')] *)
Definition budget_text (o : option Z) : string :=
  match o with
  | Some z => if (z =? 0)%Z then "" else JSText.of_Z z
  | None => ""
  end.

(** [buyer.tags?.join(', ') || ''] *)
Definition tags_text (o : option (list string)) : string :=
  match o with Some l => JSText.join ", " l | None => "" end.

(** One line of the listing, a field after the other. *)
Definition line (fields : list string) : string :=
  JSText.join "," (map quote_field fields).

(** [transformHeader] of the import:
    [header.trim().toLowerCase().replace(/\s+/g, '')], on ASCII. *)
Definition lower (c : ascii) : ascii :=
  let n := nat_of_ascii c in
  if ((65 <=? n) && (n <=? 90))%nat then ascii_of_nat (n + 32) else c.

Fixpoint toLowerCase (s : string) : string :=
  match s with
  | EmptyString => EmptyString
  | String c r => String (lower c) (toLowerCase r)
  end.

Fixpoint remove_white (s : string) : string :=
  match s with
  | EmptyString => EmptyString
  | String c r =>
      if JS.is_white c then remove_white r else String c (remove_white r)
  end.

Definition transformHeader (header : string) : string :=
  remove_white (toLowerCase (JS.trim header)).

(** A reader of the listing, to state that the text can be read back: a
    field is read between quotes, a doubled quote inside it stands for one
    quote; a comma follows a field, a line feed follows a line.  [None]
    when the text has another form. *)
Inductive reading : Type :=
| FieldStart      (* a field has to open *)
| InField         (* inside the quotes *)
| QuoteSeen.      (* a quote inside a field: its end, or half a quote *)

Fixpoint read (s : string) (state : reading) (field : string)
    (fields : list string) (lines : list (list string))
  : option (list (list string)) :=
  match s with
  | EmptyString =>
      match state with
      | QuoteSeen =>
          Some (rev (rev (JS.rev_string field EmptyString :: fields)
                     :: lines))
      | _ => None
      end
  | String c r =>
      match state with
      | FieldStart =>
          if Ascii.eqb c dquote then read r InField EmptyString fields lines
          else None
      | InField =>
          if Ascii.eqb c dquote then read r QuoteSeen field fields lines
          else read r InField (String c field) fields lines
      | QuoteSeen =>
          if Ascii.eqb c dquote
          then read r InField (String c field) fields lines
          else if Ascii.eqb c ","%char
          then read r FieldStart EmptyString
                 (JS.rev_string field EmptyString :: fields) lines
          else if Ascii.eqb c newline
          then read r FieldStart EmptyString []
                 (rev (JS.rev_string field EmptyString :: fields) :: lines)
          else None
      end
  end.

Definition read_csv (text : string) : option (list (list string)) :=
  read text FieldStart EmptyString [] [].

(** The row that an import makes of an exported lead when nothing is lost
    on the way: the lead under a new id, owner and times, its status back
    to the default. *)
Definition imported_copy (id ownerId : string) (now : Z) (b : Buyer)
  : Buyer :=
  {| b_id := id; b_fullName := b_fullName b; b_email := b_email b;
     b_phone := b_phone b; b_city := b_city b;
     b_propertyType := b_propertyType b; b_bhk := b_bhk b;
     b_purpose := b_purpose b; b_budgetMin := b_budgetMin b;
     b_budgetMax := b_budgetMax b; b_timeline := b_timeline b;
     b_source := b_source b; b_status := New; b_notes := b_notes b;
     b_tags := b_tags b; b_ownerId := ownerId;
     b_updatedAt := now; b_createdAt := now |}.

Record ExportFile := {
  content : string;
  filename : string;
  contentType : string
}.

Section WithExternals.
Context {E : Externals}.

(** The array of a row in [csvRows], each value as [String(field)]. *)
Definition csvRow (buyer : Buyer) : list string :=
  [b_fullName buyer;
   or_empty (b_email buyer);
   b_phone buyer;
   city_text (b_city buyer);
   propertyType_text (b_propertyType buyer);
   or_empty (option_map bhk_text (b_bhk buyer));
   purpose_text (b_purpose buyer);
   budget_text (b_budgetMin buyer);
   budget_text (b_budgetMax buyer);
   timeline_text (b_timeline buyer);
   source_text (b_source buyer);
   status_text (b_status buyer);
   or_empty (b_notes buyer);
   tags_text (b_tags buyer);
   toISOString (b_createdAt buyer);
   toISOString (b_updatedAt buyer)].

(** [[headers, ...csvRows].map(row => row.map(quote).join(',')).join('\n')] *)
Definition csvContent (results : list Buyer) : string :=
  JSText.join (String newline EmptyString)
    (map line (headers :: map csvRow results)).

(** [exportCSV(searchParams)] at the time [now]; [scan] is the order in
    which the database hands over the rows. *)
Definition exportCSV (scan : Query.scan_order) (rq : Request)
    (params : Query.SearchParams) (db : Db.t) : outcome ExportFile :=
  match Query.exportCSV_results scan (session rq) params db with
  | Thrown e => Thrown e
  | Done results =>
      let date :=
        hd EmptyString (JS.split "T"%char (toISOString (now rq))) in
      Done {| content := csvContent results;
              filename := ("leads-" ++ date ++ ".csv")%string;
              contentType := "text/csv" |}
  end.

(** The row that the import reads from a line of the export: the cells
    under the transformed headers. *)
Definition reimported (buyer : Buyer) : Csv.Row :=
  combine (map transformHeader headers) (csvRow buyer).

End WithExternals.

End CsvExport.

(* ================================================================== *)
(** ** The edit form of a lead *)
(* ================================================================== *)

Module EditForm.
Import Actions.

(** The values of the form, as [updateBuyerFormSchema] types them: texts,
    [None] for [undefined]. *)
Record UpdateBuyerFormData := {
  f_id : string;
  f_updatedAt : option string;
  f_fullName : option string;
  f_email : option string;
  f_phone : option string;
  f_city : option string;
  f_propertyType : option string;
  f_bhk : option string;
  f_purpose : option string;
  f_budgetMin : option string;
  f_budgetMax : option string;
  f_timeline : option string;
  f_source : option string;
  f_status : option string;
  f_notes : option string;
  f_tags : option (list string)
}.

(** [buyer.budgetMin?.toString() || ''] *)
Definition budget_default (o : option Z) : string :=
  match o with Some z => JSText.of_Z z | None => "" end.

(** The [FormData] that [onSubmit] fills from the values: a value that is
    [undefined] is skipped, the tags are joined with commas. *)
Definition onSubmit_formData (data : UpdateBuyerFormData) : FormData :=
  [("id", f_id data)]
  ++ Create.optional_entry "updatedAt" (f_updatedAt data)
  ++ Create.optional_entry "fullName" (f_fullName data)
  ++ Create.optional_entry "email" (f_email data)
  ++ Create.optional_entry "phone" (f_phone data)
  ++ Create.optional_entry "city" (f_city data)
  ++ Create.optional_entry "propertyType" (f_propertyType data)
  ++ Create.optional_entry "bhk" (f_bhk data)
  ++ Create.optional_entry "purpose" (f_purpose data)
  ++ Create.optional_entry "budgetMin" (f_budgetMin data)
  ++ Create.optional_entry "budgetMax" (f_budgetMax data)
  ++ Create.optional_entry "timeline" (f_timeline data)
  ++ Create.optional_entry "source" (f_source data)
  ++ Create.optional_entry "status" (f_status data)
  ++ Create.optional_entry "notes" (f_notes data)
  ++ Create.optional_entry "tags"
       (option_map (JSText.join ",") (f_tags data)).

Section WithExternals.
Context {E : Externals}.

(** The [defaultValues] of the form of [BuyerDetail]. *)
Definition defaultValues (buyer : Buyer) : UpdateBuyerFormData :=
  {| f_id := b_id buyer;
     f_updatedAt := Some (toISOString (b_updatedAt buyer));
     f_fullName := Some (b_fullName buyer);
     f_email := Some (match b_email buyer with Some e => e | None => "" end);
     f_phone := Some (b_phone buyer);
     f_city := Some (city_text (b_city buyer));
     f_propertyType := Some (propertyType_text (b_propertyType buyer));
     f_bhk :=
       Some (match b_bhk buyer with Some n => bhk_text n | None => "" end);
     f_purpose := Some (purpose_text (b_purpose buyer));
     f_budgetMin := Some (budget_default (b_budgetMin buyer));
     f_budgetMax := Some (budget_default (b_budgetMax buyer));
     f_timeline := Some (timeline_text (b_timeline buyer));
     f_source := Some (source_text (b_source buyer));
     f_status := Some (status_text (b_status buyer));
     f_notes := Some (match b_notes buyer with Some n => n | None => "" end);
     f_tags := Some (match b_tags buyer with Some l => l | None => [] end) |}.

End WithExternals.

End EditForm.

(* ================================================================== *)
(** ** The server actions that write, as steps on the shared state *)
(* ================================================================== *)

Module Pipeline.
Import Auth Actions.

Section WithExternals.
Context {E : Externals}.
Variable JSON_stringify_data : BuyerData -> string.

(** One call of an action that writes, with the state it leaves, whether
    the call returns or throws. *)
Inductive transition (rq : Request) (w : World) : World -> Prop :=
| CreateBuyer (formData : FormData) :
    transition rq w
      (snd (Create.createBuyer JSON_stringify_data rq formData w))
| UpdateBuyer (formData : FormData) :
    transition rq w (snd (updateBuyer rq formData w))
| UpdateBuyerStatus (buyerId status : string) :
    transition rq w (snd (updateBuyerStatus rq buyerId status w))
| ImportCSV (file : option Csv.File) :
    transition rq w (snd (Csv.importCSV rq file w)).

(** The identity of a row: its id, its owner and its creation time. *)
Definition identity (b : Buyer) : string * string * Z :=
  (b_id b, b_ownerId b, b_createdAt b).

(** A sequence of such calls, one per request. *)
Inductive run : list Request -> World -> World -> Prop :=
| run_nil w : run [] w w
| run_cons rq rqs w w1 w2 :
    transition rq w w1 -> run rqs w1 w2 -> run (rq :: rqs) w w2.

End WithExternals.

End Pipeline.

(* ================================================================== *)
(** ** More sample data *)
(* ================================================================== *)

Module Scenario.
Import Sample.

(** A stand-in for [JSON.stringify] on the validated data: the name
    between braces. *)
Definition stringify (data : BuyerData) : string :=
  ("{" ++ fullName data ++ "}")%string.

(** The form of a new lead, with a status that the server does not
    read. *)
Definition new_lead_form : Actions.FormData :=
  [("fullName", "Ravi Kumar"); ("phone", "9000000002"); ("city", "Mohali");
   ("propertyType", "Villa"); ("bhk", "3"); ("purpose", "Buy");
   ("budgetMin", "4000000"); ("budgetMax", "6000000");
   ("timeline", "0-3m"); ("source", "Call"); ("status", "Converted");
   ("tags", "hot, north")].

(** The world in which [agent] has used up the allowance ten seconds
    before [request_of] is served. *)
Definition busy_world : Actions.World :=
  {| Actions.cache :=
       [{| LRUCache.e_key := RateLimit.rate_key (sample_uuid 1);
           LRUCache.e_value := 10;
           LRUCache.e_start := 1757000890000 |}];
     Actions.db := Actions.db world |}.

Definition entry (n : nat) (buyerId : string) (changedAt : Z)
  : Db.HistoryEntry :=
  {| Db.h_id := sample_uuid n; Db.h_buyerId := buyerId;
     Db.h_changedBy := sample_uuid 1; Db.h_changedAt := changedAt;
     Db.h_diff := Db.Changes [] |}.

(** Six entries for [stored_lead], out of order, and one for
    [other_lead]. *)
Definition db_with_history : Db.t :=
  {| Db.buyers := [stored_lead; other_lead];
     Db.buyerHistory :=
       [entry 10 (sample_uuid 7) 300; entry 11 (sample_uuid 7) 100;
        entry 12 (sample_uuid 8) 900; entry 13 (sample_uuid 7) 600;
        entry 14 (sample_uuid 7) 200; entry 15 (sample_uuid 7) 500;
        entry 16 (sample_uuid 7) 400];
     Db.ids_drawn := 17 |}.

(** A lead of [agent] whose texts hold a comma, quotes and a line
    feed. *)
Definition quoted_lead : Buyer :=
  {| b_id := sample_uuid 20;
     b_fullName :=
       ("Rao, " ++ String CsvExport.dquote
          ("Asha" ++ String CsvExport.dquote ""))%string;
     b_email := None;
     b_phone := "9000000003";
     b_city := Panchkula;
     b_propertyType := Office;
     b_bhk := None;
     b_purpose := Rent;
     b_budgetMin := Some 25000%Z;
     b_budgetMax := None;
     b_timeline := Exploring;
     b_source := WalkIn;
     b_status := Contacted;
     b_notes :=
       Some ("first line" ++ String CsvExport.newline "second, line")%string;
     b_tags := Some ["a,b"];
     b_ownerId := sample_uuid 1;
     b_updatedAt := 1757000600000;
     b_createdAt := 1756000600000 |}.

Definition quoted_db : Db.t :=
  {| Db.buyers := [quoted_lead; other_lead];
     Db.buyerHistory := [];
     Db.ids_drawn := 21 |}.

(** What [buyerSchema] makes of [complete_lead]. *)
Definition complete_data : BuyerData :=
  {| fullName := "John Doe";
     email := Some "john@example.com";
     phone := "9876543210";
     city := Chandigarh;
     propertyType := Apartment;
     bhk := Some Bhk2;
     purpose := Buy;
     budgetMin := Some 5000000%Z;
     budgetMax := Some 10000000%Z;
     timeline := T3_6m;
     source := Website;
     status := New;
     notes := Some "Interested in 2BHK apartment";
     tags := ["urgent"; "premium"] |}.

Definition second_page : Query.SearchParams :=
  {| Query.sp_page := Some "2"; Query.sp_search := None;
     Query.sp_city := None; Query.sp_propertyType := None;
     Query.sp_status := None; Query.sp_timeline := None;
     Query.sp_sort := None |}.

(** The edit form of [other_lead] as it is stored, under the given
    name. *)
Definition edit_of_other_lead (name : string) : Actions.FormData :=
  [("id", sample_uuid 8); ("fullName", name);
   ("email", "asha@example.com"); ("phone", "9000000001");
   ("city", "Mohali"); ("propertyType", "Villa"); ("bhk", "3");
   ("purpose", "Buy"); ("budgetMin", "5000000");
   ("budgetMax", "9000000"); ("timeline", "0-3m");
   ("source", "Referral"); ("status", "Qualified");
   ("notes", "Prefers a corner plot"); ("tags", "urgent");
   ("updatedAt", iso 1757000500000)].


(** A cache that is full: an entry for each of a thousand callers. *)
Definition full_cache : LRUCache.t :=
  map (fun i =>
         {| LRUCache.e_key := RateLimit.rate_key (pad 3 (Z.of_nat i) "");
            LRUCache.e_value := 1;
            LRUCache.e_start := 0 |})
      (seq 0 1000).

(** Six requests of caller [a], a request of each of fifty other
    callers, and six more requests of [a], all at the same instant. *)
Definition crowd : list (Z * string) :=
  repeat (5%Z, "a") 6
  ++ map (fun i => (5%Z, pad 3 (Z.of_nat i) "")) (seq 0 50)
  ++ repeat (5%Z, "a") 6.


(** Eleven requests, one a minute. *)
Definition every_minute : list Z :=
  map (fun i => (60000 * Z.of_nat i)%Z) (seq 0 11).

End Scenario.

(* ================================================================== *)
(** * Properties *)
(* ================================================================== *)

(** ** The unit tests of the schema, run on the model *)

Section UnitTests.
Import Zod Validation Sample.

(** The first issue of a failed parse, [result.error.issues[0].path]. *)
Let first_path (r : SafeParse) : option string :=
  match r with
  | Failure (i :: _) => Some (i_path i)
  | _ => None
  end.

Example validates_a_complete_buyer :
  success (@buyerSchema_safeParse externals complete_lead) = true.
Proof. reflexivity. Qed.

Example requires_bhk_for_apartment :
  first_path (@buyerSchema_safeParse externals
                (with_propertyType (JS.Str "Apartment") plot_lead))
  = Some "bhk".
Proof. reflexivity. Qed.

Example requires_bhk_for_villa :
  first_path (@buyerSchema_safeParse externals
                (with_propertyType (JS.Str "Villa") plot_lead))
  = Some "bhk".
Proof. reflexivity. Qed.

Example does_not_require_bhk_for_other_types :
  success (@buyerSchema_safeParse externals plot_lead) = true.
Proof. reflexivity. Qed.

Example rejects_budget_max_below_min :
  first_path (@buyerSchema_safeParse externals
                (with_budget (JS.Number (JS.Num 10000000))
                   (JS.Number (JS.Num 5000000)) complete_lead))
  = Some "budgetMax".
Proof. reflexivity. Qed.

Example accepts_valid_budget_range :
  success (@buyerSchema_safeParse externals
             (with_budget (JS.Number (JS.Num 5000000))
                (JS.Number (JS.Num 10000000)) complete_lead))
  = true.
Proof. reflexivity. Qed.

Example rejects_empty_required_fields :
  success (@buyerSchema_safeParse externals incomplete_lead) = false
  /\ (0 < length (@buyerSchema_issues externals incomplete_lead))%nat.
Proof. split; [reflexivity | vm_compute; lia]. Qed.

Example budget_constraints_table :
  validateBudgetConstraints (Some 5000000%Z) (Some 10000000%Z) = true
  /\ validateBudgetConstraints (Some 5000000%Z) (Some 5000000%Z) = true
  /\ validateBudgetConstraints (Some 10000000%Z) (Some 5000000%Z) = false
  /\ validateBudgetConstraints (Some 5000000%Z) None = true
  /\ validateBudgetConstraints None (Some 10000000%Z) = true
  /\ validateBudgetConstraints None None = true.
Proof. repeat split. Qed.

End UnitTests.

(** ** Validation Engine *)

Ltac tidy_cases :=
  simpl;
  (split; [ first [reflexivity | congruence]
          | intros i Hi; simpl in Hi;
            repeat destruct Hi as [<-|Hi];
            try discriminate; try contradiction ]).

Section ValidationFacts.
Import Zod Validation.
Context {E : Externals}.

Lemma aborted_app (l1 l2 : list issue) :
  aborted (l1 ++ l2) = aborted l1 || aborted l2.
Proof. apply existsb_app. Qed.

(** Once an issue aborts the parse, no refinement runs. *)
Lemma runChecks_aborted checks data issues :
  aborted issues = true -> runChecks checks data issues = issues.
Proof.
  induction checks as [|ch rest IH]; intros Hab; simpl; [reflexivity|].
  rewrite Hab. now apply IH.
Qed.

(** Otherwise every refinement runs and the failed ones add their issue,
    in the order of the chain. *)
Lemma runChecks_collect checks data issues :
  aborted issues = false ->
  runChecks checks data issues =
  issues ++ flat_map (fun ch => if check ch data then [] else [issue_of ch])
                     checks.
Proof.
  revert issues.
  induction checks as [|ch rest IH]; intros issues Hab; simpl.
  - now rewrite app_nil_r.
  - rewrite Hab. destruct (check ch data).
    + now apply IH.
    + rewrite IH.
      * now rewrite <- app_assoc.
      * rewrite aborted_app, Hab. reflexivity.
Qed.

Lemma tidy_string_min_max path lo lo_msg hi hi_msg v :
  tidy (string_min_max path lo lo_msg hi hi_msg v).
Proof.
  unfold tidy, string_min_max, abort.
  destruct v; simpl; try (split; [congruence | intros i [<-|[]]; discriminate]).
  destruct (String.length s <? lo)%nat, (hi <? String.length s)%nat; simpl;
    (split; [reflexivity | intros i Hi; simpl in Hi;
             repeat destruct Hi as [<-|Hi]; try discriminate; try contradiction]).
Qed.

Lemma tidy_enum {A} (read : string -> option A) path v :
  tidy (enum read path v).
Proof.
  unfold tidy, enum, abort, ok.
  destruct v; simpl; try (split; [congruence | intros i [<-|[]]; discriminate]).
  destruct (read s); simpl;
    (split; [congruence | intros i Hi; simpl in Hi;
             repeat destruct Hi as [<-|Hi]; try discriminate; try contradiction]).
Qed.

Lemma tidy_email v : tidy (email_field v).
Proof.
  unfold tidy, email_field, abort, ok, dirty.
  destruct v; try tidy_cases.
  destruct (is_email s || (s =? "")); tidy_cases.
Qed.

Lemma tidy_bhk v : tidy (bhk_field v).
Proof.
  unfold tidy, bhk_field, abort, ok.
  destruct v; try tidy_cases.
  destruct (bhkSchema s); [tidy_cases|].
  destruct (s =? ""); tidy_cases.
Qed.

Lemma tidy_budget path v : tidy (budget_field path v).
Proof.
  unfold tidy, budget_field, abort, ok.
  destruct v as [| | |[|]|]; tidy_cases.
Qed.

Lemma tidy_status v : tidy (status_field v).
Proof.
  unfold status_field. destruct v; try apply tidy_enum.
  unfold tidy, ok. tidy_cases.
Qed.

Lemma tidy_notes v : tidy (notes_field v).
Proof.
  unfold tidy, notes_field, abort, ok, dirty.
  destruct v; try tidy_cases.
  destruct (1000 <? String.length s)%nat; tidy_cases.
Qed.

Lemma tidy_tags v : tidy (tags_field v).
Proof.
  unfold tidy, tags_field, abort, ok.
  destruct v; tidy_cases.
Qed.

(** The value of the object, field by field. *)
Lemma object_parse_fields r data issues :
  object_parse r = (Some data, issues) ->
  fst (fullName_field (raw_fullName r)) = Some (fullName data)
  /\ fst (email_field (raw_email r)) = Some (email data)
  /\ fst (phone_field (raw_phone r)) = Some (phone data)
  /\ fst (enum citySchema "city" (raw_city r)) = Some (city data)
  /\ fst (enum propertyTypeSchema "propertyType" (raw_propertyType r))
     = Some (propertyType data)
  /\ fst (bhk_field (raw_bhk r)) = Some (bhk data)
  /\ fst (enum purposeSchema "purpose" (raw_purpose r))
     = Some (purpose data)
  /\ fst (budget_field "budgetMin" (raw_budgetMin r))
     = Some (budgetMin data)
  /\ fst (budget_field "budgetMax" (raw_budgetMax r))
     = Some (budgetMax data)
  /\ fst (enum timelineSchema "timeline" (raw_timeline r))
     = Some (timeline data)
  /\ fst (enum sourceSchema "source" (raw_source r)) = Some (source data)
  /\ fst (status_field (raw_status r)) = Some (status data)
  /\ fst (notes_field (raw_notes r)) = Some (notes data)
  /\ fst (tags_field (raw_tags r)) = Some (tags data).
Proof.
  unfold object_parse. intros H.
  destruct (fst (fullName_field (raw_fullName r))); [|discriminate].
  destruct (fst (email_field (raw_email r))); [|discriminate].
  destruct (fst (phone_field (raw_phone r))); [|discriminate].
  destruct (fst (enum citySchema "city" (raw_city r))); [|discriminate].
  destruct (fst (enum propertyTypeSchema "propertyType"
                   (raw_propertyType r))); [|discriminate].
  destruct (fst (bhk_field (raw_bhk r))); [|discriminate].
  destruct (fst (enum purposeSchema "purpose" (raw_purpose r)));
    [|discriminate].
  destruct (fst (budget_field "budgetMin" (raw_budgetMin r)));
    [|discriminate].
  destruct (fst (budget_field "budgetMax" (raw_budgetMax r)));
    [|discriminate].
  destruct (fst (enum timelineSchema "timeline" (raw_timeline r)));
    [|discriminate].
  destruct (fst (enum sourceSchema "source" (raw_source r)));
    [|discriminate].
  destruct (fst (status_field (raw_status r))); [|discriminate].
  destruct (fst (notes_field (raw_notes r))); [|discriminate].
  destruct (fst (tags_field (raw_tags r))); [|discriminate].
  injection H as <- _. simpl. repeat split.
Qed.

Lemma object_parse_issues r :
  snd (object_parse r) =
  snd (fullName_field (raw_fullName r))
  ++ snd (email_field (raw_email r))
  ++ snd (phone_field (raw_phone r))
  ++ snd (enum citySchema "city" (raw_city r))
  ++ snd (enum propertyTypeSchema "propertyType" (raw_propertyType r))
  ++ snd (bhk_field (raw_bhk r))
  ++ snd (enum purposeSchema "purpose" (raw_purpose r))
  ++ snd (budget_field "budgetMin" (raw_budgetMin r))
  ++ snd (budget_field "budgetMax" (raw_budgetMax r))
  ++ snd (enum timelineSchema "timeline" (raw_timeline r))
  ++ snd (enum sourceSchema "source" (raw_source r))
  ++ snd (status_field (raw_status r))
  ++ snd (notes_field (raw_notes r))
  ++ snd (tags_field (raw_tags r)).
Proof. reflexivity. Qed.

(** No issue of the fields comes from a refinement. *)
Lemma object_parse_no_custom r i :
  In i (snd (object_parse r)) -> i_code i <> custom.
Proof.
  rewrite object_parse_issues. intros Hi.
  repeat (apply in_app_or in Hi; destruct Hi as [Hi|Hi]);
    revert Hi;
    first [ apply tidy_string_min_max | apply tidy_enum | apply tidy_email
          | apply tidy_bhk | apply tidy_budget | apply tidy_status
          | apply tidy_notes | apply tidy_tags ].
Qed.

(** An object that has a value has no aborting issue. *)
Lemma object_parse_not_aborted r data issues :
  object_parse r = (Some data, issues) -> aborted issues = false.
Proof.
  intros H. pose proof (object_parse_fields _ _ _ H) as F.
  assert (Hs : issues = snd (object_parse r)) by now rewrite H.
  rewrite Hs, object_parse_issues.
  destruct F as (F1 & F2 & F3 & F4 & F5 & F6 & F7 & F8 & F9 & F10 & F11
                 & F12 & F13 & F14).
  repeat rewrite aborted_app.
  unfold fullName_field, phone_field in *.
  rewrite (proj1 (tidy_string_min_max _ _ _ _ _ _)) by congruence.
  rewrite (proj1 (tidy_email _)) by congruence.
  rewrite (proj1 (tidy_string_min_max _ _ _ _ _ _)) by congruence.
  rewrite (proj1 (tidy_enum _ _ _)) by congruence.
  rewrite (proj1 (tidy_enum _ _ _)) by congruence.
  rewrite (proj1 (tidy_bhk _)) by congruence.
  rewrite (proj1 (tidy_enum _ _ _)) by congruence.
  rewrite (proj1 (tidy_budget _ _)) by congruence.
  rewrite (proj1 (tidy_budget _ _)) by congruence.
  rewrite (proj1 (tidy_enum _ _ _)) by congruence.
  rewrite (proj1 (tidy_enum _ _ _)) by congruence.
  rewrite (proj1 (tidy_status _)) by congruence.
  rewrite (proj1 (tidy_notes _)) by congruence.
  rewrite (proj1 (tidy_tags _)) by congruence.
  reflexivity.
Qed.

End ValidationFacts.

Section ValidationClaims.
Import Zod Validation Sample.
Context {E : Externals}.

Lemma propertyTypeSchema_apartment s :
  propertyTypeSchema s = Some Apartment <-> s = "Apartment".
Proof.
  unfold propertyTypeSchema.
  repeat match goal with
         | |- context [String.eqb s ?l] =>
             destruct (String.eqb_spec s l); subst
         end; split; intros; try discriminate; try congruence; auto.
Qed.

Lemma propertyTypeSchema_villa s :
  propertyTypeSchema s = Some Villa <-> s = "Villa".
Proof.
  unfold propertyTypeSchema.
  repeat match goal with
         | |- context [String.eqb s ?l] =>
             destruct (String.eqb_spec s l); subst
         end; split; intros; try discriminate; try congruence; auto.
Qed.

(** The issues of a whole parse, when the object has a value. *)
Lemma buyerSchema_issues_value r data issues :
  object_parse r = (Some data, issues) ->
  buyerSchema_issues r =
  issues ++ flat_map (fun ch => if check ch data then [] else [issue_of ch])
                     refinements.
Proof.
  intros H. unfold buyerSchema_issues. rewrite H.
  apply runChecks_collect. eapply object_parse_not_aborted; eauto.
Qed.

(** The parse succeeds exactly when it reports nothing, provided the
    object has a value. *)
Lemma safeParse_value r data issues :
  object_parse r = (Some data, issues) ->
  buyerSchema_safeParse r =
  match buyerSchema_issues r with
  | [] => Success data
  | l => Failure l
  end.
Proof.
  intros H. unfold buyerSchema_safeParse, buyerSchema_issues.
  now rewrite H.
Qed.

Lemma safeParse_no_value r issues :
  object_parse r = (None, issues) ->
  buyerSchema_safeParse r = Failure issues.
Proof.
  intros H. unfold buyerSchema_safeParse. now rewrite H.
Qed.

(** The property type and the bedroom count that the refinements see. *)
Lemma parsed_propertyType r data issues s :
  object_parse r = (Some data, issues) ->
  raw_propertyType r = JS.Str s ->
  propertyTypeSchema s = Some (propertyType data).
Proof.
  intros H Hs. apply object_parse_fields in H.
  destruct H as (_ & _ & _ & _ & H & _).
  rewrite Hs in H. unfold enum in H.
  destruct (propertyTypeSchema s); simpl in H; congruence.
Qed.

Lemma parsed_bhk_absent r data issues :
  object_parse r = (Some data, issues) ->
  raw_bhk r = JS.Undefined \/ raw_bhk r = JS.Str "" ->
  bhk data = None.
Proof.
  intros H Hb. apply object_parse_fields in H.
  destruct H as (_ & _ & _ & _ & _ & H & _).
  destruct Hb as [Hb|Hb]; rewrite Hb in H; simpl in H; congruence.
Qed.

Lemma bhk_rule_passes_other_types data :
  propertyType data <> Apartment -> propertyType data <> Villa ->
  check bhk_required data = true.
Proof.
  intros H1 H2. unfold bhk_required; simpl.
  destruct (propertyType data); try reflexivity; congruence.
Qed.

Lemma other_type_parsed r data issues :
  object_parse r = (Some data, issues) ->
  raw_propertyType r <> JS.Str "Apartment" ->
  raw_propertyType r <> JS.Str "Villa" ->
  propertyType data <> Apartment /\ propertyType data <> Villa.
Proof.
  intros H H1 H2.
  pose proof (object_parse_fields _ _ _ H)
    as (_ & _ & _ & _ & F & _).
  destruct (raw_propertyType r) as [| |s| |] eqn:Hr;
    try (simpl in F; discriminate).
  pose proof (parsed_propertyType _ _ _ _ H Hr) as P.
  split; intros Heq; rewrite Heq in P.
  - apply propertyTypeSchema_apartment in P. congruence.
  - apply propertyTypeSchema_villa in P. congruence.
Qed.

(** An issue of the refinements is never reported by the fields. *)
Lemma refinement_issue_origin r data issues ch :
  object_parse r = (Some data, issues) ->
  In (issue_of ch) (buyerSchema_issues r) ->
  In (issue_of ch)
     (flat_map (fun ch => if check ch data then [] else [issue_of ch])
               refinements).
Proof.
  intros H Hin. rewrite (buyerSchema_issues_value _ _ _ H) in Hin.
  apply in_app_or in Hin. destruct Hin as [Hin|Hin]; [|exact Hin].
  exfalso. apply (object_parse_no_custom r (issue_of ch)).
  - now rewrite H.
  - reflexivity.
Qed.

(** The four refinements have four different issues. *)
Lemma issue_of_inj ch ch' :
  In ch refinements -> In ch' refinements ->
  issue_of ch = issue_of ch' -> ch = ch'.
Proof.
  unfold refinements. simpl.
  intros H H' Heq.
  repeat destruct H as [<-|H]; try contradiction;
    repeat destruct H' as [<-|H']; try contradiction;
    try reflexivity; discriminate Heq.
Qed.

Lemma refinement_reported_iff r data issues ch :
  object_parse r = (Some data, issues) ->
  In ch refinements ->
  (In (issue_of ch) (buyerSchema_issues r) <-> check ch data = false).
Proof.
  intros H Hch. split.
  - intros Hin. apply (refinement_issue_origin _ _ _ _ H) in Hin.
    apply in_flat_map in Hin. destruct Hin as (ch' & Hch' & Hin).
    destruct (check ch' data) eqn:Hc; [contradiction|].
    destruct Hin as [Heq|[]].
    apply issue_of_inj in Heq; auto. now subst.
  - intros Hc. rewrite (buyerSchema_issues_value _ _ _ H).
    apply in_or_app. right. apply in_flat_map. exists ch.
    split; [assumption|]. rewrite Hc. now left.
Qed.

(** Replacing the bedroom count by another accepted one changes the
    value of the object in that field only. *)
Lemma with_bhk_parse r v data issues :
  object_parse r = (Some data, issues) ->
  fst (bhk_field v) <> None -> snd (bhk_field v) = [] ->
  snd (bhk_field (raw_bhk r)) = [] ->
  exists data',
    object_parse (with_bhk v r) = (Some data', issues)
    /\ propertyType data' = propertyType data
    /\ budgetMin data' = budgetMin data
    /\ budgetMax data' = budgetMax data.
Proof.
  intros H Hv Hs Hs0.
  pose proof (object_parse_fields _ _ _ H)
    as (F1 & F2 & F3 & F4 & F5 & F6 & F7 & F8 & F9 & F10 & F11 & F12
        & F13 & F14).
  assert (Hi : issues = snd (object_parse r)) by now rewrite H.
  rewrite object_parse_issues in Hi.
  destruct (fst (bhk_field v)) as [b|] eqn:Hb; [|congruence].
  unfold object_parse. simpl.
  rewrite F1, F2, F3, F4, F5, Hb, F7, F8, F9, F10, F11, F12, F13, F14.
  eexists. split.
  - rewrite Hs. rewrite Hs0 in Hi. rewrite Hi. reflexivity.
  - simpl. repeat split; reflexivity.
Qed.

(** C6. For an input whose property type is Apartment or Villa,
    validation fails when the bedroom count is absent ([undefined] or the
    empty string), and when the fields parse the failure cites [bhk];
    for an input of any other property type the bedroom rule reports
    nothing, and the issues of the parse are the same whether the
    bedroom count is absent or one of the accepted values. *)
Theorem bhk_required_for_apartment_and_villa_only (r : RawBuyer) :
  ((raw_propertyType r = JS.Str "Apartment"
    \/ raw_propertyType r = JS.Str "Villa") ->
   (raw_bhk r = JS.Undefined \/ raw_bhk r = JS.Str "") ->
   success (buyerSchema_safeParse r) = false
   /\ (fst (object_parse r) <> None ->
       In (issue_of bhk_required) (buyerSchema_issues r)))
  /\
  (raw_propertyType r <> JS.Str "Apartment" ->
   raw_propertyType r <> JS.Str "Villa" ->
   ~ In (issue_of bhk_required) (buyerSchema_issues r)
   /\ forall s b,
       bhkSchema s = Some b ->
       buyerSchema_issues (with_bhk (JS.Str s) r)
       = buyerSchema_issues (with_bhk JS.Undefined r)).
Proof.
  split.
  - intros Ht Hb.
    assert (Hrule : forall data issues,
               object_parse r = (Some data, issues) ->
               check bhk_required data = false).
    { intros data issues H.
      pose proof (parsed_bhk_absent _ _ _ H Hb) as Hnone.
      unfold bhk_required; simpl. rewrite Hnone.
      destruct Ht as [Ht|Ht];
        pose proof (parsed_propertyType _ _ _ _ H Ht) as P;
        simpl in P; injection P as <-; reflexivity. }
    destruct (object_parse r) as [[data|] issues] eqn:H.
    + assert (Hin : In (issue_of bhk_required) (buyerSchema_issues r)).
      { apply (refinement_reported_iff _ _ _ _ H); [now left|].
        now apply (Hrule data issues). }
      split; [|intros _; exact Hin].
      rewrite (safeParse_value _ _ _ H).
      destruct (buyerSchema_issues r); [contradiction|reflexivity].
    + split; [|simpl; congruence].
      now rewrite (safeParse_no_value _ _ H).
  - intros H1 H2. split.
    + intros Hin.
      destruct (object_parse r) as [[data|] issues] eqn:H.
      * apply (refinement_reported_iff _ _ _ _ H) in Hin; [|now left].
        destruct (other_type_parsed _ _ _ H H1 H2) as [P1 P2].
        rewrite bhk_rule_passes_other_types in Hin by assumption.
        discriminate.
      * unfold buyerSchema_issues in Hin. rewrite H in Hin.
        apply (object_parse_no_custom r (issue_of bhk_required)).
        -- now rewrite H.
        -- reflexivity.
    + intros s b Hs.
      set (r0 := with_bhk JS.Undefined r).
      destruct (object_parse r0) as [[data|] issues] eqn:H.
      * destruct (with_bhk_parse r0 (JS.Str s) data issues H)
          as (data' & H' & Pt & Pmin & Pmax).
        { simpl. rewrite Hs. simpl. congruence. }
        { simpl. now rewrite Hs. }
        { reflexivity. }
        assert (Heq : with_bhk (JS.Str s) r0 = with_bhk (JS.Str s) r)
          by reflexivity.
        rewrite Heq in H'.
        rewrite (buyerSchema_issues_value _ _ _ H).
        rewrite (buyerSchema_issues_value _ _ _ H').
        f_equal.
        assert (O : propertyType data <> Apartment
                    /\ propertyType data <> Villa)
          by (apply (other_type_parsed r0 data issues H); assumption).
        destruct O as [O1 O2].
        unfold refinements. simpl.
        rewrite Pt, Pmin, Pmax.
        destruct (propertyType data); try congruence; reflexivity.
      * unfold buyerSchema_issues. rewrite H.
        unfold r0 in H. unfold object_parse in *. simpl in *.
        rewrite Hs. simpl.
        destruct (fst (fullName_field (raw_fullName r)));
          [|injection H as <-; reflexivity].
        destruct (fst (email_field (raw_email r)));
          [|injection H as <-; reflexivity].
        destruct (fst (phone_field (raw_phone r)));
          [|injection H as <-; reflexivity].
        destruct (fst (enum citySchema "city" (raw_city r)));
          [|injection H as <-; reflexivity].
        destruct (fst (enum propertyTypeSchema "propertyType"
                         (raw_propertyType r)));
          [|injection H as <-; reflexivity].
        destruct (fst (enum purposeSchema "purpose" (raw_purpose r)));
          [|injection H as <-; reflexivity].
        destruct (fst (budget_field "budgetMin" (raw_budgetMin r)));
          [|injection H as <-; reflexivity].
        destruct (fst (budget_field "budgetMax" (raw_budgetMax r)));
          [|injection H as <-; reflexivity].
        destruct (fst (enum timelineSchema "timeline" (raw_timeline r)));
          [|injection H as <-; reflexivity].
        destruct (fst (enum sourceSchema "source" (raw_source r)));
          [|injection H as <-; reflexivity].
        destruct (fst (status_field (raw_status r)));
          [|injection H as <-; reflexivity].
        destruct (fst (notes_field (raw_notes r)));
          [|injection H as <-; reflexivity].
        destruct (fst (tags_field (raw_tags r)));
          [|injection H as <-; reflexivity].
        discriminate H.
Qed.

End ValidationClaims.

Section BudgetClaims.
Import Zod Validation Sample.
Context {E : Externals}.

Lemma parsed_budgetMin r data issues :
  object_parse r = (Some data, issues) ->
  budgetMin data = budget_transform (raw_budgetMin r).
Proof.
  intros H. apply object_parse_fields in H.
  destruct H as (_ & _ & _ & _ & _ & _ & _ & H & _).
  unfold budget_field in H.
  destruct (raw_budgetMin r) as [| | |[|]|]; simpl in H; congruence.
Qed.

Lemma parsed_budgetMax r data issues :
  object_parse r = (Some data, issues) ->
  budgetMax data = budget_transform (raw_budgetMax r).
Proof.
  intros H. apply object_parse_fields in H.
  destruct H as (_ & _ & _ & _ & _ & _ & _ & _ & H & _).
  unfold budget_field in H.
  destruct (raw_budgetMax r) as [| | |[|]|]; simpl in H; congruence.
Qed.

(** The empty string and a string without a leading number become
    absent. *)
Lemma budget_transform_not_numeric s :
  s = "" \/ JS.parseInt s = JS.NaN -> budget_transform (JS.Str s) = None.
Proof.
  intros [->|H]; [reflexivity|].
  unfold budget_transform. rewrite H.
  destruct (negb (JS.truthy (JS.Str s)) || JS.strict_eq (JS.Str s) (JS.Str ""));
    reflexivity.
Qed.

(** A successful parse leaves each budget bound absent or positive. *)
Lemma budget_positive_after_success r data :
  buyerSchema_safeParse r = Success data ->
  (forall z, budgetMin data = Some z -> (0 < z)%Z)
  /\ (forall z, budgetMax data = Some z -> (0 < z)%Z).
Proof.
  intros H. unfold buyerSchema_safeParse in H.
  destruct (object_parse r) as [[d|] issues] eqn:Hp; [|discriminate].
  rewrite runChecks_collect in H
    by (eapply object_parse_not_aborted; eauto).
  destruct (issues ++ _) eqn:Hl in H; [|discriminate].
  injection H as <-.
  apply app_eq_nil in Hl. destruct Hl as [_ Hl].
  unfold refinements in Hl. simpl in Hl.
  repeat (apply app_eq_nil in Hl; destruct Hl as [? Hl]).
  split; intros z Hz; rewrite Hz in *;
    destruct (z <=? 0)%Z eqn:Hle; try discriminate; lia.
Qed.

(** A negative number in either bound fails the parse, whatever the
    other bound is. *)
Lemma negative_budget_rejected r z :
  (z < 0)%Z ->
  raw_budgetMin r = JS.Number (JS.Num z)
  \/ raw_budgetMax r = JS.Number (JS.Num z) ->
  success (buyerSchema_safeParse r) = false.
Proof.
  intros Hz Hr.
  destruct (buyerSchema_safeParse r) as [data|] eqn:H; [|reflexivity].
  exfalso.
  destruct (budget_positive_after_success _ _ H) as [Pmin Pmax].
  unfold buyerSchema_safeParse in H.
  destruct (object_parse r) as [[d|] issues] eqn:Hp; [|discriminate].
  assert (d = data).
  { destruct (runChecks refinements d issues); congruence. }
  subst d.
  assert (T : budget_transform (JS.Number (JS.Num z)) = Some z).
  { unfold budget_transform. simpl.
    destruct (z =? 0)%Z eqn:Hz0; [lia|reflexivity]. }
  destruct Hr as [Hr|Hr].
  - pose proof (parsed_budgetMin _ _ _ Hp) as B. rewrite Hr, T in B.
    specialize (Pmin z B). lia.
  - pose proof (parsed_budgetMax _ _ _ Hp) as B. rewrite Hr, T in B.
    specialize (Pmax z B). lia.
Qed.

(** C7. The number zero in a budget bound is not rejected.  The server
    actions turn the form text 0 into the number [0]; the transform of the
    field takes that [0] for a missing value before the rule "must be
    positive" sees it, so the parse succeeds with the bound absent; the
    same zero handed to the schema as text is rejected. *)
Theorem zero_budget_dropped_instead_of_rejected :
  Actions.budget_of_form (Some "0") = JS.Number (JS.Num 0)
  /\ (exists data,
         buyerSchema_safeParse
           (with_budget (JS.Number (JS.Num 0)) JS.Undefined plot_lead)
         = Success data
         /\ budgetMin data = None)
  /\ buyerSchema_safeParse
       (with_budget (JS.Str "0") JS.Undefined plot_lead)
     = Failure [issue_of budgetMin_positive].
Proof.
  split; [reflexivity|]. split.
  - eexists. split; reflexivity.
  - reflexivity.
Qed.

(** C8 (as amended). When every field of the input parses, the issues
    of the fields are followed by the issue of each violated cross-field
    rule, in the order bedroom count, budget order, minimum positive,
    maximum positive, and each rule is reported exactly when it is
    violated; when a field aborts the parse, the issues of the fields
    are all that is reported and no rule is evaluated. *)
Theorem cross_field_rules_collected_when_fields_parse (r : RawBuyer) :
  (forall data issues,
      object_parse r = (Some data, issues) ->
      buyerSchema_issues r =
      issues
      ++ (if check bhk_required data then [] else [issue_of bhk_required])
      ++ (if check budget_order data then [] else [issue_of budget_order])
      ++ (if check budgetMin_positive data then []
          else [issue_of budgetMin_positive])
      ++ (if check budgetMax_positive data then []
          else [issue_of budgetMax_positive])
      /\ forall ch, In ch refinements ->
           (In (issue_of ch) (buyerSchema_issues r)
            <-> check ch data = false))
  /\ (forall issues,
        object_parse r = (None, issues) ->
        buyerSchema_issues r = issues
        /\ forall ch, ~ In (issue_of ch) (buyerSchema_issues r)).
Proof.
  split.
  - intros data issues H. split.
    + rewrite (buyerSchema_issues_value _ _ _ H).
      unfold refinements. simpl. now rewrite app_nil_r.
    + intros ch Hch. now apply (refinement_reported_iff _ _ _ _ H).
  - intros issues H.
    assert (Hi : buyerSchema_issues r = issues).
    { unfold buyerSchema_issues. now rewrite H. }
    split; [exact Hi|].
    intros ch Hin. rewrite Hi in Hin.
    apply (object_parse_no_custom r (issue_of ch)).
    + now rewrite H.
    + reflexivity.
Qed.

End BudgetClaims.

(** C8 as stated fails.  A lead for an apartment without bedroom count,
    a negative minimum budget and a city outside the enumeration: two
    cross-field rules are violated and the parse reports the city alone. *)
Lemma cross_field_rules_skipped_after_field_error :
  let r :=
    Sample.with_city (JS.Str "Delhi")
      (Sample.with_budget (JS.Number (JS.Num (-5))) JS.Undefined
         (Sample.with_propertyType (JS.Str "Apartment") Sample.plot_lead)) in
  raw_propertyType r = JS.Str "Apartment"
  /\ raw_bhk r = JS.Undefined
  /\ raw_budgetMin r = JS.Number (JS.Num (-5))
  /\ @Validation.buyerSchema_issues Sample.externals r
     = [{| Zod.i_code := Zod.invalid_value; Zod.i_path := "city";
           Zod.i_message := None |}]
  /\ ~ In (Validation.issue_of Validation.bhk_required)
          (@Validation.buyerSchema_issues Sample.externals r)
  /\ ~ In (Validation.issue_of Validation.budgetMin_positive)
          (@Validation.buyerSchema_issues Sample.externals r).
Proof.
  cbv zeta. repeat split; try reflexivity.
  - intros [H|[]]. discriminate H.
  - intros [H|[]]. discriminate H.
Qed.

Lemma bhk_required_for_apartment_and_villa_only_witness :
  (Validation.success
     (@Validation.buyerSchema_safeParse Sample.externals
        (Sample.with_propertyType (JS.Str "Villa") Sample.plot_lead))
   = false
   /\ (fst (@Validation.object_parse Sample.externals
              (Sample.with_propertyType (JS.Str "Villa") Sample.plot_lead))
       <> None ->
       In (Validation.issue_of Validation.bhk_required)
          (@Validation.buyerSchema_issues Sample.externals
             (Sample.with_propertyType (JS.Str "Villa") Sample.plot_lead))))
  /\ ~ In (Validation.issue_of Validation.bhk_required)
          (@Validation.buyerSchema_issues Sample.externals Sample.plot_lead).
Proof.
  split.
  - apply (proj1 (@bhk_required_for_apartment_and_villa_only
                    Sample.externals
                    (Sample.with_propertyType (JS.Str "Villa")
                       Sample.plot_lead))).
    + right. reflexivity.
    + left. reflexivity.
  - apply (proj2 (@bhk_required_for_apartment_and_villa_only
                    Sample.externals Sample.plot_lead)).
    + simpl. discriminate.
    + simpl. discriminate.
Defined.

Lemma cross_field_rules_collected_when_fields_parse_witness :
  let r :=
    Sample.with_budget (JS.Number (JS.Num (-1))) (JS.Number (JS.Num (-5)))
      (Sample.with_propertyType (JS.Str "Apartment") Sample.plot_lead) in
  @Validation.buyerSchema_issues Sample.externals r
  = [Validation.issue_of Validation.bhk_required;
     Validation.issue_of Validation.budget_order;
     Validation.issue_of Validation.budgetMin_positive;
     Validation.issue_of Validation.budgetMax_positive].
Proof.
  cbv zeta.
  match goal with
  | |- @Validation.buyerSchema_issues _ ?r = _ =>
      destruct (@cross_field_rules_collected_when_fields_parse
                  Sample.externals r) as [H _];
      destruct (@Validation.object_parse Sample.externals r)
        as [[data|] issues] eqn:Hp; [|discriminate Hp];
      destruct (H data issues eq_refl) as [Heq _];
      rewrite Heq; vm_compute in Hp; injection Hp as <- <-; reflexivity
  end.
Defined.

(** ** Authorization Policy *)

Section AuthClaims.
Import Auth.

Lemma strict_eq_string v s :
  JS.strict_eq v (JS.Str s) = true <-> v = JS.Str s.
Proof.
  destruct v; simpl; split; intros H; try discriminate.
  - apply String.eqb_eq in H. now subst.
  - injection H as ->. apply String.eqb_refl.
Qed.

Lemma demo_email_iff (o : option string) :
  match o with Some e => e =? demo_admin_email | None => false end = true
  <-> o = Some "admin@leadflow.com".
Proof.
  destruct o as [e|]; [|split; discriminate].
  rewrite String.eqb_eq. unfold demo_admin_email.
  split; [intros ->; reflexivity | intros H; now injection H].
Qed.

Lemma canEditBuyer_spec caller ownerId :
  canEditBuyer caller ownerId = true
  <-> user_id caller = ownerId \/ isAdmin caller = true.
Proof.
  unfold canEditBuyer. rewrite orb_true_iff, String.eqb_eq. tauto.
Qed.

(** C3. [canEditBuyer] holds exactly for the owner and for an admin,
    and a caller is an admin exactly when the role in the user metadata
    or the role in the app metadata is the text admin or the e-mail is
    the demo admin address; the four cells of the matrix follow. *)
Theorem canEditBuyer_iff_owner_or_admin :
  (forall caller ownerId,
      canEditBuyer caller ownerId = true
      <-> user_id caller = ownerId \/ isAdmin caller = true)
  /\ (forall su,
        exists caller,
          getCurrentUser (Some su) = Some caller
          /\ user_id caller = su_id su
          /\ (isAdmin caller = true
              <-> user_metadata_role su = JS.Str "admin"
                  \/ app_metadata_role su = JS.Str "admin"
                  \/ su_email su = Some "admin@leadflow.com"))
  /\ (forall caller ownerId,
        (isAdmin caller = true -> user_id caller = ownerId ->
         canEditBuyer caller ownerId = true)
        /\ (isAdmin caller = true -> user_id caller <> ownerId ->
            canEditBuyer caller ownerId = true)
        /\ (isAdmin caller = false -> user_id caller = ownerId ->
            canEditBuyer caller ownerId = true)
        /\ (isAdmin caller = false -> user_id caller <> ownerId ->
            canEditBuyer caller ownerId = false)).
Proof.
  split; [exact canEditBuyer_spec|]. split.
  - intros su. eexists. split; [reflexivity|]. split; [reflexivity|].
    simpl. rewrite !orb_true_iff, !strict_eq_string, demo_email_iff.
    tauto.
  - intros caller ownerId.
    pose proof (canEditBuyer_spec caller ownerId) as S.
    repeat split; intros Ha Ho.
    + apply S. now right.
    + apply S. now right.
    + apply S. now left.
    + destruct (canEditBuyer caller ownerId) eqn:Hc; [|reflexivity].
      exfalso. destruct (proj1 S eq_refl) as [H|H]; congruence.
Qed.

End AuthClaims.

Lemma canEditBuyer_iff_owner_or_admin_witness :
  Auth.canEditBuyer
    {| Auth.user_id := "u1"; Auth.user_email := None;
       Auth.isAdmin := false |} "u2" = false
  /\ Auth.canEditBuyer
       {| Auth.user_id := "u1"; Auth.user_email := None;
          Auth.isAdmin := true |} "u2" = true.
Proof.
  destruct canEditBuyer_iff_owner_or_admin as (_ & _ & M).
  split.
  - apply (proj2 (proj2 (proj2
             (M {| Auth.user_id := "u1"; Auth.user_email := None;
                   Auth.isAdmin := false |} "u2")))).
    + reflexivity.
    + simpl. discriminate.
  - apply (proj1 (proj2
             (M {| Auth.user_id := "u1"; Auth.user_email := None;
                   Auth.isAdmin := true |} "u2"))).
    + reflexivity.
    + simpl. discriminate.
Defined.

(** ** Rate Limiter *)

Section CacheFacts.
Import LRUCache.

Lemma lookup_key k c e : lookup k c = Some e -> e_key e = k.
Proof.
  unfold lookup. intros H. apply find_some in H.
  destruct H as [_ H]. now apply String.eqb_eq in H.
Qed.

Lemma lookup_delete_same k c : lookup k (delete k c) = None.
Proof.
  unfold lookup, delete. induction c as [|e c IH]; simpl; [reflexivity|].
  destruct (e_key e =? k) eqn:He; simpl; [exact IH|].
  now rewrite He.
Qed.

Lemma lookup_delete_other k k' c :
  k <> k' -> lookup k (delete k' c) = lookup k c.
Proof.
  intros Hne. unfold lookup, delete.
  induction c as [|e c IH]; simpl; [reflexivity|].
  destruct (e_key e =? k') eqn:He'; simpl.
  - apply String.eqb_eq in He'.
    destruct (e_key e =? k) eqn:He; [|exact IH].
    apply String.eqb_eq in He. congruence.
  - destruct (e_key e =? k); [reflexivity|exact IH].
Qed.

Lemma lookup_cons_other k e c :
  e_key e <> k -> lookup k (e :: c) = lookup k c.
Proof.
  intros Hne. unfold lookup. simpl.
  apply String.eqb_neq in Hne. now rewrite Hne.
Qed.

Lemma lookup_cons_same k e c : e_key e = k -> lookup k (e :: c) = Some e.
Proof.
  intros <-. unfold lookup. simpl. now rewrite String.eqb_refl.
Qed.

Lemma length_delete k c : (length (delete k c) <= length c)%nat.
Proof. apply filter_length_le. Qed.

Lemma removelast_length (c : t) :
  (length (removelast c) <= length c)%nat.
Proof.
  induction c as [|e c IH]; simpl; [lia|].
  destruct c; simpl in *; lia.
Qed.

End CacheFacts.

Section RateLimitClaims.
Import LRUCache RateLimit.

Lemma rate_key_inj u v : rate_key u = rate_key v -> u = v.
Proof. unfold rate_key. simpl. intros H. now injection H. Qed.

Lemma fresh_not_stale now k v :
  isStale rateLimitCache_options now
    {| e_key := k; e_value := v; e_start := now |} = false.
Proof. unfold isStale. simpl. apply Z.ltb_ge. lia. Qed.

(** What one check does to the count it reads. *)
Lemma checkRateLimit_step now userId maxRequests c :
  let current := current_count now userId c in
  let '(answer, c') := checkRateLimit now userId maxRequests c in
  (answer = true <-> (current < maxRequests)%nat)
  /\ (answer = true ->
      current_count now userId c' = (current + 1)%nat)
  /\ (answer = false -> current_count now userId c' = current).
Proof.
  unfold checkRateLimit, current_count, get, set.
  set (key := rate_key userId).
  destruct (lookup key c) as [e|] eqn:Hl.
  - pose proof (lookup_key _ _ _ Hl) as Hk.
    destruct (isStale rateLimitCache_options now e) eqn:Hs.
    + (* expired: the count restarts *)
      destruct (maxRequests <=? 0)%nat eqn:Hm.
      * apply Nat.leb_le in Hm.
        rewrite lookup_delete_same.
        repeat split; try discriminate; try lia; reflexivity.
      * apply Nat.leb_gt in Hm.
        rewrite lookup_delete_same, lookup_cons_same by reflexivity.
        rewrite fresh_not_stale.
        repeat split; try discriminate; try lia; reflexivity.
    + assert (Hcur : (if (e_value e =? 0)%nat then 0%nat else e_value e)
                     = e_value e).
      { destruct (e_value e =? 0)%nat eqn:H0; [|reflexivity].
        apply Nat.eqb_eq in H0. now rewrite H0. }
      rewrite Hcur.
      destruct (maxRequests <=? e_value e)%nat eqn:Hm.
      * apply Nat.leb_le in Hm.
        rewrite lookup_cons_same by assumption. rewrite Hs.
        repeat split; try discriminate; try lia; reflexivity.
      * apply Nat.leb_gt in Hm.
        rewrite lookup_cons_same by assumption.
        rewrite lookup_cons_same by reflexivity.
        rewrite fresh_not_stale.
        repeat split; try discriminate; try lia; reflexivity.
  - destruct (maxRequests <=? 0)%nat eqn:Hm.
    + apply Nat.leb_le in Hm. rewrite Hl.
      repeat split; try discriminate; try lia; reflexivity.
    + apply Nat.leb_gt in Hm. rewrite Hl.
      rewrite lookup_cons_same by reflexivity.
      rewrite fresh_not_stale.
      repeat split; try discriminate; try lia; reflexivity.
Qed.

End RateLimitClaims.

Section RateLimitWindow.
Import LRUCache RateLimit.

Lemma length_delete_found k c e :
  lookup k c = Some e -> (length (delete k c) < length c)%nat.
Proof.
  unfold lookup, delete. induction c as [|x c IH]; simpl; [discriminate|].
  destruct (e_key x =? k) eqn:Hx; simpl.
  - intros _. pose proof (filter_length_le
                            (fun e0 => negb (e_key e0 =? k)) c). lia.
  - intros H. specialize (IH H). lia.
Qed.

Lemma delete_cons_same k e c :
  e_key e = k -> delete k (e :: c) = delete k c.
Proof.
  intros <-. unfold delete. simpl. now rewrite String.eqb_refl.
Qed.

Lemma set_not_full (c : LRUCache.t) :
  (length c < max rateLimitCache_options)%nat ->
  (if (length c =? max rateLimitCache_options)%nat
   then removelast c else c) = c.
Proof.
  intros H. destruct (length c =? max rateLimitCache_options)%nat eqn:Hl;
    [|reflexivity].
  apply Nat.eqb_eq in Hl. lia.
Qed.

(** A check leaves the entries of the other keys alone, as long as the
    cache is not full. *)
Lemma checkRateLimit_other_key now caller maxRequests c k :
  k <> rate_key caller ->
  (length c < max rateLimitCache_options)%nat ->
  lookup k (snd (checkRateLimit now caller maxRequests c)) = lookup k c.
Proof.
  intros Hne Hlen. unfold checkRateLimit, get, set.
  set (key := rate_key caller) in *.
  destruct (lookup key c) as [e|] eqn:Hl.
  - pose proof (lookup_key _ _ _ Hl) as Hk.
    pose proof (length_delete key c) as Hd.
    destruct (isStale rateLimitCache_options now e).
    + destruct (maxRequests <=? 0)%nat; cbn [fst snd e_key e_value e_start length].
      * now apply lookup_delete_other.
      * rewrite lookup_delete_same, set_not_full by lia.
        rewrite lookup_cons_other by (cbn [e_key]; congruence).
        now apply lookup_delete_other.
    + match goal with
      | |- context [(maxRequests <=? ?x)%nat] =>
          destruct (maxRequests <=? x)%nat
      end; cbn [fst snd e_key e_value e_start length].
      * rewrite lookup_cons_other by congruence.
        now apply lookup_delete_other.
      * rewrite lookup_cons_same by assumption.
        rewrite lookup_cons_other by (cbn [e_key]; congruence).
        rewrite delete_cons_same by assumption.
        rewrite !lookup_delete_other by assumption. reflexivity.
  - destruct (maxRequests <=? 0)%nat; cbn [fst snd e_key e_value e_start length]; [reflexivity|].
    rewrite Hl, set_not_full by assumption.
    now rewrite lookup_cons_other by (cbn [e_key]; congruence).
Qed.

(** One check of the caller uses up one unit of the allowance when it is
    admitted, and never adds to it. *)
Lemma checkRateLimit_allowance t0 now userId maxRequests c :
  (t0 <= now <= t0 + ttl rateLimitCache_options)%Z ->
  (length c < max rateLimitCache_options)%nat ->
  ((if fst (checkRateLimit now userId maxRequests c) then 1 else 0)
   + allowance t0 userId maxRequests
       (snd (checkRateLimit now userId maxRequests c))
   <= allowance t0 userId maxRequests c)%nat.
Proof.
  intros Hnow Hlen. unfold checkRateLimit, allowance, get, set.
  set (key := rate_key userId) in *.
  assert (Hfresh : (t0 <=? now)%Z = true) by (apply Z.leb_le; lia).
  destruct (lookup key c) as [e|] eqn:Hl.
  - pose proof (lookup_key _ _ _ Hl) as Hk.
    pose proof (length_delete key c) as Hd.
    destruct (isStale rateLimitCache_options now e) eqn:Hs.
    + assert (Hold : (t0 <=? e_start e)%Z = false).
      { unfold isStale in Hs. apply Z.ltb_lt in Hs.
        apply Z.leb_gt. lia. }
      rewrite Hold.
      destruct (maxRequests <=? 0)%nat eqn:Hm; cbn [fst snd e_key e_value e_start length].
      * rewrite lookup_delete_same. lia.
      * apply Nat.leb_gt in Hm.
        rewrite lookup_delete_same, set_not_full by lia.
        rewrite lookup_cons_same by reflexivity. cbn [fst snd e_key e_value e_start length].
        rewrite Hfresh. lia.
    + assert (Hcur : (if (e_value e =? 0)%nat then 0%nat else e_value e)
                     = e_value e).
      { destruct (e_value e =? 0)%nat eqn:H0; [|reflexivity].
        apply Nat.eqb_eq in H0. now rewrite H0. }
      rewrite Hcur.
      destruct (maxRequests <=? e_value e)%nat eqn:Hm; cbn [fst snd e_key e_value e_start length].
      * rewrite lookup_cons_same by assumption. lia.
      * apply Nat.leb_gt in Hm.
        rewrite lookup_cons_same by assumption.
        rewrite lookup_cons_same by reflexivity. cbn [fst snd e_key e_value e_start length].
        rewrite Hfresh. destruct (t0 <=? e_start e)%Z; lia.
  - destruct (maxRequests <=? 0)%nat eqn:Hm; cbn [fst snd e_key e_value e_start length].
    + rewrite Hl. lia.
    + apply Nat.leb_gt in Hm.
      rewrite Hl, set_not_full by assumption.
      rewrite lookup_cons_same by reflexivity. cbn [fst snd e_key e_value e_start length].
      rewrite Hfresh. lia.
Qed.

Lemma allowance_le t0 userId maxRequests c :
  (allowance t0 userId maxRequests c <= maxRequests)%nat.
Proof.
  unfold allowance. destruct (lookup (rate_key userId) c) as [e|]; [|lia].
  destruct (t0 <=? e_start e)%Z; lia.
Qed.

Lemma NoDup_filter_keys (p : entry -> bool) (c : LRUCache.t) :
  NoDup (map e_key c) -> NoDup (map e_key (filter p c)).
Proof.
  induction c as [|x c IH]; intros H; [constructor|].
  simpl in *. inversion H as [|? ? Hnotin Hnd]; subst.
  destruct (p x); [|now apply IH].
  simpl. constructor; [|now apply IH].
  intros Hin. apply Hnotin.
  apply in_map_iff in Hin as (y & Hy & Hin).
  apply filter_In in Hin as [Hin _].
  apply in_map_iff. eauto.
Qed.

Lemma key_not_in_delete k (c : LRUCache.t) :
  ~ In k (map e_key (delete k c)).
Proof.
  intros Hin. apply in_map_iff in Hin as (y & Hy & Hin).
  apply filter_In in Hin as [_ Hne].
  rewrite Hy, String.eqb_refl in Hne. discriminate.
Qed.

Lemma lookup_None_not_in k (c : LRUCache.t) :
  lookup k c = None -> ~ In k (map e_key c).
Proof.
  unfold lookup. intros Hl Hin.
  apply in_map_iff in Hin as (y & Hy & Hin).
  pose proof (find_none _ _ Hl y Hin) as Hf. simpl in Hf.
  rewrite Hy, String.eqb_refl in Hf. discriminate.
Qed.

Lemma NoDup_removelast_keys (c : LRUCache.t) :
  NoDup (map e_key c) -> NoDup (map e_key (removelast c)).
Proof.
  induction c as [|x c IH]; intros H; [constructor|].
  destruct c as [|y c]; [constructor|].
  change (removelast (x :: y :: c)) with (x :: removelast (y :: c)).
  cbn [map] in *. inversion H as [|? ? Hnotin Hnd]; subst.
  constructor; [|now apply IH].
  intros Hin. apply Hnotin.
  clear - Hin. revert y Hin.
  induction c as [|z c IHc]; intros y Hin; [contradiction|].
  change (removelast (y :: z :: c)) with (y :: removelast (z :: c)) in Hin.
  cbn [map] in *. destruct Hin as [->|Hin]; [now left|].
  right. now apply IHc.
Qed.

Lemma not_in_removelast_keys k (c : LRUCache.t) :
  ~ In k (map e_key c) -> ~ In k (map e_key (removelast c)).
Proof.
  intros Hnot Hin. apply Hnot. clear Hnot.
  induction c as [|x c IH]; [contradiction|].
  destruct c as [|y c]; [contradiction|].
  change (removelast (x :: y :: c)) with (x :: removelast (y :: c)) in Hin.
  cbn [map] in *. destruct Hin as [->|Hin]; [now left|].
  right. now apply IH.
Qed.

(** A list of keys checked to be without repetition. *)
Lemma all_different_NoDup (keys : list string) :
  (fix all_different (l : list string) : bool :=
     match l with
     | [] => true
     | k :: r => negb (existsb (String.eqb k) r) && all_different r
     end) keys = true ->
  NoDup keys.
Proof.
  induction keys as [|k r IH]; intros H; [constructor|].
  apply andb_true_iff in H as [Hk Hr].
  constructor; [|now apply IH].
  intros Hin. apply negb_true_iff in Hk.
  assert (Hex : existsb (String.eqb k) r = true)
    by (apply existsb_exists; exists k; split;
        [exact Hin|apply String.eqb_refl]).
  congruence.
Qed.

Lemma distinct_incl (a b : list string) :
  incl a b -> (distinct a <= distinct b)%nat.
Proof.
  intros H. unfold distinct. apply NoDup_incl_length.
  - apply NoDup_nodup.
  - intros x Hx. apply nodup_In. apply H. now apply nodup_In in Hx.
Qed.

Lemma distinct_NoDup (a : list string) :
  NoDup a -> distinct a = length a.
Proof. intros H. unfold distinct. now rewrite nodup_fixed_point. Qed.

Lemma ahead_keys k c : incl (ahead k c) (map e_key c).
Proof.
  induction c as [|e c IH]; simpl; [apply incl_refl|].
  destruct (e_key e =? k); [intros x []|].
  intros x [<-|Hx]; [now left|right; now apply IH].
Qed.

Lemma ahead_NoDup k c : NoDup (map e_key c) -> NoDup (ahead k c).
Proof.
  induction c as [|e c IH]; simpl; intros H; [constructor|].
  inversion H as [|? ? Hnot Hnd]; subst.
  destruct (e_key e =? k); [constructor|].
  constructor; [|now apply IH].
  intros Hin. apply Hnot. now apply ahead_keys in Hin.
Qed.

Lemma ahead_length k c e :
  lookup k c = Some e -> (length (ahead k c) < length c)%nat.
Proof.
  unfold lookup. induction c as [|x c IH]; simpl; [discriminate|].
  destruct (e_key x =? k); simpl; [lia|].
  intros H. specialize (IH H). lia.
Qed.

Lemma ahead_delete k k' c :
  k <> k' -> incl (ahead k (delete k' c)) (ahead k c).
Proof.
  intros Hne. unfold delete.
  induction c as [|x c IH]; simpl; [apply incl_refl|].
  destruct (e_key x =? k') eqn:Hk'; simpl.
  - apply String.eqb_eq in Hk'.
    assert (Hk : (e_key x =? k) = false)
      by (apply String.eqb_neq; congruence).
    rewrite Hk. intros y Hy. right. now apply IH.
  - destruct (e_key x =? k); [apply incl_refl|].
    intros y [<-|Hy]; [now left|right; now apply IH].
Qed.

Lemma not_in_lookup_None k (c : LRUCache.t) :
  ~ In k (map e_key c) -> lookup k c = None.
Proof.
  intros Hnot. unfold lookup.
  destruct (find (fun e => e_key e =? k) c) as [e|] eqn:Hf;
    [|reflexivity].
  apply find_some in Hf as [Hin Hk]. apply String.eqb_eq in Hk.
  exfalso. apply Hnot. apply in_map_iff. eauto.
Qed.

(** Dropping the last entry leaves an entry that is not the last, and
    the entries in front of it, alone. *)
Lemma lookup_removelast k c e :
  lookup k c = Some e ->
  (S (length (ahead k c)) < length c)%nat ->
  lookup k (removelast c) = Some e
  /\ ahead k (removelast c) = ahead k c.
Proof.
  unfold lookup. induction c as [|x c IH]; [discriminate|].
  destruct c as [|y c].
  - simpl. destruct (e_key x =? k); simpl; lia.
  - change (removelast (x :: y :: c)) with (x :: removelast (y :: c)).
    change (ahead k (x :: y :: c))
      with (if e_key x =? k then [] else e_key x :: ahead k (y :: c)).
    change (ahead k (x :: removelast (y :: c)))
      with (if e_key x =? k then []
            else e_key x :: ahead k (removelast (y :: c))).
    change (find (fun e0 => e_key e0 =? k) (x :: y :: c))
      with (if e_key x =? k then Some x
            else find (fun e0 => e_key e0 =? k) (y :: c)).
    change (find (fun e0 => e_key e0 =? k) (x :: removelast (y :: c)))
      with (if e_key x =? k then Some x
            else find (fun e0 => e_key e0 =? k) (removelast (y :: c))).
    destruct (e_key x =? k).
    + intros H _. split; [exact H|reflexivity].
    + intros H Hlen.
      assert (Hlen' : (S (length (ahead k (y :: c)))
                       < length (y :: c))%nat)
        by (cbn [length] in *; lia).
      destruct (IH H Hlen') as [IH1 IH2].
      split; [exact IH1|]. now rewrite IH2.
Qed.

(** The entry of a key that is the last of the cache has all the other
    keys in front of it. *)
Lemma ahead_of_last k c e :
  lookup k c = Some e ->
  (length c <= S (length (ahead k c)))%nat ->
  S (length (ahead k c)) = length c.
Proof.
  intros Hl Hlen. pose proof (ahead_length _ _ _ Hl). lia.
Qed.

Lemma delete_delete k c : delete k (delete k c) = delete k c.
Proof.
  unfold delete. induction c as [|x c IH]; simpl; [reflexivity|].
  destruct (negb (e_key x =? k)) eqn:Hx; simpl; [|exact IH].
  now rewrite Hx, IH.
Qed.

(** The cache after a check, in terms of the cache before. *)
Lemma checkRateLimit_cache now caller maxRequests c :
  (length c <= max rateLimitCache_options)%nat ->
  let key := rate_key caller in
  let c' := snd (checkRateLimit now caller maxRequests c) in
  (lookup key c = None /\ c' = c)
  \/ c' = delete key c
  \/ (exists x, e_key x = key /\ c' = x :: delete key c)
  \/ (lookup key c = None
      /\ exists x,
           e_key x = key
           /\ c' = x :: (if (length c =? max rateLimitCache_options)%nat
                         then removelast c else c)).
Proof.
  intros Hlen. cbv zeta. unfold checkRateLimit, get, set.
  set (key := rate_key caller).
  destruct (lookup key c) as [e|] eqn:Hl.
  - pose proof (lookup_key _ _ _ Hl) as Hk.
    pose proof (length_delete_found _ _ _ Hl) as Hd.
    destruct (isStale rateLimitCache_options now e).
    + destruct (maxRequests <=? 0)%nat; cbn [fst snd].
      * right. now left.
      * rewrite lookup_delete_same, set_not_full by lia.
        right. right. left. eexists. split; [|reflexivity]. reflexivity.
    + match goal with
      | |- context [(maxRequests <=? ?x)%nat] =>
          destruct (maxRequests <=? x)%nat
      end; cbn [fst snd].
      * right. right. left. exists e. auto.
      * rewrite lookup_cons_same by assumption.
        rewrite delete_cons_same by assumption.
        rewrite delete_delete.
        right. right. left. eexists. split; [|reflexivity]. reflexivity.
  - destruct (maxRequests <=? 0)%nat; cbn [fst snd]; [now left|].
    rewrite Hl. right. right. right. split; [reflexivity|].
    eexists. split; [|reflexivity]. reflexivity.
Qed.

(** A check keeps the cache within its bound and without a second entry
    for a key. *)
Lemma checkRateLimit_keeps_shape now userId maxRequests c :
  (length c <= max rateLimitCache_options)%nat ->
  NoDup (map e_key c) ->
  (length (snd (checkRateLimit now userId maxRequests c))
   <= max rateLimitCache_options)%nat
  /\ NoDup (map e_key (snd (checkRateLimit now userId maxRequests c))).
Proof.
  intros Hlen Hnd.
  unfold checkRateLimit, get, set.
  set (key := rate_key userId) in *.
  pose proof (length_delete key c) as Hd.
  pose proof (NoDup_filter_keys (fun e => negb (e_key e =? key)) c Hnd)
    as Hndd.
  fold (delete key c) in Hndd.
  pose proof (key_not_in_delete key c) as Hnotin.
  destruct (lookup key c) as [e|] eqn:Hl.
  - pose proof (lookup_key _ _ _ Hl) as Hk.
    pose proof (length_delete_found _ _ _ Hl) as Hlt.
    destruct (isStale rateLimitCache_options now e).
    + destruct (maxRequests <=? 0)%nat; cbn [fst snd].
      * split; [lia|assumption].
      * rewrite lookup_delete_same.
        rewrite set_not_full by lia.
        cbn [length map e_key]. split; [lia|].
        constructor; assumption.
    + match goal with
      | |- context [(maxRequests <=? ?x)%nat] =>
          destruct (maxRequests <=? x)%nat
      end; cbn [fst snd].
      * cbn [length map]. split; [lia|].
        rewrite Hk. constructor; assumption.
      * rewrite lookup_cons_same by assumption.
        rewrite delete_cons_same by assumption.
        pose proof (length_delete key (delete key c)).
        cbn [length map e_key]. split; [lia|].
        constructor.
        -- apply key_not_in_delete.
        -- now apply NoDup_filter_keys.
  - pose proof (lookup_None_not_in _ _ Hl) as Hfree.
    destruct (maxRequests <=? 0)%nat; cbn [fst snd];
      [split; assumption|].
    rewrite Hl.
    destruct (length c =? max rateLimitCache_options)%nat eqn:Hfull.
    + apply Nat.eqb_eq in Hfull.
      pose proof (removelast_length c) as Hr.
      cbn [length map e_key]. split.
      * destruct c as [|x c']; [simpl in *; lia|].
        assert (length (removelast (x :: c')) = length c').
        { clear. revert x. induction c' as [|y c' IH]; intros x;
            [reflexivity|].
          change (removelast (x :: y :: c'))
            with (x :: removelast (y :: c')).
          cbn [length]. now rewrite IH. }
        cbn [length] in *. lia.
      * constructor;
          [now apply not_in_removelast_keys
          |now apply NoDup_removelast_keys].
    + apply Nat.eqb_neq in Hfull.
      cbn [length map e_key]. split; [lia|].
      constructor; assumption.
Qed.

(** One check of the caller uses up one unit of the allowance when it is
    admitted, and never adds to it, also when the cache is full. *)
Lemma checkRateLimit_allowance_full t0 now userId maxRequests c :
  (t0 <= now <= t0 + ttl rateLimitCache_options)%Z ->
  (length c <= max rateLimitCache_options)%nat ->
  ((if fst (checkRateLimit now userId maxRequests c) then 1 else 0)
   + allowance t0 userId maxRequests
       (snd (checkRateLimit now userId maxRequests c))
   <= allowance t0 userId maxRequests c)%nat.
Proof.
  intros Hnow Hlen.
  destruct (Nat.eq_dec (length c) (max rateLimitCache_options))
    as [Hfull|Hroom];
    [|apply checkRateLimit_allowance; [assumption|lia]].
  unfold checkRateLimit, allowance, get, set.
  set (key := rate_key userId) in *.
  assert (Hfresh : (t0 <=? now)%Z = true) by (apply Z.leb_le; lia).
  destruct (lookup key c) as [e|] eqn:Hl.
  - pose proof (lookup_key _ _ _ Hl) as Hk.
    pose proof (length_delete_found _ _ _ Hl) as Hd.
    destruct (isStale rateLimitCache_options now e) eqn:Hs.
    + assert (Hold : (t0 <=? e_start e)%Z = false).
      { unfold isStale in Hs. apply Z.ltb_lt in Hs.
        apply Z.leb_gt. lia. }
      rewrite Hold.
      destruct (maxRequests <=? 0)%nat eqn:Hm;
        cbn [fst snd e_key e_value e_start length].
      * rewrite lookup_delete_same. lia.
      * apply Nat.leb_gt in Hm.
        rewrite lookup_delete_same, set_not_full by lia.
        rewrite lookup_cons_same by reflexivity.
        cbn [fst snd e_key e_value e_start length].
        rewrite Hfresh. lia.
    + assert (Hcur : (if (e_value e =? 0)%nat then 0%nat else e_value e)
                     = e_value e).
      { destruct (e_value e =? 0)%nat eqn:H0; [|reflexivity].
        apply Nat.eqb_eq in H0. now rewrite H0. }
      rewrite Hcur.
      destruct (maxRequests <=? e_value e)%nat eqn:Hm;
        cbn [fst snd e_key e_value e_start length].
      * rewrite lookup_cons_same by assumption. lia.
      * apply Nat.leb_gt in Hm.
        rewrite lookup_cons_same by assumption.
        rewrite lookup_cons_same by reflexivity.
        cbn [fst snd e_key e_value e_start length].
        rewrite Hfresh. destruct (t0 <=? e_start e)%Z; lia.
  - destruct (maxRequests <=? 0)%nat eqn:Hm;
      cbn [fst snd e_key e_value e_start length].
    + rewrite Hl. lia.
    + apply Nat.leb_gt in Hm. rewrite Hl.
      rewrite lookup_cons_same by reflexivity.
      cbn [fst snd e_key e_value e_start length].
      rewrite Hfresh. lia.
Qed.

(** After a check of the caller no key is more recent than the
    caller's. *)
Lemma more_recent_own now userId maxRequests c :
  (length c <= max rateLimitCache_options)%nat ->
  more_recent (rate_key userId)
    (snd (checkRateLimit now userId maxRequests c)) = [].
Proof.
  intros Hlen.
  pose proof (checkRateLimit_cache now userId maxRequests c Hlen) as Hc.
  cbv zeta in Hc. set (key := rate_key userId) in *.
  destruct Hc as [[Hl ->]|[->|[(x & Hx & ->)|(Hl & x & Hx & ->)]]].
  - unfold more_recent. now rewrite Hl.
  - unfold more_recent. now rewrite lookup_delete_same.
  - unfold more_recent. rewrite lookup_cons_same by assumption.
    cbn [ahead]. apply String.eqb_eq in Hx. now rewrite Hx.
  - unfold more_recent. rewrite lookup_cons_same by assumption.
    cbn [ahead]. apply String.eqb_eq in Hx. now rewrite Hx.
Qed.

(** A check of another caller keeps the entry of the caller, unless a
    thousand keys are more recent than it by then, and puts at most its
    own key in front of it. *)
Lemma checkRateLimit_other_caller now caller userId maxRequests c :
  caller <> userId ->
  (length c <= max rateLimitCache_options)%nat ->
  NoDup (map e_key c) ->
  (distinct (rate_key caller :: more_recent (rate_key userId) c)
   <= 999)%nat ->
  lookup (rate_key userId)
    (snd (checkRateLimit now caller maxRequests c))
  = lookup (rate_key userId) c
  /\ incl (more_recent (rate_key userId)
             (snd (checkRateLimit now caller maxRequests c)))
          (rate_key caller :: more_recent (rate_key userId) c).
Proof.
  intros Hne Hlen Hnd Hfew.
  assert (Hkeys : rate_key userId <> rate_key caller).
  { intros Heq. apply rate_key_inj in Heq. congruence. }
  pose proof (checkRateLimit_cache now caller maxRequests c Hlen) as Hc.
  cbv zeta in Hc.
  set (key := rate_key caller) in *. set (own := rate_key userId) in *.
  destruct Hc as [[_ ->]|[->|[(x & Hx & ->)|(Hl & x & Hx & ->)]]].
  - split; [reflexivity|]. intros y Hy. now right.
  - rewrite lookup_delete_other by assumption.
    split; [reflexivity|].
    unfold more_recent. rewrite lookup_delete_other by assumption.
    destruct (lookup own c); [|intros y []].
    intros y Hy. right. now apply (ahead_delete own key c Hkeys).
  - rewrite lookup_cons_other by congruence.
    rewrite lookup_delete_other by assumption.
    split; [reflexivity|].
    unfold more_recent. rewrite lookup_cons_other by congruence.
    rewrite lookup_delete_other by assumption.
    destruct (lookup own c); [|intros y []].
    cbn [ahead].
    assert (Hx' : (e_key x =? own) = false)
      by (apply String.eqb_neq; congruence).
    rewrite Hx', Hx.
    intros y [<-|Hy]; [now left|].
    right. now apply (ahead_delete own key c Hkeys).
  - rewrite lookup_cons_other by congruence.
    assert (Hx' : (e_key x =? own) = false)
      by (apply String.eqb_neq; congruence).
    destruct (length c =? max rateLimitCache_options)%nat eqn:Hfull.
    + apply Nat.eqb_eq in Hfull.
      destruct (lookup own c) as [e|] eqn:Hown.
      * (* the entry of the caller is not the last *)
        assert (Hnotlast : (S (length (ahead own c)) < length c)%nat).
        { destruct (Nat.lt_ge_cases (S (length (ahead own c)))
                      (length c)) as [Hlt|Hge]; [exact Hlt|].
          exfalso.
          pose proof (ahead_of_last _ _ _ Hown Hge) as Hlast.
          assert (Hdistinct : NoDup (key :: ahead own c)).
          { constructor; [|now apply ahead_NoDup].
            intros Hin. apply ahead_keys in Hin.
            now apply (lookup_None_not_in _ _ Hl). }
          unfold more_recent in Hfew. rewrite Hown in Hfew.
          rewrite (distinct_NoDup _ Hdistinct) in Hfew.
          cbn [length] in Hfew.
          change (max rateLimitCache_options) with 1000%nat in Hfull.
          lia. }
        destruct (lookup_removelast _ _ _ Hown Hnotlast) as [Hk Ha].
        split; [exact Hk|].
        unfold more_recent. rewrite lookup_cons_other by congruence.
        rewrite Hk, Hown. cbn [ahead]. rewrite Hx', Hx, Ha.
        apply incl_refl.
      * assert (Hnone : lookup own (removelast c) = None).
        { apply not_in_lookup_None, not_in_removelast_keys.
          now apply lookup_None_not_in. }
        split; [exact Hnone|].
        unfold more_recent. rewrite lookup_cons_other by congruence.
        rewrite Hnone. intros y [].
    + split; [reflexivity|].
      unfold more_recent. rewrite lookup_cons_other by congruence.
      destruct (lookup own c); [|intros y []].
      cbn [ahead]. rewrite Hx', Hx. apply incl_refl.
Qed.

(** Within one window, the requests admitted for a caller fit in the
    allowance as long as the entry of the caller is kept. *)
Lemma admitted_le_allowance_kept t0 userId maxRequests checks :
  forall c front,
    within_window t0 checks ->
    (length c <= max rateLimitCache_options)%nat ->
    NoDup (map e_key c) ->
    match front with
    | Some keys => incl (more_recent (rate_key userId) c) keys
    | None => lookup (rate_key userId) c = None
    end ->
    entry_kept userId front checks = true ->
    (admitted userId maxRequests checks c
     <= allowance t0 userId maxRequests c)%nat.
Proof.
  induction checks as [|[now caller] rest IH];
    intros c front Hw Hlen Hnd Hfront Hkept; simpl.
  - lia.
  - inversion Hw as [|? ? Hnow Hrest]; subst. cbn [fst] in Hnow.
    destruct (checkRateLimit_keeps_shape now caller maxRequests c
                Hlen Hnd) as [Hlen' Hnd'].
    cbn [entry_kept] in Hkept.
    destruct (caller =? userId) eqn:Hu.
    + apply String.eqb_eq in Hu. subst caller.
      pose proof (checkRateLimit_allowance_full t0 now userId
                    maxRequests c Hnow Hlen) as Ha.
      pose proof (more_recent_own now userId maxRequests c Hlen) as Hr.
      destruct (checkRateLimit now userId maxRequests c)
        as [answer c'] eqn:Hc.
      cbn [fst snd] in *.
      assert (Hfront' : incl (more_recent (rate_key userId) c') [])
        by (rewrite Hr; apply incl_refl).
      specialize (IH c' (Some []) Hrest Hlen' Hnd' Hfront' Hkept).
      rewrite andb_true_r. lia.
    + apply String.eqb_neq in Hu.
      assert (Hstep :
                lookup (rate_key userId)
                  (snd (checkRateLimit now caller maxRequests c))
                = lookup (rate_key userId) c
                /\ match front with
                   | Some keys =>
                       incl (more_recent (rate_key userId)
                               (snd (checkRateLimit now caller
                                       maxRequests c)))
                            (rate_key caller :: keys)
                       /\ entry_kept userId
                            (Some (rate_key caller :: keys)) rest = true
                   | None => entry_kept userId None rest = true
                   end).
      { destruct front as [keys|].
        - apply andb_true_iff in Hkept as [Hfew Hkept].
          apply Nat.leb_le in Hfew.
          destruct (checkRateLimit_other_caller now caller userId
                      maxRequests c Hu Hlen Hnd) as [Hsame Hr].
          + eapply Nat.le_trans; [|exact Hfew].
            apply distinct_incl.
            intros y [<-|Hy]; [now left|right; now apply Hfront].
          + split; [exact Hsame|]. split; [|exact Hkept].
            intros y Hy. apply Hr in Hy.
            destruct Hy as [<-|Hy]; [now left|right; now apply Hfront].
        - destruct (checkRateLimit_other_caller now caller userId
                      maxRequests c Hu Hlen Hnd) as [Hsame _].
          + unfold more_recent. rewrite Hfront.
            unfold distinct. simpl. lia.
          + split; [exact Hsame|exact Hkept]. }
      destruct (checkRateLimit now caller maxRequests c)
        as [answer c'] eqn:Hc.
      cbn [snd] in *. destruct Hstep as [Hsame Hnext].
      assert (Hallow : allowance t0 userId maxRequests c'
                       = allowance t0 userId maxRequests c)
        by (unfold allowance; now rewrite Hsame).
      assert (IH' : (admitted userId maxRequests rest c'
                     <= allowance t0 userId maxRequests c')%nat).
      { destruct front as [keys|].
        - destruct Hnext as [Hincl Hkept'].
          exact (IH c' (Some (rate_key caller :: keys)) Hrest Hlen' Hnd'
                   Hincl Hkept').
        - apply (IH c' None Hrest Hlen' Hnd'); [|exact Hnext].
          now rewrite Hsame. }
      rewrite andb_false_r. simpl. lia.
Qed.

Lemma in_front_sound k c :
  match in_front k c with
  | Some keys => incl (more_recent k c) keys
  | None => lookup k c = None
  end.
Proof.
  unfold in_front, more_recent.
  destruct (lookup k c); [apply incl_refl|reflexivity].
Qed.

(** C9 (as amended). A check admits the request exactly when the count
    read for the caller is below the threshold; an admission raises that
    count by one and a rejection leaves it as it is.  Over any sequence
    of checks that fall within one time-to-live window, at most
    [maxRequests] requests of a caller are admitted, provided the entry
    of the caller is not pushed out of the cache: between two checks of
    the caller that follow each other (and before the first, for a
    caller that has an entry, counting the keys in front of that entry)
    fewer than a thousand different other keys are checked.  The cache
    at the start is one that the limiter can have made: at most a
    thousand entries, no two for one key. *)
Theorem rate_limit_admits_below_threshold
    (userId : string) (maxRequests : nat) :
  (forall now c,
      let current := current_count now userId c in
      let '(answer, c') := checkRateLimit now userId maxRequests c in
      (answer = true <-> (current < maxRequests)%nat)
      /\ (answer = true ->
          current_count now userId c' = (current + 1)%nat)
      /\ (answer = false -> current_count now userId c' = current))
  /\ (forall t0 checks c,
        within_window t0 checks ->
        (length c <= 1000)%nat ->
        NoDup (map e_key c) ->
        entry_kept userId (in_front (rate_key userId) c) checks = true ->
        (admitted userId maxRequests checks c <= maxRequests)%nat).
Proof.
  split.
  - intros now c. apply checkRateLimit_step.
  - intros t0 checks c Hw Hlen Hnd Hkept.
    pose proof (admitted_le_allowance_kept t0 userId maxRequests checks
                  c _ Hw Hlen Hnd (in_front_sound _ c) Hkept).
    pose proof (allowance_le t0 userId maxRequests c). lia.
Qed.

End RateLimitWindow.

(** C9 as stated fails.  Ten admitted requests of a caller, a request of
    each of a thousand other callers within the same window, and the caller
    is admitted an eleventh time: the other callers filled the cache and
    evicted the caller's entry. *)
Lemma rate_limit_eviction_restarts_count :
  RateLimit.within_window 0 Sample.flood
  /\ RateLimit.admitted "a" RateLimit.default_maxRequests Sample.flood []
     = 11%nat.
Proof.
  split.
  - unfold RateLimit.within_window, Sample.flood.
    repeat rewrite Forall_app. repeat split.
    + apply Forall_forall. intros ev Hin. apply repeat_spec in Hin.
      subst ev. simpl. lia.
    + apply Forall_forall. intros ev Hin. apply in_map_iff in Hin.
      destruct Hin as (i & <- & _). simpl. lia.
    + constructor; [simpl; lia | constructor].
  - vm_compute. reflexivity.
Qed.

Lemma rate_limit_admits_below_threshold_witness :
  (RateLimit.admitted "a" 10 (repeat (5%Z, "a") 1001) [] <= 10)%nat
  /\ (RateLimit.admitted "a" 10 Scenario.crowd Scenario.full_cache
      <= 10)%nat.
Proof.
  split.
  - apply (proj2 (rate_limit_admits_below_threshold "a" 10) 0%Z).
    + unfold RateLimit.within_window. apply Forall_forall.
      intros ev Hin. apply repeat_spec in Hin. subst ev. simpl. lia.
    + simpl. lia.
    + constructor.
    + vm_compute. reflexivity.
  - apply (proj2 (rate_limit_admits_below_threshold "a" 10) 0%Z).
    + unfold RateLimit.within_window, Scenario.crowd.
      repeat rewrite Forall_app. repeat split;
        apply Forall_forall; intros ev Hin;
        first [apply repeat_spec in Hin; subst ev
              |apply in_map_iff in Hin; destruct Hin as (i & <- & _)];
        simpl; lia.
    + apply Nat.leb_le. vm_compute. reflexivity.
    + apply all_different_NoDup. vm_compute. reflexivity.
    + vm_compute. reflexivity.
Defined.

(** ** Mutation Pipeline: update and status change *)

Section UpdateClaims.
Import Auth Actions.
Context {E : Externals}.

(** A request without the token does not pass the schema: the form
    yields [null], which [z.string().optional()] rejects. *)
Lemma parse_rejects_absent_token rawData id :
  updateBuyerSchema_parse rawData id (as_string None) = None.
Proof.
  unfold updateBuyerSchema_parse. simpl.
  destruct (buyerSchema_partial rawData); [|reflexivity].
  destruct id; try reflexivity.
  now rewrite andb_false_r.
Qed.

(** The concurrency check compares only a non-empty token. *)
Lemma stale_token_spec token currentBuyer :
  stale_token token currentBuyer = true
  <-> exists t, token = Some t /\ t <> ""
                /\ toISOString (b_updatedAt currentBuyer) <> t.
Proof.
  unfold stale_token. destruct token as [t|].
  - rewrite andb_true_iff, !negb_true_iff, !String.eqb_neq.
    split.
    + intros [H1 H2]. exists t. auto.
    + intros (t' & Ht & H1 & H2). injection Ht as <-. auto.
  - split; [discriminate|]. intros (t' & Ht & _). discriminate.
Qed.

(** The update as a function of the outcome of each step. *)
Lemma updateBuyer_steps rq formData w :
  updateBuyer rq formData w =
  match requireAuth (session rq) with
  | Thrown e => (Thrown e, w)
  | Done user =>
      let checked :=
        RateLimit.checkRateLimit (now rq) (user_id user)
          RateLimit.default_maxRequests (cache w) in
      let w1 := {| cache := snd checked; db := db w |} in
      if negb (fst checked) then (Thrown RateLimited, w1)
      else
        match updateBuyerSchema_parse (update_rawData formData)
                (as_string (formData_get "id" formData))
                (as_string (formData_get "updatedAt" formData)) with
        | None => (Thrown ValidationFailed, w1)
        | Some validatedData =>
            match formData_get "id" formData with
            | None => (Thrown NotFound, w1)
            | Some id =>
                match Db.select_by_id id (db w) with
                | None => (Thrown NotFound, w1)
                | Some currentBuyer =>
                    if negb (canEditBuyer user (b_ownerId currentBuyer))
                    then (Thrown Forbidden, w1)
                    else if stale_token
                              (formData_get "updatedAt" formData)
                              currentBuyer
                    then (Thrown Conflict, w1)
                    else
                      match Db.update_buyers (now rq) id validatedData
                              (db w) with
                      | None => (Thrown PersistenceFailure, w1)
                      | Some tx1 =>
                          (Done tt,
                           {| cache := snd checked;
                              db :=
                                if has_changes
                                     (compute_changes currentBuyer
                                        validatedData)
                                then Db.insert_history (now rq) id
                                       (user_id user)
                                       (Db.Changes
                                          (compute_changes currentBuyer
                                             validatedData))
                                       tx1
                                else tx1 |})
                      end
                end
            end
        end
  end.
Proof.
  unfold updateBuyer.
  destruct (requireAuth (session rq)) as [user|e]; [|reflexivity].
  destruct (RateLimit.checkRateLimit (now rq) (user_id user)
              RateLimit.default_maxRequests (cache w)) as [admitted cache1].
  cbn [fst snd db].
  destruct (negb admitted); [reflexivity|].
  destruct (updateBuyerSchema_parse _ _ _) as [validatedData|];
    [|reflexivity].
  destruct (formData_get "id" formData) as [id|]; [|reflexivity].
  destruct (Db.select_by_id id (db w)) as [currentBuyer|]; [|reflexivity].
  destruct (negb (canEditBuyer user (b_ownerId currentBuyer)));
    [reflexivity|].
  destruct (stale_token _ currentBuyer); [reflexivity|].
  unfold Db.transaction.
  destruct (Db.update_buyers (now rq) id validatedData (db w));
    reflexivity.
Qed.

(** A failed update writes nothing to the database. *)
Lemma updateBuyer_thrown_no_write rq formData w e :
  fst (updateBuyer rq formData w) = Thrown e ->
  db (snd (updateBuyer rq formData w)) = db w.
Proof.
  rewrite updateBuyer_steps.
  destruct (requireAuth (session rq)) as [user|e0]; [|reflexivity].
  cbv zeta.
  destruct (negb (fst _)); [reflexivity|].
  destruct (updateBuyerSchema_parse _ _ _) as [validatedData|];
    [|reflexivity].
  destruct (formData_get "id" formData) as [id|]; [|reflexivity].
  destruct (Db.select_by_id id (db w)) as [currentBuyer|]; [|reflexivity].
  destruct (negb (canEditBuyer user (b_ownerId currentBuyer)));
    [reflexivity|].
  destruct (stale_token _ currentBuyer); [reflexivity|].
  destruct (Db.update_buyers (now rq) id validatedData (db w));
    [discriminate|reflexivity].
Qed.

(** C1 (as amended). An update whose token is not empty and differs
    from the ISO text of the stored [updatedAt] never succeeds and writes
    nothing: the tables are exactly as before; when the request is
    authenticated, admitted by the rate limiter, valid and authorized, the
    error is [Conflict]. *)
Theorem stale_token_conflict_without_write
    (rq : Request) (formData : FormData) (w : World)
    (token id : string) (currentBuyer : Buyer) :
  formData_get "updatedAt" formData = Some token ->
  token <> "" ->
  formData_get "id" formData = Some id ->
  Db.select_by_id id (db w) = Some currentBuyer ->
  toISOString (b_updatedAt currentBuyer) <> token ->
  db (snd (updateBuyer rq formData w)) = db w
  /\ (exists e, fst (updateBuyer rq formData w) = Thrown e)
  /\ (forall user,
        requireAuth (session rq) = Done user ->
        fst (RateLimit.checkRateLimit (now rq) (user_id user)
               RateLimit.default_maxRequests (cache w)) = true ->
        updateBuyerSchema_parse (update_rawData formData)
          (JS.Str id) (JS.Str token) <> None ->
        canEditBuyer user (b_ownerId currentBuyer) = true ->
        fst (updateBuyer rq formData w) = Thrown Conflict).
Proof.
  intros Htok Hne Hid Hsel Hdiff.
  assert (Hstale : stale_token (Some token) currentBuyer = true).
  { apply stale_token_spec. exists token. auto. }
  assert (Hthrown : exists e, fst (updateBuyer rq formData w) = Thrown e).
  { rewrite updateBuyer_steps.
    destruct (requireAuth (session rq)) as [user|e0];
      [|eexists; reflexivity].
    cbv zeta.
    destruct (negb (fst _)); [eexists; reflexivity|].
    destruct (updateBuyerSchema_parse _ _ _) as [validatedData|];
      [|eexists; reflexivity].
    rewrite Hid, Hsel, Htok, Hstale.
    destruct (negb (canEditBuyer user (b_ownerId currentBuyer)));
      eexists; reflexivity. }
  split; [|split; [exact Hthrown|]].
  - destruct Hthrown as [e He].
    now apply (updateBuyer_thrown_no_write _ _ _ e).
  - intros user Hauth Hadm Hparse Hedit.
    rewrite updateBuyer_steps, Hauth. cbv zeta.
    rewrite Hadm, Hid, Htok. cbn [negb as_string].
    destruct (updateBuyerSchema_parse _ _ _) as [validatedData|];
      [|congruence].
    now rewrite Hsel, Hedit, Hstale.
Qed.

(** C10 (as amended). An update whose token is the empty string or is
    missing never fails with [Conflict].  With the empty string the stored
    [updatedAt] is not looked at: a request that is authenticated,
    admitted, valid and authorized goes on to the transaction, which
    overwrites the row and records the history, whatever the stored
    [updatedAt] is (or fails as a whole when the database rejects a
    value). *)
Theorem empty_token_skips_concurrency_check
    (rq : Request) (formData : FormData) (w : World) :
  (formData_get "updatedAt" formData = None
   \/ formData_get "updatedAt" formData = Some "") ->
  fst (updateBuyer rq formData w) <> Thrown Conflict
  /\ (formData_get "updatedAt" formData = Some "" ->
      forall user cache1 id validatedData currentBuyer,
        requireAuth (session rq) = Done user ->
        RateLimit.checkRateLimit (now rq) (user_id user)
          RateLimit.default_maxRequests (cache w) = (true, cache1) ->
        formData_get "id" formData = Some id ->
        updateBuyerSchema_parse (update_rawData formData)
          (JS.Str id) (JS.Str "") = Some validatedData ->
        Db.select_by_id id (db w) = Some currentBuyer ->
        canEditBuyer user (b_ownerId currentBuyer) = true ->
        updateBuyer rq formData w =
        match Db.update_buyers (now rq) id validatedData (db w) with
        | Some tx1 =>
            (Done tt,
             {| cache := cache1;
                db :=
                  if has_changes
                       (compute_changes currentBuyer validatedData)
                  then Db.insert_history (now rq) id (user_id user)
                         (Db.Changes
                            (compute_changes currentBuyer validatedData))
                         tx1
                  else tx1 |})
        | None =>
            (Thrown PersistenceFailure, {| cache := cache1; db := db w |})
        end).
Proof.
  intros Htok.
  assert (Hfresh : forall b,
             stale_token (formData_get "updatedAt" formData) b = false).
  { intros b. destruct Htok as [-> | ->]; reflexivity. }
  split.
  - rewrite updateBuyer_steps.
    destruct (requireAuth (session rq)) as [user|e0] eqn:Hauth.
    + cbv zeta.
      destruct (negb (fst _)); [discriminate|].
      destruct (updateBuyerSchema_parse _ _ _) as [validatedData|];
        [|discriminate].
      destruct (formData_get "id" formData) as [id|]; [|discriminate].
      destruct (Db.select_by_id id (db w)) as [currentBuyer|];
        [|discriminate].
      destruct (negb (canEditBuyer user (b_ownerId currentBuyer)));
        [discriminate|].
      rewrite Hfresh.
      destruct (Db.update_buyers (now rq) id validatedData (db w));
        discriminate.
    + unfold requireAuth in Hauth.
      destruct (getCurrentUser (session rq)); [discriminate|].
      injection Hauth as <-. discriminate.
  - intros Hempty user cache1 id validatedData currentBuyer
           Hauth Hadm Hid Hparse Hsel Hedit.
    rewrite updateBuyer_steps, Hauth. cbv zeta.
    rewrite Hadm, Hid, Hempty. cbn [fst snd negb as_string].
    rewrite Hparse, Hsel, Hedit. cbn [negb stale_token].
    rewrite String.eqb_refl. cbn [negb andb].
    destruct (Db.update_buyers (now rq) id validatedData (db w));
      reflexivity.
Qed.

(** The status change as a function of the outcome of each step. *)
Lemma updateBuyerStatus_steps rq buyerId status w :
  updateBuyerStatus rq buyerId status w =
  match requireAuth (session rq) with
  | Thrown e => (Thrown e, w)
  | Done user =>
      let checked :=
        RateLimit.checkRateLimit (now rq) (user_id user)
          RateLimit.default_maxRequests (cache w) in
      let w1 := {| cache := snd checked; db := db w |} in
      if negb (fst checked) then (Thrown RateLimited, w1)
      else
        match Db.select_by_id buyerId (db w) with
        | None => (Thrown NotFound, w1)
        | Some currentBuyer =>
            if negb (canEditBuyer user (b_ownerId currentBuyer))
            then (Thrown Forbidden, w1)
            else
              match Validation.statusSchema status with
              | None => (Thrown PersistenceFailure, w1)
              | Some s =>
                  (Done tt,
                   {| cache := snd checked;
                      db :=
                        Db.insert_history (now rq) buyerId (user_id user)
                          (Db.Changes
                             [("status",
                               (JS.Str (status_text
                                          (b_status currentBuyer)),
                                JS.Str status))])
                          {| Db.buyers :=
                               map (fun b =>
                                      if b_id b =? buyerId
                                      then set_status (now rq) s b
                                      else b)
                                   (Db.buyers (db w));
                             Db.buyerHistory := Db.buyerHistory (db w);
                             Db.ids_drawn := Db.ids_drawn (db w) |} |})
              end
        end
  end.
Proof.
  unfold updateBuyerStatus.
  destruct (requireAuth (session rq)) as [user|e]; [|reflexivity].
  destruct (RateLimit.checkRateLimit (now rq) (user_id user)
              RateLimit.default_maxRequests (cache w)) as [admitted cache1].
  cbn [fst snd db].
  destruct (negb admitted); [reflexivity|].
  destruct (Db.select_by_id buyerId (db w)) as [currentBuyer|];
    [|reflexivity].
  destruct (negb (canEditBuyer user (b_ownerId currentBuyer)));
    [reflexivity|].
  unfold Db.transaction.
  destruct (Validation.statusSchema status); reflexivity.
Qed.

Lemma changes_loop_nil fields currentBuyer validatedData changes :
  changes_loop fields currentBuyer validatedData changes = [] <->
  changes = []
  /\ forall f, In f fields ->
       JS.stringify_differs (row_field currentBuyer f)
         (data_field validatedData f) = false.
Proof.
  revert changes.
  induction fields as [|f rest IH]; intros changes; simpl.
  - split; [intros ->; split; [reflexivity|intros f []] | tauto].
  - destruct (JS.stringify_differs (row_field currentBuyer f)
                (data_field validatedData f)) eqn:Hd.
    + rewrite IH. split.
      * intros [Hnil _]. destruct changes; discriminate.
      * intros [_ Hall]. specialize (Hall f (or_introl eq_refl)).
        congruence.
    + rewrite IH. split.
      * intros [Hnil Hall]. split; [exact Hnil|].
        intros f' [<-|Hin]; auto.
      * intros [Hnil Hall]. split; [exact Hnil|]. auto.
Qed.

(** The diff is empty exactly when no compared field differs in its
    JSON text. *)
Lemma compute_changes_nil currentBuyer validatedData :
  has_changes (compute_changes currentBuyer validatedData) = false <->
  forall f, In f fieldsToCheck ->
    JS.stringify_differs (row_field currentBuyer f)
      (data_field validatedData f) = false.
Proof.
  unfold compute_changes.
  pose proof (changes_loop_nil fieldsToCheck currentBuyer validatedData [])
    as H.
  destruct (changes_loop fieldsToCheck currentBuyer validatedData [])
    eqn:Hc; simpl.
  - split; [intros _; apply H; reflexivity | reflexivity].
  - split; [discriminate|]. intros Hall.
    assert (Hn : p :: l = []) by (apply H; auto). discriminate.
Qed.

Lemma list_string_eqb_eq (a b : list string) :
  JS.list_string_eqb a b = true <-> a = b.
Proof.
  revert b. induction a as [|x a IH]; intros [|y b]; simpl;
    try (split; [discriminate|discriminate]); [tauto|].
  rewrite andb_true_iff, String.eqb_eq, IH.
  split; [intros [-> ->]; reflexivity | intros H; now inversion H].
Qed.

(** Away from [NaN], two values have the same JSON text exactly when
    they are the same value. *)
Lemma stringify_differs_false (a b : JS.value) :
  a <> JS.Number JS.NaN -> b <> JS.Number JS.NaN ->
  JS.stringify_differs a b = false <-> a = b.
Proof.
  intros Ha Hb.
  destruct a as [| |s|[|x]|l], b as [| |t|[|y]|m];
    try (now contradiction Ha); try (now contradiction Hb);
    unfold JS.stringify_differs; cbn;
    try (split; [discriminate|discriminate]);
    try (split; reflexivity).
  - rewrite negb_false_iff, String.eqb_eq.
    split; [now intros ->|intros H; now inversion H].
  - rewrite negb_false_iff, Z.eqb_eq.
    split; [now intros ->|intros H; now inversion H].
  - rewrite negb_false_iff, list_string_eqb_eq.
    split; [now intros ->|intros H; now inversion H].
Qed.

Lemma row_field_number b f : row_field b f <> JS.Number JS.NaN.
Proof.
  destruct f; cbn; try discriminate;
    match goal with
    | |- or_null _ ?o <> _ => destruct o; discriminate
    end.
Qed.

Lemma data_field_number d f : data_field d f <> JS.Number JS.NaN.
Proof.
  destruct f; cbn;
    match goal with
    | |- or_undef _ ?o <> _ => destruct o; discriminate
    end.
Qed.

(** The diff lists the compared fields whose JSON texts differ, each
    with the stored and the validated value. *)
Lemma changes_loop_In fields currentBuyer validatedData changes x :
  In x (changes_loop fields currentBuyer validatedData changes) <->
  In x changes
  \/ exists f,
       In f fields
       /\ JS.stringify_differs (row_field currentBuyer f)
            (data_field validatedData f) = true
       /\ x = (field_name f,
               (row_field currentBuyer f, data_field validatedData f)).
Proof.
  revert changes.
  induction fields as [|f rest IH]; intros changes; simpl.
  - split; [now left|]. intros [H|(f & [] & _)]. exact H.
  - destruct (JS.stringify_differs (row_field currentBuyer f)
                (data_field validatedData f)) eqn:Hd; rewrite IH.
    + rewrite in_app_iff. simpl. split.
      * intros [[H|[<-|[]]]|(g & Hg & Hdg & ->)].
        -- now left.
        -- right. exists f. auto.
        -- right. exists g. auto.
      * intros [H|(g & [<-|Hg] & Hdg & ->)].
        -- left. now left.
        -- left. right. now left.
        -- right. exists g. auto.
    + split.
      * intros [H|(g & Hg & Hdg & ->)]; [now left|].
        right. exists g. auto.
      * intros [H|(g & [<-|Hg] & Hdg & ->)]; [now left|congruence|].
        right. exists g. auto.
Qed.

(** The history after a successful update. *)
Lemma updateBuyer_history rq formData w :
  fst (updateBuyer rq formData w) = Done tt ->
  exists user id validatedData currentBuyer,
    requireAuth (session rq) = Done user
    /\ formData_get "id" formData = Some id
    /\ updateBuyerSchema_parse (update_rawData formData)
         (as_string (formData_get "id" formData))
         (as_string (formData_get "updatedAt" formData))
       = Some validatedData
    /\ Db.select_by_id id (db w) = Some currentBuyer
    /\ Db.buyerHistory (db (snd (updateBuyer rq formData w))) =
       Db.buyerHistory (db w)
       ++ (if has_changes (compute_changes currentBuyer validatedData)
           then [{| Db.h_id := gen_random_uuid (Db.ids_drawn (db w));
                    Db.h_buyerId := id;
                    Db.h_changedBy := user_id user;
                    Db.h_changedAt := now rq;
                    Db.h_diff :=
                      Db.Changes
                        (compute_changes currentBuyer validatedData) |}]
           else []).
Proof.
  rewrite updateBuyer_steps.
  destruct (requireAuth (session rq)) as [user|e0]; [|discriminate].
  cbv zeta.
  destruct (negb (fst _)); [discriminate|].
  destruct (updateBuyerSchema_parse _ _ _) as [validatedData|] eqn:Hp;
    [|discriminate].
  destruct (formData_get "id" formData) as [id|] eqn:Hid;
    [|discriminate].
  destruct (Db.select_by_id id (db w)) as [currentBuyer|] eqn:Hsel;
    [|discriminate].
  destruct (negb (canEditBuyer user (b_ownerId currentBuyer)));
    [discriminate|].
  destruct (stale_token _ currentBuyer); [discriminate|].
  destruct (Db.update_buyers (now rq) id validatedData (db w))
    as [tx1|] eqn:Hup; [|discriminate].
  intros _. exists user, id, validatedData, currentBuyer.
  repeat split; try reflexivity; try assumption.
  cbn [snd db].
  assert (Hh : Db.buyerHistory tx1 = Db.buyerHistory (db w)
               /\ Db.ids_drawn tx1 = Db.ids_drawn (db w)).
  { unfold Db.update_buyers in Hup.
    destruct (Db.no_values validatedData); [discriminate|].
    destruct (forallb _ _); [|discriminate].
    injection Hup as <-. split; reflexivity. }
  destruct Hh as [Hh Hi].
  destruct (has_changes (compute_changes currentBuyer validatedData)).
  - unfold Db.insert_history. cbn [Db.buyerHistory].
    now rewrite Hh, Hi.
  - now rewrite app_nil_r.
Qed.

(** C2 (as amended). A successful update appends exactly one history
    entry when at least one compared field has a validated value that
    differs from the stored one, a column without a value and a field
    left out counting as the same; the entry lists every such field
    with the stored and the validated value, and lists nothing but
    compared fields with their two values.  It appends none when every
    compared field has a stored value and the validated value is
    identical to it.  A successful status change appends exactly one
    history entry [{status: [old, new]}], whether or not the new status
    differs from the old one. *)
Theorem history_entry_per_nonempty_diff_and_per_status_change
    (rq : Request) (w : World) :
  (forall formData,
      fst (updateBuyer rq formData w) = Done tt ->
      exists user id validatedData currentBuyer,
        requireAuth (session rq) = Done user
        /\ formData_get "id" formData = Some id
        /\ updateBuyerSchema_parse (update_rawData formData)
             (as_string (formData_get "id" formData))
             (as_string (formData_get "updatedAt" formData))
           = Some validatedData
        /\ Db.select_by_id id (db w) = Some currentBuyer
        /\ let stored := row_field currentBuyer in
           let submitted := data_field validatedData in
           let differs f :=
             stored f <> submitted f
             /\ ~ (stored f = JS.Null /\ submitted f = JS.Undefined) in
           let history :=
             Db.buyerHistory (db (snd (updateBuyer rq formData w))) in
           ((exists f, In f fieldsToCheck /\ differs f) ->
            exists changes,
              history =
              Db.buyerHistory (db w)
              ++ [{| Db.h_id := gen_random_uuid (Db.ids_drawn (db w));
                     Db.h_buyerId := id;
                     Db.h_changedBy := user_id user;
                     Db.h_changedAt := now rq;
                     Db.h_diff := Db.Changes changes |}]
              /\ (forall f, In f fieldsToCheck -> differs f ->
                    In (field_name f, (stored f, submitted f)) changes)
              /\ (forall x, In x changes ->
                    exists f, In f fieldsToCheck
                              /\ x = (field_name f,
                                      (stored f, submitted f))))
           /\ ((forall f, In f fieldsToCheck -> stored f = submitted f) ->
               history = Db.buyerHistory (db w)))
  /\ (forall buyerId status,
        fst (updateBuyerStatus rq buyerId status w) = Done tt ->
        exists user currentBuyer,
          requireAuth (session rq) = Done user
          /\ Db.select_by_id buyerId (db w) = Some currentBuyer
          /\ Db.buyerHistory
               (db (snd (updateBuyerStatus rq buyerId status w))) =
             Db.buyerHistory (db w)
             ++ [{| Db.h_id := gen_random_uuid (Db.ids_drawn (db w));
                    Db.h_buyerId := buyerId;
                    Db.h_changedBy := user_id user;
                    Db.h_changedAt := now rq;
                    Db.h_diff :=
                      Db.Changes
                        [("status",
                          (JS.Str (status_text (b_status currentBuyer)),
                           JS.Str status))] |}]).
Proof.
  split.
  - intros formData Hdone.
    destruct (updateBuyer_history rq formData w Hdone)
      as (user & id & validatedData & currentBuyer
          & Hauth & Hid & Hparse & Hsel & Hhist).
    exists user, id, validatedData, currentBuyer.
    do 4 (split; [assumption|]).
    cbv zeta. rewrite Hhist. split.
    + intros (f & Hf & Hne & _).
      assert (Hd : JS.stringify_differs (row_field currentBuyer f)
                     (data_field validatedData f) = true).
      { apply not_false_iff_true. intros Hd. apply Hne.
        apply stringify_differs_false in Hd;
          auto using row_field_number, data_field_number. }
      assert (Hin : In (field_name f,
                        (row_field currentBuyer f,
                         data_field validatedData f))
                       (compute_changes currentBuyer validatedData)).
      { apply changes_loop_In. right. exists f. auto. }
      destruct (compute_changes currentBuyer validatedData)
        as [|c changes] eqn:Hc; [destruct Hin|].
      cbn [has_changes]. exists (c :: changes).
      split; [reflexivity|]. split.
      * intros g Hg (Hneg & _). rewrite <- Hc.
        apply changes_loop_In. right. exists g.
        split; [assumption|]. split; [|reflexivity].
        apply not_false_iff_true. intros Hdg. apply Hneg.
        apply stringify_differs_false in Hdg;
          auto using row_field_number, data_field_number.
      * intros x Hx. rewrite <- Hc in Hx.
        apply changes_loop_In in Hx.
        destruct Hx as [[]|(g & Hg & _ & ->)]. exists g. auto.
    + intros Hsame.
      assert (Hnil : has_changes
                       (compute_changes currentBuyer validatedData)
                     = false).
      { apply compute_changes_nil. intros f Hf.
        apply stringify_differs_false;
          auto using row_field_number, data_field_number. }
      rewrite Hnil. apply app_nil_r.
  - intros buyerId status. rewrite updateBuyerStatus_steps.
    destruct (requireAuth (session rq)) as [user|e0]; [|discriminate].
    cbv zeta.
    destruct (negb (fst _)); [discriminate|].
    destruct (Db.select_by_id buyerId (db w)) as [currentBuyer|] eqn:Hsel;
      [|discriminate].
    destruct (negb (canEditBuyer user (b_ownerId currentBuyer)));
      [discriminate|].
    destruct (Validation.statusSchema status); [|discriminate].
    intros _. exists user, currentBuyer.
    repeat split; reflexivity.
Qed.

End UpdateClaims.

(** C1 as stated fails.  The empty token differs from the ISO text of the
    stored [updatedAt], and the update succeeds and rewrites the row. *)
Lemma empty_token_differs_and_update_is_written :
  let form := Sample.edit_form "Jane Doe" (Some "") in
  let result :=
    @Actions.updateBuyer Sample.externals (Sample.request_of Sample.agent)
      form Sample.world in
  Actions.formData_get "updatedAt" form = Some ""
  /\ Db.select_by_id (Sample.sample_uuid 7) (Actions.db Sample.world)
     = Some Sample.stored_lead
  /\ @toISOString Sample.externals (b_updatedAt Sample.stored_lead) <> ""
  /\ fst result = Done tt
  /\ Actions.db (snd result) <> Actions.db Sample.world.
Proof.
  cbv zeta. repeat split; try reflexivity.
  - vm_compute. discriminate.
  - vm_compute. discriminate.
Qed.

Lemma stale_token_conflict_without_write_witness :
  let form := Sample.edit_form "Jane Doe" (Some "2020-01-01T00:00:00.000Z") in
  let result :=
    @Actions.updateBuyer Sample.externals (Sample.request_of Sample.agent)
      form Sample.world in
  Actions.db (snd result) = Actions.db Sample.world
  /\ fst result = Thrown Conflict.
Proof.
  cbv zeta.
  destruct (@stale_token_conflict_without_write Sample.externals
              (Sample.request_of Sample.agent)
              (Sample.edit_form "Jane Doe" (Some "2020-01-01T00:00:00.000Z"))
              Sample.world "2020-01-01T00:00:00.000Z" (Sample.sample_uuid 7)
              Sample.stored_lead)
    as (Hdb & _ & Hconflict).
  - reflexivity.
  - discriminate.
  - reflexivity.
  - reflexivity.
  - vm_compute. discriminate.
  - split; [exact Hdb|].
    apply (Hconflict
             {| Auth.user_id := Sample.sample_uuid 1;
                Auth.user_email := Some "agent@example.com";
                Auth.isAdmin := false |}).
    + reflexivity.
    + reflexivity.
    + vm_compute. discriminate.
    + reflexivity.
Defined.

(** Two updates of the same lead that both submit the token read before
    either of them: the first is committed and renews [updatedAt], the
    second fails with [Conflict] and writes nothing. *)
Example second_of_two_updates_conflicts :
  let token :=
    @toISOString Sample.externals (b_updatedAt Sample.stored_lead) in
  let first :=
    @Actions.updateBuyer Sample.externals (Sample.request_of Sample.agent)
      (Sample.edit_form "Jane Doe" (Some token)) Sample.world in
  let second :=
    @Actions.updateBuyer Sample.externals (Sample.request_of Sample.agent)
      (Sample.edit_form "Janet Doe" (Some token)) (snd first) in
  fst first = Done tt
  /\ fst second = Thrown Conflict
  /\ Actions.db (snd second) = Actions.db (snd first).
Proof. cbv zeta. repeat split; vm_compute; reflexivity. Qed.

(** C10 as stated fails.  Without the token the request is rejected by
    the schema and nothing is written, although the same form with the empty
    token is accepted. *)
Lemma absent_token_is_rejected_by_validation :
  let form := Sample.edit_form "Jane Doe" None in
  let result :=
    @Actions.updateBuyer Sample.externals (Sample.request_of Sample.agent)
      form Sample.world in
  Actions.formData_get "updatedAt" form = None
  /\ fst result = Thrown ValidationFailed
  /\ Actions.db (snd result) = Actions.db Sample.world
  /\ fst (@Actions.updateBuyer Sample.externals
            (Sample.request_of Sample.agent)
            (Sample.edit_form "Jane Doe" (Some "")) Sample.world)
     = Done tt.
Proof. cbv zeta. repeat split; reflexivity. Qed.

Lemma empty_token_skips_concurrency_check_witness :
  fst (@Actions.updateBuyer Sample.externals
         (Sample.request_of Sample.agent)
         (Sample.edit_form "Jane Doe" (Some "")) Sample.world)
  = Done tt
  /\ fst (@Actions.updateBuyer Sample.externals
            (Sample.request_of Sample.agent)
            (Sample.edit_form "Jane Doe" (Some "")) Sample.world)
     <> Thrown Conflict.
Proof.
  split; [vm_compute; reflexivity|].
  apply (@empty_token_skips_concurrency_check Sample.externals).
  right. reflexivity.
Defined.

(** C2 as stated fails.  A status change to the status the lead already
    has changes no compared field and still appends a history entry. *)
Lemma status_change_to_same_status_writes_history :
  let result :=
    @Actions.updateBuyerStatus Sample.externals
      (Sample.request_of Sample.agent) (Sample.sample_uuid 7) "New"
      Sample.world in
  b_status Sample.stored_lead = New
  /\ fst result = Done tt
  /\ (exists after,
        Db.select_by_id (Sample.sample_uuid 7) (Actions.db (snd result))
        = Some after
        /\ map (Actions.row_field after) Actions.fieldsToCheck
           = map (Actions.row_field Sample.stored_lead)
                 Actions.fieldsToCheck)
  /\ Db.buyerHistory (Actions.db Sample.world) = []
  /\ exists entry,
       Db.buyerHistory (Actions.db (snd result)) = [entry]
       /\ Db.h_diff entry
          = Db.Changes [("status", (JS.Str "New", JS.Str "New"))].
Proof.
  cbv zeta. repeat split; try (vm_compute; reflexivity).
  - vm_compute. eexists. split; reflexivity.
  - vm_compute. eexists. split; reflexivity.
Qed.

(** An update that submits the stored values of a lead whose optional
    columns are [NULL] finds a difference between [null] and [undefined]
    in each of them and appends a history entry. *)
Lemma unchanged_update_with_null_columns_writes_history :
  let form :=
    Sample.edit_form "John Doe"
      (Some (@toISOString Sample.externals
               (b_updatedAt Sample.stored_lead))) in
  let result :=
    @Actions.updateBuyer Sample.externals (Sample.request_of Sample.agent)
      form Sample.world in
  fst result = Done tt
  /\ (exists after,
        Db.select_by_id (Sample.sample_uuid 7) (Actions.db (snd result))
        = Some after
        /\ map (Actions.row_field after) Actions.fieldsToCheck
           = map (Actions.row_field Sample.stored_lead)
                 Actions.fieldsToCheck)
  /\ exists entry,
       Db.buyerHistory (Actions.db (snd result)) = [entry]
       /\ Db.h_diff entry
          = Db.Changes
              [("email", (JS.Null, JS.Undefined));
               ("bhk", (JS.Null, JS.Undefined));
               ("budgetMin", (JS.Null, JS.Undefined));
               ("budgetMax", (JS.Null, JS.Undefined));
               ("notes", (JS.Null, JS.Undefined))].
Proof.
  cbv zeta. repeat split; try (vm_compute; reflexivity).
  - vm_compute. eexists. split; reflexivity.
  - vm_compute. eexists. split; reflexivity.
Qed.

Lemma history_entry_per_nonempty_diff_and_per_status_change_witness :
  (exists entry,
     Db.buyerHistory
       (Actions.db
          (snd (@Actions.updateBuyerStatus Sample.externals
                  (Sample.request_of Sample.agent) (Sample.sample_uuid 7)
                  "Qualified" Sample.world)))
     = Db.buyerHistory (Actions.db Sample.world) ++ [entry]
     /\ Db.h_diff entry
        = Db.Changes [("status", (JS.Str "New", JS.Str "Qualified"))])
  /\ (exists entry changes,
        Db.buyerHistory
          (Actions.db
             (snd (@Actions.updateBuyer Sample.externals
                     (Sample.request_of Sample.another_agent)
                     (Scenario.edit_of_other_lead "Asha R. Rao")
                     Sample.world)))
        = Db.buyerHistory (Actions.db Sample.world) ++ [entry]
        /\ Db.h_diff entry = Db.Changes changes
        /\ In ("fullName", (JS.Str "Asha Rao", JS.Str "Asha R. Rao"))
              changes)
  /\ Db.buyerHistory
       (Actions.db
          (snd (@Actions.updateBuyer Sample.externals
                  (Sample.request_of Sample.another_agent)
                  (Scenario.edit_of_other_lead "Asha Rao")
                  Sample.world)))
     = Db.buyerHistory (Actions.db Sample.world).
Proof.
  split; [|split].
  - destruct (proj2
                (@history_entry_per_nonempty_diff_and_per_status_change
                   Sample.externals (Sample.request_of Sample.agent)
                   Sample.world)
                (Sample.sample_uuid 7) "Qualified" eq_refl)
      as (user & currentBuyer & Hauth & Hsel & Hhist).
    eexists. split; [exact Hhist|].
    cbn [Db.h_diff]. vm_compute in Hsel. injection Hsel as <-.
    reflexivity.
  - destruct (proj1
                (@history_entry_per_nonempty_diff_and_per_status_change
                   Sample.externals
                   (Sample.request_of Sample.another_agent)
                   Sample.world)
                (Scenario.edit_of_other_lead "Asha R. Rao") eq_refl)
      as (user & id & validatedData & currentBuyer
          & Hauth & Hid & Hparse & Hsel & Hsome & _).
    vm_compute in Hparse. injection Hparse as <-.
    vm_compute in Hid. injection Hid as <-.
    vm_compute in Hsel. injection Hsel as <-.
    destruct Hsome as (changes & Hhist & Hall & _).
    { exists Actions.FullName. split; [now left|].
      split; [discriminate|]. intros [H _]. discriminate H. }
    eexists. exists changes. split; [exact Hhist|].
    split; [reflexivity|].
    apply (Hall Actions.FullName); [now left|].
    split; [discriminate|]. intros [H _]. discriminate H.
  - destruct (proj1
                (@history_entry_per_nonempty_diff_and_per_status_change
                   Sample.externals
                   (Sample.request_of Sample.another_agent)
                   Sample.world)
                (Scenario.edit_of_other_lead "Asha Rao") eq_refl)
      as (user & id & validatedData & currentBuyer
          & Hauth & Hid & Hparse & Hsel & _ & Hnone).
    vm_compute in Hparse. injection Hparse as <-.
    vm_compute in Hid. injection Hid as <-.
    vm_compute in Hsel. injection Hsel as <-.
    apply Hnone. intros f Hf.
    repeat (destruct Hf as [<-|Hf]; [reflexivity|]). destruct Hf.
Defined.

(** ** Query/Filter Builder *)

Section QueryClaims.
Import Auth Actions Query.
Context {E : Externals}.










End QueryClaims.


(** ** Bulk import *)

Section ImportClaims.
Import Auth Actions Csv.
Context {E : Externals}.

(** What one insert into [buyers] does to the tables. *)
Lemma insert_buyer_spec now row ownerId tx b tx' :
  Db.insert_buyer now row ownerId tx = Some (b, tx') ->
  Db.buyers tx' = Db.buyers tx ++ [b]
  /\ Db.buyerHistory tx' = Db.buyerHistory tx
  /\ b_ownerId b = ownerId.
Proof.
  unfold Db.insert_buyer. intros H.
  repeat match type of H with
         | match ?x with _ => _ end = _ =>
             destruct x; try discriminate H
         | (if ?x then _ else _) = _ =>
             destruct x; try discriminate H
         end.
  injection H as <- <-. repeat split.
Qed.

(** The loop of the transaction, when it completes, adds one row and one
    history entry per row of the file, in order. *)
Lemma insert_rows_spec now userId rows :
  forall tx insertedBuyers result tx',
    insert_rows now userId rows tx insertedBuyers = Some (result, tx') ->
    exists new entries,
      result = insertedBuyers ++ new
      /\ Db.buyers tx' = Db.buyers tx ++ new
      /\ Db.buyerHistory tx' = Db.buyerHistory tx ++ entries
      /\ length new = length rows
      /\ Forall (fun b => b_ownerId b = userId) new
      /\ map Db.h_buyerId entries = map b_id new
      /\ map Db.h_changedBy entries = map (fun _ => userId) rows
      /\ map Db.h_diff entries
         = map (fun row => Db.Created (transformedRow row) userId) rows.
Proof.
  induction rows as [|row rest IH]; intros tx acc result tx' H; simpl in H.
  - injection H as <- <-. exists [], [].
    rewrite !app_nil_r. repeat split; constructor.
  - destruct (Db.insert_buyer now (transformedRow row) userId tx)
      as [[buyer tx1]|] eqn:Hins; [|discriminate].
    destruct (insert_buyer_spec _ _ _ _ _ _ Hins) as (Hb & Hh & Ho).
    apply IH in H.
    destruct H as (new & entries & Hres & Hbs & Hhs & Hlen & Hown & Hids
                   & Hby & Hdiff).
    unfold Db.insert_history in Hbs, Hhs. cbn [Db.buyers Db.buyerHistory]
      in Hbs, Hhs.
    exists (buyer :: new).
    eexists (_ :: entries).
    rewrite Hres, Hbs, Hhs, Hb, Hh, <- !app_assoc. cbn [app].
    repeat split; try reflexivity.
    + simpl. now rewrite Hlen.
    + constructor; assumption.
    + simpl. now rewrite Hids.
    + simpl. now rewrite Hby.
    + simpl. now rewrite Hdiff.
Qed.







End ImportClaims.



(* ================================================================== *)
(** * Further properties *)
(* ================================================================== *)
(* ================================================================== *)
(** ** Numbers as text, tags, and the text of the export *)
(* ================================================================== *)

Section TextFacts.
Import JSText Actions.

Lemma digit_char_facts c :
  is_digit c = true ->
  JS.is_white c = false
  /\ Ascii.eqb c "-"%char = false
  /\ Ascii.eqb c "+"%char = false
  /\ Ascii.eqb c "x"%char = false
  /\ Ascii.eqb c "X"%char = false.
Proof.
  destruct c as [[] [] [] [] [] [] [] []]; vm_compute;
    intros H; try discriminate H; repeat split; reflexivity.
Qed.

Lemma digit_char_is_digit d :
  (0 <= d < 10)%Z -> is_digit (digit_char d) = true.
Proof.
  intros H.
  assert (Hd : (d = 0 \/ d = 1 \/ d = 2 \/ d = 3 \/ d = 4 \/ d = 5
                \/ d = 6 \/ d = 7 \/ d = 8 \/ d = 9)%Z) by lia.
  repeat (destruct Hd as [->|Hd]; [reflexivity|]). now subst.
Qed.

Lemma digit_of_digit_char d :
  (0 <= d < 10)%Z -> JS.digit_of 10 (digit_char d) = Some d.
Proof.
  intros H.
  assert (Hd : (d = 0 \/ d = 1 \/ d = 2 \/ d = 3 \/ d = 4 \/ d = 5
                \/ d = 6 \/ d = 7 \/ d = 8 \/ d = 9)%Z) by lia.
  repeat (destruct Hd as [->|Hd]; [reflexivity|]). now subst.
Qed.

Lemma of_nonneg_head fuel : forall n acc,
  (0 <= n)%Z -> digit_head acc ->
  exists c r, of_nonneg (S fuel) n acc = String c r
              /\ is_digit c = true /\ digit_head r.
Proof.
  induction fuel as [|f IH]; intros n acc Hn Hacc.
  - simpl. exists (digit_char (n mod 10)), acc.
    destruct (n <? 10)%Z;
      (split; [reflexivity|split; [|assumption]]);
      apply digit_char_is_digit; apply Z.mod_pos_bound; lia.
  - change (of_nonneg (S (S f)) n acc)
      with (let acc' := String (digit_char (n mod 10)) acc in
            if (n <? 10)%Z then acc' else of_nonneg (S f) (n / 10) acc').
    cbv zeta.
    assert (Hd : is_digit (digit_char (n mod 10)) = true)
      by (apply digit_char_is_digit; apply Z.mod_pos_bound; lia).
    destruct (n <? 10)%Z.
    + exists (digit_char (n mod 10)), acc. auto.
    + apply IH; [apply Z.div_pos; lia | exact Hd].
Qed.

Lemma of_nonneg_digits fuel : forall n acc,
  (0 <= n < 10 ^ Z.of_nat (S fuel))%Z ->
  JS.digits 10 (of_nonneg (S fuel) n acc) None
  = JS.digits 10 acc (Some n).
Proof.
  induction fuel as [|f IH]; intros n acc Hn.
  - change (10 ^ Z.of_nat 1)%Z with 10%Z in Hn.
    simpl of_nonneg.
    assert (Hlt : (n <? 10)%Z = true) by (apply Z.ltb_lt; lia).
    rewrite Hlt. cbn [JS.digits].
    rewrite digit_of_digit_char by (apply Z.mod_pos_bound; lia).
    rewrite Z.mod_small by lia. reflexivity.
  - change (of_nonneg (S (S f)) n acc)
      with (let acc' := String (digit_char (n mod 10)) acc in
            if (n <? 10)%Z then acc' else of_nonneg (S f) (n / 10) acc').
    cbv zeta.
    destruct (n <? 10)%Z eqn:Hlt.
    + apply Z.ltb_lt in Hlt. cbn [JS.digits].
      rewrite digit_of_digit_char by (apply Z.mod_pos_bound; lia).
      rewrite Z.mod_small by lia. reflexivity.
    + apply Z.ltb_ge in Hlt.
      rewrite IH.
      * cbn [JS.digits].
        rewrite digit_of_digit_char by (apply Z.mod_pos_bound; lia).
        do 2 f_equal.
        pose proof (Z.div_mod n 10). lia.
      * split; [apply Z.div_pos; lia|].
        apply Z.div_lt_upper_bound; [lia|].
        replace (Z.of_nat (S (S f))) with (Z.succ (Z.of_nat (S f)))
          in Hn by lia.
        rewrite Z.pow_succ_r in Hn by lia. lia.
Qed.

Lemma fuel_enough z :
  (0 <= z)%Z -> (z < 10 ^ Z.of_nat (S (Z.to_nat (Z.log2 z))))%Z.
Proof.
  intros Hz.
  destruct (Z.eq_dec z 0) as [->|Hne]; [reflexivity|].
  assert (Hpos : (0 < z)%Z) by lia.
  pose proof (Z.log2_nonneg z) as Hl.
  pose proof (Z.log2_spec z Hpos) as [_ Hup].
  replace (Z.of_nat (S (Z.to_nat (Z.log2 z))))
    with (Z.succ (Z.log2 z)) by lia.
  eapply Z.lt_le_trans; [exact Hup|].
  apply Z.pow_le_mono_l. lia.
Qed.

(** [parseInt] of a text of digits. *)
Lemma parseInt_digits c r :
  is_digit c = true -> digit_head r ->
  JS.parseInt (String c r)
  = match JS.digits 10 (String c r) None with
    | Some z => JS.Num z
    | None => JS.NaN
    end.
Proof.
  intros Hc Hr.
  destruct (digit_char_facts c Hc) as (Hw & Hm & Hp & _).
  unfold JS.parseInt. cbn [JS.trimStart]. rewrite Hw, Hm, Hp.
  destruct r as [|cx r']; [destruct (Ascii.eqb c "0"); reflexivity|].
  destruct (digit_char_facts cx Hr) as (_ & _ & _ & Hx & HX).
  rewrite Hx, HX, andb_false_r. reflexivity.
Qed.

Lemma parseInt_minus_digits c r :
  is_digit c = true -> digit_head r ->
  JS.parseInt (String "-" (String c r))
  = match JS.digits 10 (String c r) None with
    | Some z => JS.Num (- z)
    | None => JS.NaN
    end.
Proof.
  intros Hc Hr.
  unfold JS.parseInt.
  change (JS.trimStart (String "-" (String c r)))
    with (String "-" (String c r)).
  cbv beta iota zeta. rewrite Ascii.eqb_refl. cbv beta iota zeta.
  destruct r as [|cx r']; [destruct (Ascii.eqb c "0"); reflexivity|].
  destruct (digit_char_facts cx Hr) as (_ & _ & _ & Hx & HX).
  rewrite Hx, HX, andb_false_r. reflexivity.
Qed.

(** The text of an integer is read back by [parseInt]. *)
Lemma parseInt_of_Z z : JS.parseInt (of_Z z) = JS.Num z.
Proof.
  unfold of_Z. destruct (z <? 0)%Z eqn:Hneg.
  - apply Z.ltb_lt in Hneg.
    assert (Hpos : (0 <= - z)%Z) by lia.
    destruct (of_nonneg_head (Z.to_nat (Z.log2 (- z))) (- z) "" Hpos I)
      as (c & r & Heq & Hc & Hr).
    pose proof (of_nonneg_digits (Z.to_nat (Z.log2 (- z))) (- z) ""
                  (conj Hpos (fuel_enough (- z) Hpos))) as Hd.
    rewrite Heq in *. rewrite parseInt_minus_digits by assumption.
    rewrite Hd. cbn [JS.digits]. f_equal. lia.
  - apply Z.ltb_ge in Hneg.
    destruct (of_nonneg_head (Z.to_nat (Z.log2 z)) z "" Hneg I)
      as (c & r & Heq & Hc & Hr).
    pose proof (of_nonneg_digits (Z.to_nat (Z.log2 z)) z ""
                  (conj Hneg (fuel_enough z Hneg))) as Hd.
    rewrite Heq in *. rewrite parseInt_digits by assumption.
    rewrite Hd. reflexivity.
Qed.

(** The text of an integer is not empty. *)
Lemma of_Z_not_empty z : (of_Z z =? "") = false.
Proof.
  unfold of_Z. destruct (z <? 0)%Z eqn:Hneg; [reflexivity|].
  apply Z.ltb_ge in Hneg.
  destruct (of_nonneg_head (Z.to_nat (Z.log2 z)) z "" Hneg I)
    as (c & r & Heq & _). now rewrite Heq.
Qed.

Lemma append_assoc (a b c : string) :
  ((a ++ b) ++ c = a ++ (b ++ c))%string.
Proof. induction a as [|x a IH]; simpl; [reflexivity|now rewrite IH]. Qed.

Lemma rev_string_app s : forall a b,
  JS.rev_string (JS.rev_string s a) b = JS.rev_string a (s ++ b)%string.
Proof.
  induction s as [|c s IH]; intros a b; simpl; [reflexivity|].
  rewrite IH. reflexivity.
Qed.

Lemma rev_string_involutive s :
  JS.rev_string (JS.rev_string s "") "" = s.
Proof.
  rewrite rev_string_app. simpl.
  induction s as [|c s IH]; simpl; [reflexivity|now rewrite IH].
Qed.

(** Splitting at commas a text that starts with a piece without one. *)
Lemma split_aux_comma_free s : forall t cur,
  comma_free s = true ->
  JS.split_aux "," (s ++ t)%string cur
  = JS.split_aux "," t (JS.rev_string s cur).
Proof.
  induction s as [|c s IH]; intros t cur H; simpl in *; [reflexivity|].
  apply andb_true_iff in H as [Hc Hs].
  apply negb_true_iff in Hc. rewrite Hc. now apply IH.
Qed.

Lemma split_comma_free s :
  comma_free s = true -> JS.split "," s = [s].
Proof.
  intros H. unfold JS.split.
  replace s with (s ++ "")%string at 1
    by (clear; induction s as [|c s IH]; simpl; [|rewrite IH]; reflexivity).
  rewrite split_aux_comma_free by assumption. simpl.
  now rewrite rev_string_involutive.
Qed.

Lemma split_comma_free_cons s t :
  comma_free s = true ->
  JS.split "," (s ++ String "," t)%string = s :: JS.split "," t.
Proof.
  intros H. unfold JS.split.
  rewrite split_aux_comma_free by assumption. simpl.
  now rewrite rev_string_involutive.
Qed.

(** The pieces of tags joined with a comma, and with a comma and a space
    as the export does: the tags themselves, up to the space. *)
Lemma split_join_comma (l : list string) :
  l <> [] -> forallb comma_free l = true ->
  JS.split "," (join "," l) = l.
Proof.
  unfold join. induction l as [|x l IH]; intros Hne H; [congruence|].
  simpl in H. apply andb_true_iff in H as [Hx Hl].
  destruct l as [|y l'].
  - simpl. now apply split_comma_free.
  - change (String.concat "," (x :: y :: l'))
      with (x ++ String "," (String.concat "," (y :: l')))%string.
    rewrite split_comma_free_cons by assumption.
    f_equal. apply IH; [discriminate|assumption].
Qed.

Lemma trimStart_space s : JS.trimStart (String " " s) = JS.trimStart s.
Proof. reflexivity. Qed.

Lemma concat_cons_space x (l : list string) :
  String.concat "," (String " " x :: l)
  = String " " (String.concat "," (x :: l)).
Proof. destruct l; reflexivity. Qed.

Lemma join_comma_space x (l : list string) :
  join ", " (x :: l) = join "," (x :: map (String " ") l).
Proof.
  unfold join. revert x. induction l as [|y l IH]; intros x;
    [reflexivity|].
  change (String.concat ", " (x :: y :: l))
    with (x ++ String "," (String " " (String.concat ", " (y :: l))))%string.
  cbn [map].
  change (String.concat "," (x :: String " " y :: map (String " ") l))
    with (x ++ String ","
            (String.concat "," (String " " y :: map (String " ") l)))%string.
  now rewrite concat_cons_space, IH.
Qed.

Lemma map_trim_split_join_space (l : list string) :
  l <> [] -> forallb comma_free l = true ->
  map JS.trim (JS.split "," (join ", " l)) = map JS.trim l.
Proof.
  destruct l as [|x l]; intros Hne H; [congruence|].
  rewrite join_comma_space, split_join_comma.
  - cbn [map]. f_equal. rewrite map_map. reflexivity.
  - discriminate.
  - simpl in *. apply andb_true_iff in H as [Hx Hl]. rewrite Hx. simpl.
    rewrite forallb_forall in *. intros s Hs.
    apply in_map_iff in Hs as (y & <- & Hy). simpl. now apply Hl.
Qed.

Lemma split_tags_empty : split_tags "" = [].
Proof. reflexivity. Qed.

(** What the server reads back from tags joined by the forms, and from
    the tags of an exported line. *)
Lemma split_tags_join (sep : string) (l : list string) :
  sep = "," \/ sep = ", " ->
  forallb comma_free l = true ->
  split_tags (join sep l)
  = filter (fun s => negb (s =? "")) (map JS.trim l).
Proof.
  intros Hsep H. destruct l as [|x l]; [now destruct Hsep; subst|].
  unfold split_tags. f_equal.
  destruct Hsep; subst.
  - now rewrite split_join_comma.
  - now rewrite map_trim_split_join_space.
Qed.

Lemma clean_tags_kept (l : list string) :
  forallb clean_tag l = true ->
  forallb comma_free l = true
  /\ filter (fun s => negb (s =? "")) (map JS.trim l) = l.
Proof.
  induction l as [|x l IH]; intros H; [split; reflexivity|].
  simpl in H. apply andb_true_iff in H as [Hx Hl].
  unfold clean_tag in Hx.
  apply andb_true_iff in Hx as [Hx Ht].
  apply andb_true_iff in Hx as [Hn Hc].
  apply String.eqb_eq in Ht.
  destruct (IH Hl) as [IH1 IH2]. split.
  - simpl. now rewrite Hc.
  - simpl. rewrite Ht, Hn. now rewrite IH2.
Qed.

End TextFacts.

Section ExportText.
Import JSText CsvExport.

Lemma read_field_body s : forall t field fields lines,
  read (double_quotes s ++ t)%string InField field fields lines
  = read t InField (JS.rev_string s field) fields lines.
Proof.
  induction s as [|c s IH]; intros t field fields lines;
    [reflexivity|].
  cbn [double_quotes].
  destruct (Ascii.eqb c dquote) eqn:Hc.
  - apply Ascii.eqb_eq in Hc. subst c.
    cbn [append read]. rewrite ?Ascii.eqb_refl.
    rewrite IH. reflexivity.
  - cbn [append read]. rewrite Hc. rewrite IH. reflexivity.
Qed.

(** A quoted field, up to the quote that closes it. *)
Lemma read_quote_field s t fields lines :
  read (quote_field s ++ t)%string FieldStart "" fields lines
  = read t QuoteSeen (JS.rev_string s "") fields lines.
Proof.
  unfold quote_field. cbn [append read]. rewrite ?Ascii.eqb_refl.
  rewrite append_assoc, read_field_body.
  cbn [append read]. rewrite ?Ascii.eqb_refl. reflexivity.
Qed.

Lemma line_cons f g (l : list string) :
  line (f :: g :: l)
  = (quote_field f ++ String "," (line (g :: l)))%string.
Proof. reflexivity. Qed.

(** A line that ends the text, and a line followed by another. *)
Lemma read_line (l : list string) : forall fields lines,
  l <> [] ->
  read (line l) FieldStart "" fields lines
  = Some (rev ((rev fields ++ l) :: lines))
  /\ forall t,
       read (line l ++ String newline t)%string FieldStart "" fields lines
       = read t FieldStart "" [] ((rev fields ++ l) :: lines).
Proof.
  induction l as [|f l IH]; intros fields lines Hne; [congruence|].
  destruct l as [|g l].
  - change (line [f]) with (quote_field f). split.
    + replace (quote_field f) with (quote_field f ++ "")%string
        by (generalize (quote_field f) as s; intros s;
            induction s as [|c s IHs]; simpl; [|rewrite IHs]; reflexivity).
      rewrite read_quote_field. cbn [read].
      rewrite rev_string_involutive. cbn [rev]. reflexivity.
    + intros t. rewrite read_quote_field.
      cbn [read]. rewrite rev_string_involutive.
      change (Ascii.eqb newline dquote) with false.
      change (Ascii.eqb newline ",") with false.
      rewrite ?Ascii.eqb_refl. cbn [rev]. reflexivity.
  - rewrite line_cons.
    destruct (IH (f :: fields) lines ltac:(discriminate)) as [IH1 IH2].
    assert (Hrev : rev (f :: fields) ++ g :: l
                   = rev fields ++ f :: g :: l)
      by (cbn [rev]; now rewrite <- app_assoc).
    rewrite Hrev in *.
    split.
    + rewrite read_quote_field. cbn [read].
      rewrite rev_string_involutive.
      change (Ascii.eqb "," dquote) with false.
      rewrite ?Ascii.eqb_refl. exact IH1.
    + intros t. rewrite append_assoc, read_quote_field.
      cbn [append read]. rewrite rev_string_involutive.
      change (Ascii.eqb "," dquote) with false.
      rewrite ?Ascii.eqb_refl. apply IH2.
Qed.

Lemma read_lines (rows : list (list string)) : forall lines,
  rows <> [] -> Forall (fun l => l <> []) rows ->
  read (join (String newline "") (map line rows)) FieldStart "" [] lines
  = Some (rev lines ++ rows).
Proof.
  unfold join.
  induction rows as [|l rows IH]; intros lines Hne Hall; [congruence|].
  inversion Hall as [|? ? Hl Hrows]; subst.
  destruct rows as [|l' rows].
  - cbn [map String.concat].
    rewrite (proj1 (read_line l [] lines Hl)). reflexivity.
  - change (String.concat (String newline "") (map line (l :: l' :: rows)))
      with (line l ++ String newline
              (String.concat (String newline "") (map line (l' :: rows))))%string.
    rewrite (proj2 (read_line l [] lines Hl)).
    rewrite IH by (discriminate || assumption).
    cbn [rev app]. now rewrite <- app_assoc.
Qed.

End ExportText.

(* ================================================================== *)
(** ** What a successful validation guarantees *)
(* ================================================================== *)

Section AcceptedData.
Import Zod Validation.
Context {E : Externals}.

(** The parse succeeds exactly when no field reports an issue and every
    cross-field rule holds. *)
Lemma safeParse_success_iff r data :
  buyerSchema_safeParse r = Success data
  <-> object_parse r = (Some data, [])
      /\ forallb (fun ch => check ch data) refinements = true.
Proof.
  unfold buyerSchema_safeParse. split.
  - intros H.
    destruct (object_parse r) as [[d|] issues] eqn:Hp; [|discriminate].
    rewrite runChecks_collect in H
      by (eapply object_parse_not_aborted; eauto).
    destruct (issues ++ _) eqn:Hl in H; [|discriminate].
    injection H as <-.
    apply app_eq_nil in Hl. destruct Hl as [-> Hl].
    split; [reflexivity|].
    unfold refinements in *. simpl in Hl. simpl.
    repeat (apply app_eq_nil in Hl; destruct Hl as [? Hl]).
    repeat match goal with
           | H : (if ?c then _ else _) = [] |- _ =>
               destruct c; [clear H|discriminate H]
           end.
    reflexivity.
  - intros [Hp Hc]. rewrite Hp.
    rewrite runChecks_collect by reflexivity.
    unfold refinements in *. simpl in *.
    repeat (apply andb_true_iff in Hc; destruct Hc as [? Hc]).
    repeat match goal with
           | H : ?c = true |- _ => rewrite H; clear H
           end.
    reflexivity.
Qed.

(** The fields of an object parsed without an issue. *)
Lemma object_parse_clean r data :
  object_parse r = (Some data, []) ->
  fullName_field (raw_fullName r) = (Some (fullName data), [])
  /\ email_field (raw_email r) = (Some (email data), [])
  /\ phone_field (raw_phone r) = (Some (phone data), [])
  /\ enum citySchema "city" (raw_city r) = (Some (city data), [])
  /\ enum propertyTypeSchema "propertyType" (raw_propertyType r)
     = (Some (propertyType data), [])
  /\ bhk_field (raw_bhk r) = (Some (bhk data), [])
  /\ enum purposeSchema "purpose" (raw_purpose r)
     = (Some (purpose data), [])
  /\ budget_field "budgetMin" (raw_budgetMin r)
     = (Some (budgetMin data), [])
  /\ budget_field "budgetMax" (raw_budgetMax r)
     = (Some (budgetMax data), [])
  /\ enum timelineSchema "timeline" (raw_timeline r)
     = (Some (timeline data), [])
  /\ enum sourceSchema "source" (raw_source r) = (Some (source data), [])
  /\ status_field (raw_status r) = (Some (status data), [])
  /\ notes_field (raw_notes r) = (Some (notes data), [])
  /\ tags_field (raw_tags r) = (Some (tags data), []).
Proof.
  intros H.
  pose proof (object_parse_fields _ _ _ H) as F.
  assert (Hs : snd (object_parse r) = []) by now rewrite H.
  rewrite object_parse_issues in Hs.
  repeat (apply app_eq_nil in Hs; destruct Hs as [? Hs]).
  destruct F as (F1 & F2 & F3 & F4 & F5 & F6 & F7 & F8 & F9 & F10 & F11
                 & F12 & F13 & F14).
  repeat split;
    match goal with
    | |- ?p = (_, _) => destruct p as [v l]; simpl in *; congruence
    end.
Qed.

(** The converse: fields without an issue make the object. *)
Lemma object_parse_of_fields r data :
  fullName_field (raw_fullName r) = (Some (fullName data), []) ->
  email_field (raw_email r) = (Some (email data), []) ->
  phone_field (raw_phone r) = (Some (phone data), []) ->
  enum citySchema "city" (raw_city r) = (Some (city data), []) ->
  enum propertyTypeSchema "propertyType" (raw_propertyType r)
  = (Some (propertyType data), []) ->
  bhk_field (raw_bhk r) = (Some (bhk data), []) ->
  enum purposeSchema "purpose" (raw_purpose r)
  = (Some (purpose data), []) ->
  budget_field "budgetMin" (raw_budgetMin r)
  = (Some (budgetMin data), []) ->
  budget_field "budgetMax" (raw_budgetMax r)
  = (Some (budgetMax data), []) ->
  enum timelineSchema "timeline" (raw_timeline r)
  = (Some (timeline data), []) ->
  enum sourceSchema "source" (raw_source r) = (Some (source data), []) ->
  status_field (raw_status r) = (Some (status data), []) ->
  notes_field (raw_notes r) = (Some (notes data), []) ->
  tags_field (raw_tags r) = (Some (tags data), []) ->
  object_parse r = (Some data, []).
Proof.
  intros F1 F2 F3 F4 F5 F6 F7 F8 F9 F10 F11 F12 F13 F14.
  unfold object_parse.
  rewrite F1, F2, F3, F4, F5, F6, F7, F8, F9, F10, F11, F12, F13, F14.
  destruct data; reflexivity.
Qed.

Lemma string_min_max_clean path lo lo_msg hi hi_msg v s :
  string_min_max path lo lo_msg hi hi_msg v = (Some s, [])
  <-> v = JS.Str s /\ (lo <= String.length s <= hi)%nat.
Proof.
  unfold string_min_max, abort. split.
  - destruct v; try discriminate.
    destruct (String.length s0 <? lo)%nat eqn:H1; [discriminate|].
    destruct (hi <? String.length s0)%nat eqn:H2; [discriminate|].
    intros H. injection H as <-.
    apply Nat.ltb_ge in H1, H2. auto.
  - intros [-> [H1 H2]].
    apply Nat.ltb_ge in H1, H2. now rewrite H1, H2.
Qed.

Lemma email_field_clean v o :
  email_field v = (Some o, []) ->
  forall s, o = Some s -> v = JS.Str s /\ s <> "" /\ is_email s = true.
Proof.
  unfold email_field, ok, dirty, abort.
  destruct v; try discriminate.
  - intros H s0 ->. discriminate.
  - destruct (is_email s || (s =? "")) eqn:He; [|discriminate].
    destruct (s =? "") eqn:Hs; intros H s0 ->; [discriminate|].
    injection H as <-. rewrite orb_false_r in He.
    apply String.eqb_neq in Hs. auto.
Qed.

Lemma notes_field_clean v o :
  notes_field v = (Some o, []) ->
  forall s, o = Some s ->
            v = JS.Str s /\ s <> "" /\ (String.length s <= 1000)%nat.
Proof.
  unfold notes_field, ok, dirty, abort.
  destruct v; try discriminate.
  - intros H s0 ->. discriminate.
  - destruct (1000 <? String.length s)%nat eqn:Hl; [discriminate|].
    destruct (s =? "") eqn:Hs; intros H s0 ->; [discriminate|].
    injection H as <-. apply Nat.ltb_ge in Hl.
    apply String.eqb_neq in Hs. auto.
Qed.

(** What every accepted lead satisfies. *)
Lemma accepted_data_rules r data :
  buyerSchema_safeParse r = Success data ->
  (1 <= String.length (fullName data) <= 80)%nat
  /\ (1 <= String.length (phone data) <= 15)%nat
  /\ (forall e, email data = Some e -> e <> "" /\ is_email e = true)
  /\ (forall n, notes data = Some n ->
                n <> "" /\ (String.length n <= 1000)%nat)
  /\ (forall z, budgetMin data = Some z -> (0 < z)%Z)
  /\ (forall z, budgetMax data = Some z -> (0 < z)%Z)
  /\ (forall lo hi, budgetMin data = Some lo -> budgetMax data = Some hi ->
                    (lo <= hi)%Z)
  /\ (propertyType data = Apartment \/ propertyType data = Villa ->
      exists b, bhk data = Some b).
Proof.
  intros H.
  pose proof (budget_positive_after_success _ _ H) as [Bmin Bmax].
  apply safeParse_success_iff in H as [Hp Hc].
  apply object_parse_clean in Hp.
  destruct Hp as (F1 & F2 & F3 & _ & _ & _ & _ & _ & _ & _ & _ & _
                  & F13 & _).
  apply string_min_max_clean in F1 as [_ F1].
  apply string_min_max_clean in F3 as [_ F3].
  unfold refinements in Hc. simpl in Hc.
  repeat (apply andb_true_iff in Hc; destruct Hc as [? Hc]).
  split; [lia|]. split; [lia|].
  split; [intros e He;
          eapply email_field_clean in F2 as (_ & ? & ?); eauto|].
  split; [intros n Hn;
          eapply notes_field_clean in F13 as (_ & ? & ?); eauto|].
  split; [exact Bmin|]. split; [exact Bmax|]. split.
  - intros lo hi Hlo Hhi.
    specialize (Bmin _ Hlo). specialize (Bmax _ Hhi).
    rewrite Hlo, Hhi in *. simpl in *.
    destruct (lo =? 0)%Z eqn:E1; [lia|].
    destruct (hi =? 0)%Z eqn:E2; [lia|].
    simpl in *. destruct (hi <? lo)%Z eqn:E3; [discriminate|].
    apply Z.ltb_ge in E3. exact E3.
  - intros Hty.
    destruct (bhk data) as [b|]; [eauto|].
    destruct Hty as [Hty|Hty]; rewrite Hty in *; discriminate.
Qed.

End AcceptedData.

(* ================================================================== *)
(** ** Creating a lead, and what every write keeps *)
(* ================================================================== *)

Section CreateFacts.
Import Auth Actions Create.
Context {E : Externals}.
Variable show : BuyerData -> string.

(** The creation as a function of the outcome of each step. *)
Lemma createBuyer_steps rq formData w :
  createBuyer show rq formData w =
  match requireAuth (session rq) with
  | Thrown e => (Thrown e, w)
  | Done user =>
      let checked :=
        RateLimit.checkRateLimit (now rq) (user_id user)
          RateLimit.default_maxRequests (cache w) in
      let w1 := {| cache := snd checked; db := db w |} in
      if negb (fst checked) then (Thrown RateLimited, w1)
      else
        match Validation.buyerSchema_safeParse (create_rawData formData)
        with
        | Validation.Failure _ => (Thrown ValidationFailed, w1)
        | Validation.Success data =>
            let id := gen_random_uuid (Db.ids_drawn (db w)) in
            let b := row_of_data id (now rq) (user_id user) data in
            if Db.constraints_ok b
            then
              (Done id,
               {| cache := snd checked;
                  db :=
                    {| Db.buyers := Db.buyers (db w) ++ [b];
                       Db.buyerHistory :=
                         Db.buyerHistory (db w) ++
                         [{| Db.h_id :=
                               gen_random_uuid (S (Db.ids_drawn (db w)));
                             Db.h_buyerId := id;
                             Db.h_changedBy := user_id user;
                             Db.h_changedAt := now rq;
                             Db.h_diff :=
                               Db.Changes
                                 [("created",
                                   (JS.Null, JS.Str (show data)))] |}];
                       Db.ids_drawn := S (S (Db.ids_drawn (db w))) |} |})
            else (Thrown PersistenceFailure, w1)
        end
  end.
Proof.
  unfold createBuyer.
  destruct (requireAuth (session rq)) as [user|e]; [|reflexivity].
  destruct (RateLimit.checkRateLimit (now rq) (user_id user)
              RateLimit.default_maxRequests (cache w)) as [admitted cache1].
  cbn [fst snd db].
  destruct (negb admitted); [reflexivity|].
  destruct (Validation.buyerSchema_safeParse _) as [data|]; [|reflexivity].
  unfold Db.transaction, insert_data. cbv zeta.
  destruct (Db.constraints_ok _); reflexivity.
Qed.

(** The form of a new lead carries no status to the schema, which fills
    in its default. *)
Lemma created_status_is_New formData data :
  Validation.buyerSchema_safeParse (create_rawData formData)
  = Validation.Success data ->
  status data = New.
Proof.
  intros H. apply safeParse_success_iff in H as [Hp _].
  apply object_parse_clean in Hp.
  destruct Hp as (_ & _ & _ & _ & _ & _ & _ & _ & _ & _ & _ & F12 & _).
  simpl in F12. unfold Zod.ok in F12. congruence.
Qed.

Lemma requireAuth_done session user :
  requireAuth session = Done user <-> getCurrentUser session = Some user.
Proof.
  unfold requireAuth. destruct (getCurrentUser session); split;
    intros H; try discriminate; now injection H as ->.
Qed.

(** A returned [createBuyer]: the tables afterwards. *)
Lemma createBuyer_appends_one_lead_helper rq formData w id :
  fst (createBuyer show rq formData w) = Done id ->
  exists user data,
    getCurrentUser (session rq) = Some user
    /\ Validation.buyerSchema_safeParse (create_rawData formData)
       = Validation.Success data
    /\ Db.buyers (db (snd (createBuyer show rq formData w)))
       = Db.buyers (db w)
         ++ [row_of_data id (now rq) (user_id user) data]
    /\ Db.buyerHistory (db (snd (createBuyer show rq formData w)))
       = Db.buyerHistory (db w)
         ++ [{| Db.h_id := gen_random_uuid (S (Db.ids_drawn (db w)));
                Db.h_buyerId := id;
                Db.h_changedBy := user_id user;
                Db.h_changedAt := now rq;
                Db.h_diff :=
                  Db.Changes
                    [("created", (JS.Null, JS.Str (show data)))] |}].
Proof.
  rewrite createBuyer_steps.
  destruct (requireAuth (session rq)) as [user|e] eqn:Hauth;
    [|discriminate].
  cbv zeta.
  destruct (negb (fst _)); [discriminate|].
  destruct (Validation.buyerSchema_safeParse _) as [data|] eqn:Hparse;
    [|discriminate].
  destruct (Db.constraints_ok _); [|discriminate].
  cbn [fst snd db Db.buyers Db.buyerHistory].
  intros H. injection H as <-.
  exists user, data.
  split; [now apply requireAuth_done|].
  repeat split; reflexivity.
Qed.

(** X1. A call of [createBuyer] that returns has appended exactly one
    lead, built from the validated form, owned by the caller, with the
    status [New] whatever the form says, under the id it returns, and
    exactly one history entry for it, by the caller, whose diff is
    [{created: [null, <the validated data as text>]}]; nothing else of
    the tables has changed. *)
Theorem createBuyer_appends_one_lead_and_its_history
    (rq : Request) (formData : FormData) (w : World) (id : string) :
  fst (createBuyer show rq formData w) = Done id ->
  exists user data,
    getCurrentUser (session rq) = Some user
    /\ Validation.buyerSchema_safeParse (create_rawData formData)
       = Validation.Success data
    /\ id = gen_random_uuid (Db.ids_drawn (db w))
    /\ Db.buyers (db (snd (createBuyer show rq formData w)))
       = Db.buyers (db w)
         ++ [row_of_data id (now rq) (user_id user) data]
    /\ b_status (row_of_data id (now rq) (user_id user) data) = New
    /\ Db.buyerHistory (db (snd (createBuyer show rq formData w)))
       = Db.buyerHistory (db w)
         ++ [{| Db.h_id := gen_random_uuid (S (Db.ids_drawn (db w)));
                Db.h_buyerId := id;
                Db.h_changedBy := user_id user;
                Db.h_changedAt := now rq;
                Db.h_diff :=
                  Db.Changes
                    [("created", (JS.Null, JS.Str (show data)))] |}].
Proof.
  rewrite createBuyer_steps.
  destruct (requireAuth (session rq)) as [user|e] eqn:Hauth;
    [|discriminate].
  cbv zeta.
  destruct (negb (fst _)); [discriminate|].
  destruct (Validation.buyerSchema_safeParse _) as [data|] eqn:Hparse;
    [|discriminate].
  destruct (Db.constraints_ok _); [|discriminate].
  cbn [fst snd db Db.buyers Db.buyerHistory].
  intros H. injection H as <-.
  exists user, data.
  split; [now apply requireAuth_done|].
  split; [reflexivity|]. split; [reflexivity|]. split; [reflexivity|].
  split; [|reflexivity].
  cbn [row_of_data b_status]. eapply created_status_is_New; eauto.
Qed.

(** X2. Every lead that [createBuyer] stores satisfies the rules of the
    schema and the limits of the columns: a name of 1 to 80 characters, a
    phone of 1 to 15, an e-mail that is absent or a non-empty text in
    e-mail format, notes that are absent or a non-empty text of at most
    1000 characters, budgets that are absent or positive and within the
    range of [integer], a maximum not below the minimum, and a bedroom
    count whenever the property is an apartment or a villa. *)
Theorem created_lead_satisfies_schema_rules
    (rq : Request) (formData : FormData) (w : World) (id : string) :
  fst (createBuyer show rq formData w) = Done id ->
  exists b,
    Db.buyers (db (snd (createBuyer show rq formData w)))
    = Db.buyers (db w) ++ [b]
    /\ b_id b = id
    /\ (1 <= String.length (b_fullName b) <= 80)%nat
    /\ (1 <= String.length (b_phone b) <= 15)%nat
    /\ (forall e, b_email b = Some e -> e <> "" /\ is_email e = true)
    /\ (forall n, b_notes b = Some n ->
                  n <> "" /\ (String.length n <= 1000)%nat)
    /\ (forall z, b_budgetMin b = Some z -> (0 < z <= 2147483647)%Z)
    /\ (forall z, b_budgetMax b = Some z -> (0 < z <= 2147483647)%Z)
    /\ (forall lo hi, b_budgetMin b = Some lo -> b_budgetMax b = Some hi ->
                      (lo <= hi)%Z)
    /\ (b_propertyType b = Apartment \/ b_propertyType b = Villa ->
        exists n, b_bhk b = Some n).
Proof.
  rewrite createBuyer_steps.
  destruct (requireAuth (session rq)) as [user|e] eqn:Hauth;
    [|discriminate].
  cbv zeta.
  destruct (negb (fst _)); [discriminate|].
  destruct (Validation.buyerSchema_safeParse _) as [data|] eqn:Hparse;
    [|discriminate].
  destruct (Db.constraints_ok _) eqn:Hok; [|discriminate].
  cbn [fst snd db Db.buyers Db.buyerHistory].
  intros H. injection H as <-.
  eexists. split; [reflexivity|].
  destruct (accepted_data_rules _ _ Hparse)
    as (R1 & R2 & R3 & R4 & R5 & R6 & R7 & R8).
  unfold Db.constraints_ok in Hok.
  cbn [row_of_data b_id b_fullName b_phone b_email b_notes b_budgetMin
       b_budgetMax b_propertyType b_bhk] in *.
  repeat (apply andb_true_iff in Hok; destruct Hok as [Hok ?]).
  split; [reflexivity|].
  split; [exact R1|]. split; [exact R2|]. split; [exact R3|].
  split; [exact R4|].
  split; [|split; [|split; [exact R7|exact R8]]].
  - intros z Hz. specialize (R5 _ Hz). rewrite Hz in *.
    unfold Db.opt_int4, Db.int4 in *.
    match goal with
    | H : (_ && (z <=? 2147483647)%Z) = true |- _ =>
        apply andb_true_iff in H; destruct H as [_ H];
        apply Z.leb_le in H
    end. lia.
  - intros z Hz. specialize (R6 _ Hz). rewrite Hz in *.
    unfold Db.opt_int4, Db.int4 in *.
    match goal with
    | H : (_ && (z <=? 2147483647)%Z) = true |- _ =>
        apply andb_true_iff in H; destruct H as [_ H];
        apply Z.leb_le in H
    end. lia.
Qed.

(** A failed creation writes nothing to the database. *)
Lemma createBuyer_thrown_no_write rq formData w e :
  fst (createBuyer show rq formData w) = Thrown e ->
  db (snd (createBuyer show rq formData w)) = db w.
Proof.
  rewrite createBuyer_steps.
  destruct (requireAuth (session rq)) as [user|e0]; [|reflexivity].
  cbv zeta.
  destruct (negb (fst _)); [reflexivity|].
  destruct (Validation.buyerSchema_safeParse _) as [data|];
    [|reflexivity].
  destruct (Db.constraints_ok _); [discriminate|reflexivity].
Qed.

Lemma updateBuyerStatus_thrown_no_write rq buyerId status w e :
  fst (updateBuyerStatus rq buyerId status w) = Thrown e ->
  db (snd (updateBuyerStatus rq buyerId status w)) = db w.
Proof.
  rewrite updateBuyerStatus_steps.
  destruct (requireAuth (session rq)) as [user|e0]; [|reflexivity].
  cbv zeta.
  destruct (negb (fst _)); [reflexivity|].
  destruct (Db.select_by_id buyerId (db w)) as [currentBuyer|];
    [|reflexivity].
  destruct (negb (canEditBuyer user (b_ownerId currentBuyer)));
    [reflexivity|].
  destruct (Validation.statusSchema status); [discriminate|reflexivity].
Qed.

(** X3. A call of [createBuyer], [updateBuyer] or [updateBuyerStatus]
    that fails with an error, for whatever reason, has written nothing:
    both tables and the id counter are as before.  The redirect to the
    page of the new lead, with which a successful [createBuyer] ends, is
    no such failure. *)
Theorem failed_action_writes_nothing
    (rq : Request) (formData : FormData) (buyerId status : string)
    (w : World) :
  (forall e, fst (createBuyer show rq formData w) = Thrown e ->
             db (snd (createBuyer show rq formData w)) = db w)
  /\ (forall e, fst (updateBuyer rq formData w) = Thrown e ->
                db (snd (updateBuyer rq formData w)) = db w)
  /\ (forall e, fst (updateBuyerStatus rq buyerId status w) = Thrown e ->
                db (snd (updateBuyerStatus rq buyerId status w)) = db w).
Proof.
  split; [|split]; intros e.
  - apply createBuyer_thrown_no_write.
  - apply updateBuyer_thrown_no_write.
  - apply updateBuyerStatus_thrown_no_write.
Qed.

End CreateFacts.

Section WriteInvariants.
Import Auth Actions Pipeline.
Context {E : Externals}.
Variable show : BuyerData -> string.

Lemma update_buyers_spec now id d tx tx1 :
  Db.update_buyers now id d tx = Some tx1 ->
  Db.buyers tx1
  = map (fun b => if b_id b =? id then Db.apply_set now d b else b)
        (Db.buyers tx)
  /\ Db.buyerHistory tx1 = Db.buyerHistory tx.
Proof.
  unfold Db.update_buyers.
  destruct (Db.no_values d); [discriminate|].
  destruct (forallb _ _); [|discriminate].
  intros H. injection H as <-. split; reflexivity.
Qed.

(** What a call of an action does to the tables: nothing, or rows and
    entries appended for the caller, or the rows under one id rewritten by
    someone who may edit the lead, with at most one entry appended. *)
Lemma transition_effect rq w w' :
  transition show rq w w' ->
  db w' = db w
  \/ exists user,
       getCurrentUser (session rq) = Some user
       /\ ((exists new entries,
              Db.buyers (db w') = Db.buyers (db w) ++ new
              /\ Db.buyerHistory (db w')
                 = Db.buyerHistory (db w) ++ entries
              /\ Forall (fun b => b_ownerId b = user_id user) new
              /\ Forall (fun h => Db.h_changedBy h = user_id user) entries)
           \/ (exists id current f entries,
                 Db.select_by_id id (db w) = Some current
                 /\ canEditBuyer user (b_ownerId current) = true
                 /\ Db.buyers (db w')
                    = map (fun b => if b_id b =? id then f b else b)
                          (Db.buyers (db w))
                 /\ (forall b, b_id (f b) = b_id b
                               /\ b_ownerId (f b) = b_ownerId b
                               /\ b_createdAt (f b) = b_createdAt b
                               /\ b_updatedAt (f b) = now rq)
                 /\ Db.buyerHistory (db w')
                    = Db.buyerHistory (db w) ++ entries
                 /\ (length entries <= 1)%nat
                 /\ Forall (fun h => Db.h_buyerId h = id
                                     /\ Db.h_changedBy h = user_id user)
                           entries)).
Proof.
  intros [formData|formData|buyerId status|file].
  - (* createBuyer *)
    rewrite createBuyer_steps.
    destruct (requireAuth (session rq)) as [user|e] eqn:Hauth;
      [|now left].
    apply requireAuth_done in Hauth. cbv zeta.
    destruct (negb (fst _)); [now left|].
    destruct (Validation.buyerSchema_safeParse _) as [data|];
      [|now left].
    destruct (Db.constraints_ok _); [|now left].
    right. exists user. split; [assumption|]. left.
    eexists [_], [_]. cbn [snd db Db.buyers Db.buyerHistory].
    repeat split; repeat constructor.
  - (* updateBuyer *)
    rewrite updateBuyer_steps.
    destruct (requireAuth (session rq)) as [user|e] eqn:Hauth;
      [|now left].
    apply requireAuth_done in Hauth. cbv zeta.
    destruct (negb (fst _)); [now left|].
    destruct (updateBuyerSchema_parse _ _ _) as [validatedData|];
      [|now left].
    destruct (formData_get "id" formData) as [id|]; [|now left].
    destruct (Db.select_by_id id (db w)) as [currentBuyer|] eqn:Hsel;
      [|now left].
    destruct (negb (canEditBuyer user (b_ownerId currentBuyer))) eqn:Hcan;
      [now left|].
    apply negb_false_iff in Hcan.
    destruct (stale_token _ currentBuyer); [now left|].
    destruct (Db.update_buyers (now rq) id validatedData (db w))
      as [tx1|] eqn:Hup; [|now left].
    apply update_buyers_spec in Hup as [Hrows Hhist].
    right. exists user. split; [assumption|]. right.
    exists id, currentBuyer, (Db.apply_set (now rq) validatedData).
    cbn [snd db].
    destruct (has_changes _).
    + eexists [_].
      cbn [Db.insert_history Db.buyers Db.buyerHistory].
      rewrite Hrows, Hhist.
      repeat split; try assumption; try reflexivity.
      all: try (simpl; lia); repeat constructor.
    + exists []. rewrite Hrows, Hhist, app_nil_r.
      repeat split; try assumption; try reflexivity.
      all: try (simpl; lia); repeat constructor.
  - (* updateBuyerStatus *)
    rewrite updateBuyerStatus_steps.
    destruct (requireAuth (session rq)) as [user|e] eqn:Hauth;
      [|now left].
    apply requireAuth_done in Hauth. cbv zeta.
    destruct (negb (fst _)); [now left|].
    destruct (Db.select_by_id buyerId (db w)) as [currentBuyer|] eqn:Hsel;
      [|now left].
    destruct (negb (canEditBuyer user (b_ownerId currentBuyer))) eqn:Hcan;
      [now left|].
    apply negb_false_iff in Hcan.
    destruct (Validation.statusSchema status) as [s|]; [|now left].
    right. exists user. split; [assumption|]. right.
    exists buyerId, currentBuyer, (set_status (now rq) s).
    eexists [_].
    cbn [snd db Db.insert_history Db.buyers Db.buyerHistory].
    repeat split; try assumption; try reflexivity.
    all: try (simpl; lia); repeat constructor.
  - (* importCSV *)
    unfold Csv.importCSV.
    destruct (requireAuth (session rq)) as [user|e] eqn:Hauth;
      [|now left].
    apply requireAuth_done in Hauth.
    destruct file as [f|]; [|now left].
    destruct (Csv.max_file_size <? Csv.size f)%Z; [now left|].
    destruct (papa_parse (Csv.text f)) as [errors rows].
    destruct (0 <? errors)%nat; [now left|].
    destruct (Csv.max_rows <? length rows)%nat; [now left|].
    destruct (0 <? length (Csv.validate_rows rows 0))%nat; [now left|].
    unfold Db.transaction.
    destruct (Csv.insert_rows (now rq) (user_id user) rows (db w) [])
      as [[inserted tx']|] eqn:Hins; [|now left].
    destruct (insert_rows_spec _ _ _ _ _ _ _ Hins)
      as (new & entries & _ & Hbs & Hhs & _ & Hown & _ & Hby & _).
    right. exists user. split; [assumption|]. left.
    exists new, entries. cbn [snd db].
    repeat split; try assumption.
    clear - Hby. revert rows Hby.
    induction entries as [|h entries IH]; intros rows Hby;
      [constructor|].
    destruct rows as [|row rows]; [discriminate|].
    simpl in Hby. injection Hby as Hh Hby.
    constructor; [assumption|]. eapply IH; eauto.
Qed.

(** X4. The change history is append-only: whatever sequence of
    creations, updates, status changes and imports runs, succeeding or
    failing, the entries present at the start are still there at the end,
    unchanged and in the same order, followed by the new ones; and every
    new entry names as its author the signed-in user of one of the
    requests. *)
Theorem history_is_append_only
    (rqs : list Request) (w w' : World) :
  run show rqs w w' ->
  exists entries,
    Db.buyerHistory (db w') = Db.buyerHistory (db w) ++ entries
    /\ Forall (fun h =>
                 exists rq user,
                   In rq rqs
                   /\ getCurrentUser (session rq) = Some user
                   /\ Db.h_changedBy h = user_id user)
              entries.
Proof.
  induction 1 as [w|rq rqs w w1 w2 Hstep Hrun IH].
  - exists []. now rewrite app_nil_r.
  - destruct IH as (later & Hlater & Hby).
    assert (Hby' : Forall (fun h =>
                             exists rq0 user,
                               In rq0 (rq :: rqs)
                               /\ getCurrentUser (session rq0) = Some user
                               /\ Db.h_changedBy h = user_id user) later).
    { eapply Forall_impl; [|exact Hby].
      intros h (rq0 & user & Hin & Hu & Hh).
      exists rq0, user. repeat split; auto. now right. }
    destruct (transition_effect _ _ _ Hstep)
      as [Hsame|(user & Hu & [(new & entries & _ & Hh & _ & Hown)
                             |(id & cur & f & entries & _ & _ & _ & _
                               & Hh & _ & Hown)])].
    + exists later. now rewrite Hlater, Hsame.
    + exists (entries ++ later). rewrite Hlater, Hh, app_assoc.
      split; [reflexivity|].
      apply Forall_app. split; [|exact Hby'].
      eapply Forall_impl; [|exact Hown].
      intros h Hh'. exists rq, user. repeat split; auto. now left.
    + exists (entries ++ later). rewrite Hlater, Hh, app_assoc.
      split; [reflexivity|].
      apply Forall_app. split; [|exact Hby'].
      eapply Forall_impl; [|exact Hown].
      intros h [_ Hh']. exists rq, user. repeat split; auto. now left.
Qed.

(** X5. No action deletes a lead, reorders the table, or changes the id,
    the owner or the creation time of a lead: after any sequence of
    creations, updates, status changes and imports, the table holds the
    leads it held, under the same identities and in the same order,
    followed by the new ones. *)
Theorem leads_keep_their_identity
    (rqs : list Request) (w w' : World) :
  run show rqs w w' ->
  exists new,
    map identity (Db.buyers (db w'))
    = map identity (Db.buyers (db w)) ++ map identity new.
Proof.
  induction 1 as [w|rq rqs w w1 w2 Hstep Hrun IH].
  - exists []. now rewrite app_nil_r.
  - destruct IH as (later & Hlater).
    destruct (transition_effect _ _ _ Hstep)
      as [Hsame|(user & Hu & [(new & entries & Hb & _)
                             |(id & cur & f & entries & _ & _ & Hb & Hf
                               & _)])].
    + exists later. now rewrite Hlater, Hsame.
    + exists (new ++ later).
      now rewrite Hlater, Hb, !map_app, app_assoc.
    + exists later. rewrite Hlater, Hb. f_equal.
      rewrite map_map. apply map_ext. intros b.
      destruct (b_id b =? id); [|reflexivity].
      destruct (Hf b) as (H1 & H2 & H3 & _).
      unfold identity. now rewrite H1, H2, H3.
Qed.

Lemma find_unique_id (l : list Buyer) id cur b :
  NoDup (map b_id l) ->
  find (fun x => b_id x =? id) l = Some cur ->
  In b l -> b_id b = id -> b = cur.
Proof.
  induction l as [|x l IH]; intros Hnd Hfind Hin Hid; [contradiction|].
  simpl in Hnd. inversion Hnd as [|? ? Hnotin Hnd']; subst.
  simpl in Hfind.
  destruct (b_id x =? b_id b) eqn:Hx.
  - injection Hfind as <-. apply String.eqb_eq in Hx.
    destruct Hin as [->|Hin]; [reflexivity|].
    exfalso. apply Hnotin. rewrite Hx. now apply in_map.
  - destruct Hin as [->|Hin].
    + rewrite String.eqb_refl in Hx. discriminate.
    + now apply IH.
Qed.

(** X6. A caller who is not an administrator changes no lead of anyone
    else: whatever action they call and whatever its arguments, the leads
    owned by others are afterwards exactly as before (ids being unique, as
    the primary key makes them); and a request without a session changes
    nothing at all. *)
Theorem non_admin_changes_only_own_leads
    (rq : Request) (w w' : World) :
  transition show rq w w' ->
  NoDup (map b_id (Db.buyers (db w))) ->
  (getCurrentUser (session rq) = None -> w' = w)
  /\ (forall user,
        getCurrentUser (session rq) = Some user ->
        isAdmin user = false ->
        filter (fun b => negb (b_ownerId b =? user_id user))
               (Db.buyers (db w'))
        = filter (fun b => negb (b_ownerId b =? user_id user))
                 (Db.buyers (db w))).
Proof.
  intros Hstep Hnd. split.
  - intros Hnone.
    assert (Hauth : requireAuth (session rq) = Thrown Unauthenticated)
      by (unfold requireAuth; now rewrite Hnone).
    destruct Hstep as [formData|formData|buyerId status|file].
    + rewrite createBuyer_steps, Hauth. reflexivity.
    + rewrite updateBuyer_steps, Hauth. reflexivity.
    + rewrite updateBuyerStatus_steps, Hauth. reflexivity.
    + unfold Csv.importCSV. rewrite Hauth. reflexivity.
  - intros user Hu Hadmin.
    destruct (transition_effect _ _ _ Hstep)
      as [Hsame|(user' & Hu' & [(new & entries & Hb & _ & Hown & _)
                               |(id & cur & f & entries & Hsel & Hcan & Hb
                                 & Hf & _)])].
    + now rewrite Hsame.
    + rewrite Hu in Hu'. injection Hu' as <-.
      rewrite Hb, filter_app.
      replace (filter _ new) with (@nil Buyer);
        [now rewrite app_nil_r|].
      symmetry. clear - Hown.
      induction Hown as [|b new Hb _ IH]; [reflexivity|].
      simpl. rewrite Hb, String.eqb_refl. exact IH.
    + rewrite Hu in Hu'. injection Hu' as <-.
      unfold canEditBuyer in Hcan. rewrite Hadmin in Hcan.
      simpl in Hcan. apply String.eqb_eq in Hcan.
      rewrite Hb.
      assert (Hall : forall b, In b (Db.buyers (db w)) ->
                               b_id b = id -> b_ownerId b = user_id user).
      { intros b Hin Hid.
        rewrite (find_unique_id _ _ _ _ Hnd Hsel Hin Hid). now symmetry. }
      clear - Hall Hf.
      induction (Db.buyers (db w)) as [|b l IH]; [reflexivity|].
      cbn [map filter].
      destruct (b_id b =? id) eqn:Hid.
      * apply String.eqb_eq in Hid.
        destruct (Hf b) as (_ & Ho & _). rewrite Ho.
        rewrite (Hall b (or_introl eq_refl) Hid), String.eqb_refl.
        simpl. apply IH. intros; apply Hall; auto. now right.
      * destruct (negb (b_ownerId b =? user_id user)).
        -- f_equal. apply IH. intros; apply Hall; auto. now right.
        -- apply IH. intros; apply Hall; auto. now right.
Qed.

End WriteInvariants.

(* ================================================================== *)
(** ** Concurrency tokens across calls *)
(* ================================================================== *)

Section TokenFacts.
Import Auth Actions.
Context {E : Externals}.

Lemma find_rewritten (f : Buyer -> Buyer) id (l : list Buyer) cur :
  (forall b, b_id (f b) = b_id b) ->
  find (fun b => b_id b =? id) l = Some cur ->
  find (fun b => b_id b =? id)
       (map (fun b => if b_id b =? id then f b else b) l)
  = Some (f cur).
Proof.
  intros Hf. induction l as [|b l IH]; intros H; [discriminate|].
  simpl in *. destruct (b_id b =? id) eqn:Hb.
  - injection H as <-. rewrite Hf, Hb. reflexivity.
  - rewrite Hb. now apply IH.
Qed.

(** A returned [updateBuyer]: the lead it found, and the row it left
    under that id. *)
Lemma updateBuyer_done rq formData w :
  fst (updateBuyer rq formData w) = Done tt ->
  exists id current validatedData,
    formData_get "id" formData = Some id
    /\ Db.select_by_id id (db w) = Some current
    /\ Db.select_by_id id (db (snd (updateBuyer rq formData w)))
       = Some (Db.apply_set (now rq) validatedData current).
Proof.
  rewrite updateBuyer_steps.
  destruct (requireAuth (session rq)) as [user|e]; [|discriminate].
  cbv zeta.
  destruct (negb (fst _)); [discriminate|].
  destruct (updateBuyerSchema_parse _ _ _) as [validatedData|];
    [|discriminate].
  destruct (formData_get "id" formData) as [id|]; [|discriminate].
  destruct (Db.select_by_id id (db w)) as [currentBuyer|] eqn:Hsel;
    [|discriminate].
  destruct (negb (canEditBuyer user (b_ownerId currentBuyer)));
    [discriminate|].
  destruct (stale_token _ currentBuyer); [discriminate|].
  destruct (Db.update_buyers (now rq) id validatedData (db w))
    as [tx1|] eqn:Hup; [|discriminate].
  intros _. exists id, currentBuyer, validatedData.
  split; [reflexivity|]. split; [first [reflexivity|exact Hsel]|].
  apply update_buyers_spec in Hup as [Hrows _].
  cbn [snd db]. unfold Db.select_by_id in *.
  destruct (has_changes _);
    cbn [Db.insert_history Db.buyers]; rewrite Hrows;
    now apply find_rewritten.
Qed.

Lemma updateBuyerStatus_done rq buyerId status w :
  fst (updateBuyerStatus rq buyerId status w) = Done tt ->
  exists current s,
    Db.select_by_id buyerId (db w) = Some current
    /\ Validation.statusSchema status = Some s
    /\ Db.select_by_id buyerId
         (db (snd (updateBuyerStatus rq buyerId status w)))
       = Some (set_status (now rq) s current).
Proof.
  rewrite updateBuyerStatus_steps.
  destruct (requireAuth (session rq)) as [user|e]; [|discriminate].
  cbv zeta.
  destruct (negb (fst _)); [discriminate|].
  destruct (Db.select_by_id buyerId (db w)) as [currentBuyer|] eqn:Hsel;
    [|discriminate].
  destruct (negb (canEditBuyer user (b_ownerId currentBuyer)));
    [discriminate|].
  destruct (Validation.statusSchema status) as [s|]; [|discriminate].
  intros _. exists currentBuyer, s.
  split; [first [reflexivity|exact Hsel]|]. split; [reflexivity|].
  cbn [snd db Db.insert_history Db.buyers]. unfold Db.select_by_id in *.
  cbn [Db.buyers]. now apply find_rewritten.
Qed.

(** An update that finds under its id a lead whose [updatedAt] is not
    the one of its non-empty token never returns and writes nothing; it
    stops at the concurrency check or before it. *)
Lemma updateBuyer_stale rq formData w id token current :
  formData_get "id" formData = Some id ->
  formData_get "updatedAt" formData = Some token ->
  token <> "" ->
  Db.select_by_id id (db w) = Some current ->
  toISOString (b_updatedAt current) <> token ->
  db (snd (updateBuyer rq formData w)) = db w
  /\ (fst (updateBuyer rq formData w) = Thrown Unauthenticated
      \/ fst (updateBuyer rq formData w) = Thrown RateLimited
      \/ fst (updateBuyer rq formData w) = Thrown ValidationFailed
      \/ fst (updateBuyer rq formData w) = Thrown Forbidden
      \/ fst (updateBuyer rq formData w) = Thrown Conflict).
Proof.
  intros Hid Htok Hne Hsel Hiso.
  rewrite updateBuyer_steps.
  destruct (requireAuth (session rq)) as [user|e] eqn:Hauth.
  2:{ split; [reflexivity|]. left.
      unfold requireAuth in Hauth.
      destruct (getCurrentUser (session rq)); [discriminate|].
      now injection Hauth as <-. }
  cbv zeta.
  destruct (negb (fst _)); [now auto|].
  destruct (updateBuyerSchema_parse _ _ _) as [validatedData|];
    [|now auto].
  rewrite Hid, Hsel.
  destruct (negb (canEditBuyer user (b_ownerId current)));
    [now auto 6|].
  assert (Hstale : stale_token (formData_get "updatedAt" formData) current
                   = true).
  { apply stale_token_spec. exists token. auto. }
  rewrite Hstale. auto 6.
Qed.

(** X7. An edit invalidates the tokens handed out before it: after
    [updateBuyer] or [updateBuyerStatus] has returned for a lead at some
    time, an [updateBuyer] for the same lead that carries a non-empty
    token other than the text of that time never returns and writes
    nothing; it fails at the concurrency check, or earlier on sign-in,
    rate limit, validation or authorization. *)
Theorem edit_invalidates_older_tokens
    (rq1 rq2 : Request) (formData1 formData2 : FormData)
    (status id token : string) (w w1 : World) :
  (fst (updateBuyer rq1 formData1 w) = Done tt
   /\ formData_get "id" formData1 = Some id
   /\ w1 = snd (updateBuyer rq1 formData1 w))
  \/ (fst (updateBuyerStatus rq1 id status w) = Done tt
      /\ w1 = snd (updateBuyerStatus rq1 id status w)) ->
  formData_get "id" formData2 = Some id ->
  formData_get "updatedAt" formData2 = Some token ->
  token <> "" ->
  token <> toISOString (now rq1) ->
  db (snd (updateBuyer rq2 formData2 w1)) = db w1
  /\ (fst (updateBuyer rq2 formData2 w1) = Thrown Unauthenticated
      \/ fst (updateBuyer rq2 formData2 w1) = Thrown RateLimited
      \/ fst (updateBuyer rq2 formData2 w1) = Thrown ValidationFailed
      \/ fst (updateBuyer rq2 formData2 w1) = Thrown Forbidden
      \/ fst (updateBuyer rq2 formData2 w1) = Thrown Conflict).
Proof.
  intros Hfirst Hid Htok Hne Hold.
  assert (Hsel : exists current,
             Db.select_by_id id (db w1) = Some current
             /\ b_updatedAt current = now rq1).
  { destruct Hfirst as [(Hdone & Hid1 & ->)|(Hdone & ->)].
    - destruct (updateBuyer_done _ _ _ Hdone)
        as (id' & cur & d & Hid' & _ & Hsel).
      rewrite Hid1 in Hid'. injection Hid' as <-.
      eexists. split; [exact Hsel|reflexivity].
    - destruct (updateBuyerStatus_done _ _ _ _ Hdone)
        as (cur & s & _ & _ & Hsel).
      eexists. split; [exact Hsel|reflexivity]. }
  destruct Hsel as (current & Hsel & Hat).
  eapply updateBuyer_stale; eauto.
  rewrite Hat. congruence.
Qed.

(** X8. [updateBuyer] reports a conflict only for a stale token, and
    only to a caller who may edit the lead: when it throws [Conflict], the
    caller is signed in, the lead exists, the caller is its owner or an
    administrator, and the form carries a non-empty token that differs
    from the text of the stored [updatedAt]. *)
Theorem conflict_only_for_stale_token
    (rq : Request) (formData : FormData) (w : World) :
  fst (updateBuyer rq formData w) = Thrown Conflict ->
  exists user id current token,
    getCurrentUser (session rq) = Some user
    /\ formData_get "id" formData = Some id
    /\ Db.select_by_id id (db w) = Some current
    /\ canEditBuyer user (b_ownerId current) = true
    /\ formData_get "updatedAt" formData = Some token
    /\ token <> ""
    /\ toISOString (b_updatedAt current) <> token.
Proof.
  rewrite updateBuyer_steps.
  destruct (requireAuth (session rq)) as [user|e] eqn:Hauth.
  2:{ unfold requireAuth in Hauth.
      destruct (getCurrentUser (session rq)); [discriminate|].
      injection Hauth as <-. discriminate. }
  apply requireAuth_done in Hauth. cbv zeta.
  destruct (negb (fst _)); [discriminate|].
  destruct (updateBuyerSchema_parse _ _ _) as [validatedData|];
    [|discriminate].
  destruct (formData_get "id" formData) as [id|]; [|discriminate].
  destruct (Db.select_by_id id (db w)) as [current|] eqn:Hsel;
    [|discriminate].
  destruct (negb (canEditBuyer user (b_ownerId current))) eqn:Hcan;
    [discriminate|].
  apply negb_false_iff in Hcan.
  destruct (stale_token _ current) eqn:Hstale.
  - intros _. apply stale_token_spec in Hstale as (t & Ht & Hne & Hiso).
    exists user, id, current, t. repeat split; assumption.
  - destruct (Db.update_buyers _ _ _ _); discriminate.
Qed.

End TokenFacts.

(* ================================================================== *)
(** ** The rate limiter across the actions and over time *)
(* ================================================================== *)

Section LimiterFacts.
Import Auth Actions LRUCache RateLimit.
Context {E : Externals}.
Variable show : BuyerData -> string.

Lemma checkRateLimit_refuses now userId c :
  (default_maxRequests <= current_count now userId c)%nat ->
  fst (checkRateLimit now userId default_maxRequests c) = false
  /\ current_count now userId
       (snd (checkRateLimit now userId default_maxRequests c))
     = current_count now userId c.
Proof.
  intros H.
  pose proof (checkRateLimit_step now userId default_maxRequests c) as S.
  cbv zeta in S.
  destruct (checkRateLimit now userId default_maxRequests c)
    as [answer c'].
  destruct S as (S1 & _ & S3). cbn [fst snd].
  assert (Ha : answer = false).
  { destruct answer; [|reflexivity].
    pose proof (proj1 S1 eq_refl). lia. }
  split; [exact Ha|now apply S3].
Qed.

Lemma checkRateLimit_counts now userId c :
  fst (checkRateLimit now userId default_maxRequests c) = true ->
  current_count now userId
    (snd (checkRateLimit now userId default_maxRequests c))
  = S (current_count now userId c).
Proof.
  pose proof (checkRateLimit_step now userId default_maxRequests c) as S.
  cbv zeta in S.
  destruct (checkRateLimit now userId default_maxRequests c)
    as [answer c'].
  destruct S as (_ & S2 & _). cbn [fst snd].
  intros H. rewrite (S2 H). lia.
Qed.

(** X9. The three editing actions draw on one allowance per caller, and
    the import on none: once the count the limiter reads for a signed-in
    caller has reached ten, [createBuyer], [updateBuyer] and
    [updateBuyerStatus] all throw [RateLimited], whatever their
    arguments, with the database and the count as before; [importCSV]
    never throws [RateLimited] and never touches the cache. *)
Theorem exhausted_caller_is_refused_by_every_edit
    (rq : Request) (user : UserWithRole) (formData : FormData)
    (buyerId status : string) (file : option Csv.File) (w : World) :
  getCurrentUser (session rq) = Some user ->
  (10 <= current_count (now rq) (user_id user) (cache w))%nat ->
  (fst (Create.createBuyer show rq formData w) = Thrown RateLimited
   /\ db (snd (Create.createBuyer show rq formData w)) = db w
   /\ current_count (now rq) (user_id user)
        (cache (snd (Create.createBuyer show rq formData w)))
      = current_count (now rq) (user_id user) (cache w))
  /\ (fst (updateBuyer rq formData w) = Thrown RateLimited
      /\ db (snd (updateBuyer rq formData w)) = db w
      /\ current_count (now rq) (user_id user)
           (cache (snd (updateBuyer rq formData w)))
         = current_count (now rq) (user_id user) (cache w))
  /\ (fst (updateBuyerStatus rq buyerId status w) = Thrown RateLimited
      /\ db (snd (updateBuyerStatus rq buyerId status w)) = db w
      /\ current_count (now rq) (user_id user)
           (cache (snd (updateBuyerStatus rq buyerId status w)))
         = current_count (now rq) (user_id user) (cache w))
  /\ fst (Csv.importCSV rq file w) <> Thrown RateLimited
  /\ cache (snd (Csv.importCSV rq file w)) = cache w.
Proof.
  intros Hu Hfull.
  apply requireAuth_done in Hu.
  destruct (checkRateLimit_refuses _ _ _ Hfull) as [Hno Hsame].
  rewrite createBuyer_steps, updateBuyer_steps, updateBuyerStatus_steps.
  rewrite Hu. cbv zeta. rewrite Hno. cbn [negb fst snd db cache].
  do 3 (split; [repeat split; first [reflexivity|exact Hsame]|]).
  unfold Csv.importCSV. rewrite Hu.
  destruct file as [f|]; [|split; [cbn [fst]; discriminate|reflexivity]].
  destruct (Csv.max_file_size <? Csv.size f)%Z;
    [split; [cbn [fst]; discriminate|reflexivity]|].
  destruct (papa_parse (Csv.text f)) as [errors rows].
  destruct (0 <? errors)%nat; [split; [cbn [fst]; discriminate|reflexivity]|].
  destruct (Csv.max_rows <? length rows)%nat;
    [split; [cbn [fst]; discriminate|reflexivity]|].
  destruct (0 <? length (Csv.validate_rows rows 0))%nat;
    [split; [cbn [fst]; discriminate|reflexivity]|].
  destruct (Db.transaction _ _) as [[inserted|] db1];
    (split; [cbn [fst]; discriminate|reflexivity]).
Qed.

(** X10. Every request that gets past the limiter uses up one unit of
    the caller's allowance, also when the action then fails on
    validation, a missing lead, authorization, a conflict or the
    database: unless the outcome is [RateLimited], the count the limiter
    reads for the caller is one more than before. *)
Theorem every_admitted_request_is_counted
    (rq : Request) (user : UserWithRole) (formData : FormData)
    (buyerId status : string) (w : World) :
  getCurrentUser (session rq) = Some user ->
  (fst (Create.createBuyer show rq formData w) <> Thrown RateLimited ->
   current_count (now rq) (user_id user)
     (cache (snd (Create.createBuyer show rq formData w)))
   = S (current_count (now rq) (user_id user) (cache w)))
  /\ (fst (updateBuyer rq formData w) <> Thrown RateLimited ->
      current_count (now rq) (user_id user)
        (cache (snd (updateBuyer rq formData w)))
      = S (current_count (now rq) (user_id user) (cache w)))
  /\ (fst (updateBuyerStatus rq buyerId status w) <> Thrown RateLimited ->
      current_count (now rq) (user_id user)
        (cache (snd (updateBuyerStatus rq buyerId status w)))
      = S (current_count (now rq) (user_id user) (cache w))).
Proof.
  intros Hu. apply requireAuth_done in Hu.
  pose proof (checkRateLimit_counts (now rq) (user_id user) (cache w))
    as Hcount.
  rewrite createBuyer_steps, updateBuyer_steps, updateBuyerStatus_steps.
  rewrite Hu. cbv zeta.
  destruct (fst (checkRateLimit (now rq) (user_id user)
                   default_maxRequests (cache w))).
  2:{ cbn [negb fst]. repeat split; intros H; now contradiction H. }
  specialize (Hcount eq_refl). cbn [negb].
  split; [|split]; intros _.
  - destruct (Validation.buyerSchema_safeParse _); [|exact Hcount].
    cbv zeta. destruct (Db.constraints_ok _); exact Hcount.
  - destruct (updateBuyerSchema_parse _ _ _); [|exact Hcount].
    destruct (formData_get "id" formData); [|exact Hcount].
    destruct (Db.select_by_id _ _); [|exact Hcount].
    destruct (negb (canEditBuyer _ _)); [exact Hcount|].
    destruct (stale_token _ _); [exact Hcount|].
    destruct (Db.update_buyers _ _ _ _); exact Hcount.
  - destruct (Db.select_by_id _ _); [|exact Hcount].
    destruct (negb (canEditBuyer _ _)); [exact Hcount|].
    destruct (Validation.statusSchema status); exact Hcount.
Qed.

(** One check on an entry that has not expired. *)
Lemma checkRateLimit_fresh now userId maxRequests c e :
  lookup (rate_key userId) c = Some e ->
  (now - e_start e <= ttl rateLimitCache_options)%Z ->
  ((maxRequests <= e_value e)%nat ->
   fst (checkRateLimit now userId maxRequests c) = false
   /\ lookup (rate_key userId)
        (snd (checkRateLimit now userId maxRequests c)) = Some e)
  /\ ((e_value e < maxRequests)%nat ->
      fst (checkRateLimit now userId maxRequests c) = true
      /\ lookup (rate_key userId)
           (snd (checkRateLimit now userId maxRequests c))
         = Some {| e_key := rate_key userId;
                   e_value := S (e_value e);
                   e_start := now |}).
Proof.
  intros Hl Hfresh.
  pose proof (lookup_key _ _ _ Hl) as Hk.
  unfold checkRateLimit, get, set. rewrite Hl.
  assert (Hs : isStale rateLimitCache_options now e = false)
    by (unfold isStale; apply Z.ltb_ge; lia).
  rewrite Hs.
  assert (Hcur : (if (e_value e =? 0)%nat then 0%nat else e_value e)
                 = e_value e).
  { destruct (e_value e =? 0)%nat eqn:H0; [|reflexivity].
    apply Nat.eqb_eq in H0. now rewrite H0. }
  rewrite Hcur. split; intros Hm.
  - apply Nat.leb_le in Hm. rewrite Hm. cbn [fst snd].
    split; [reflexivity|now apply lookup_cons_same].
  - apply Nat.leb_gt in Hm. rewrite Hm. cbn [fst snd].
    split; [reflexivity|].
    rewrite lookup_cons_same by assumption.
    rewrite lookup_cons_same by reflexivity.
    f_equal. f_equal. lia.
Qed.

(** One check on an entry that has expired, or without an entry. *)
Lemma checkRateLimit_restart now userId maxRequests c :
  (0 < maxRequests)%nat ->
  match lookup (rate_key userId) c with
  | Some e => (ttl rateLimitCache_options < now - e_start e)%Z
  | None => True
  end ->
  fst (checkRateLimit now userId maxRequests c) = true
  /\ lookup (rate_key userId)
       (snd (checkRateLimit now userId maxRequests c))
     = Some {| e_key := rate_key userId; e_value := 1; e_start := now |}.
Proof.
  intros Hm Hl.
  unfold checkRateLimit, get, set.
  assert (Hgt : (maxRequests <=? 0)%nat = false)
    by (apply Nat.leb_gt; lia).
  destruct (lookup (rate_key userId) c) as [e|] eqn:He.
  - assert (Hs : isStale rateLimitCache_options now e = true)
      by (unfold isStale; apply Z.ltb_lt; lia).
    rewrite Hs, Hgt. cbn [fst snd].
    rewrite lookup_delete_same.
    split; [reflexivity|]. now apply lookup_cons_same.
  - rewrite Hgt. cbn [fst snd]. rewrite He.
    split; [reflexivity|]. now apply lookup_cons_same.
Qed.

(** X11. A refusal does not prolong the wait.  A check that is refused
    (for a positive threshold) found an entry of the caller that had not
    expired, and leaves that entry as it is, age included; so the first
    check of the caller later than 60 seconds after that entry was
    written is admitted, however many refused checks came in between. *)
Theorem refused_caller_is_admitted_after_ttl
    (now : Z) (userId : string) (maxRequests : nat) (c : LRUCache.t) :
  (0 < maxRequests)%nat ->
  fst (checkRateLimit now userId maxRequests c) = false ->
  exists e,
    lookup (rate_key userId) c = Some e
    /\ lookup (rate_key userId)
         (snd (checkRateLimit now userId maxRequests c)) = Some e
    /\ forall later,
         (ttl rateLimitCache_options < later - e_start e)%Z ->
         fst (checkRateLimit later userId maxRequests
                (snd (checkRateLimit now userId maxRequests c))) = true.
Proof.
  intros Hm Hno.
  destruct (lookup (rate_key userId) c) as [e|] eqn:Hl.
  2:{ destruct (checkRateLimit_restart now userId maxRequests c Hm)
        as [Hyes _]; [now rewrite Hl|congruence]. }
  destruct (Z.ltb (ttl rateLimitCache_options) (now - e_start e))
    eqn:Hstale.
  { apply Z.ltb_lt in Hstale.
    destruct (checkRateLimit_restart now userId maxRequests c Hm)
      as [Hyes _]; [now rewrite Hl|congruence]. }
  apply Z.ltb_ge in Hstale.
  destruct (checkRateLimit_fresh now userId maxRequests c e Hl Hstale)
    as [Hfull Hroom].
  destruct (Nat.le_gt_cases maxRequests (e_value e)) as [Hle|Hgt].
  2:{ destruct (Hroom Hgt) as [Hyes _]. congruence. }
  destruct (Hfull Hle) as [_ Hkept].
  exists e. split; [reflexivity|]. split; [exact Hkept|].
  intros later Hlater.
  apply checkRateLimit_restart; [assumption|]. now rewrite Hkept.
Qed.

(** Requests of one caller, each within the time-to-live of the one
    before: as many are admitted as the allowance has room for. *)
Lemma admitted_spaced userId maxRequests (times : list Z) :
  forall c e,
    lookup (rate_key userId) c = Some e ->
    (e_value e <= maxRequests)%nat ->
    Sorted (fun a b => (a <= b <= a + ttl rateLimitCache_options)%Z)
           (e_start e :: times) ->
    (length times <= S (maxRequests - e_value e))%nat ->
    admitted userId maxRequests (map (fun t => (t, userId)) times) c
    = Nat.min (length times) (maxRequests - e_value e).
Proof.
  induction times as [|t times IH]; intros c e Hl Hle Hsorted Hlen;
    [reflexivity|].
  inversion Hsorted as [|? ? Hrest Hhd]; subst.
  inversion Hhd as [|? ? Hgap]; subst.
  cbn [map admitted].
  assert (Hfresh : (t - e_start e <= ttl rateLimitCache_options)%Z)
    by lia.
  destruct (checkRateLimit_fresh t userId maxRequests c e Hl Hfresh)
    as [Hfull Hroom].
  destruct (checkRateLimit t userId maxRequests c) as [answer c'].
  cbn [fst snd] in *. rewrite String.eqb_refl, andb_true_r.
  destruct (Nat.le_gt_cases maxRequests (e_value e)) as [Hge|Hlt].
  - destruct (Hfull Hge) as [-> _].
    assert (Hnil : times = []).
    { destruct times; [reflexivity|]. simpl in Hlen. lia. }
    subst times. simpl.
    replace (maxRequests - e_value e)%nat with 0%nat by lia.
    reflexivity.
  - destruct (Hroom Hlt) as [-> Hnew].
    rewrite (IH c' _ Hnew).
    + cbn [e_value length].
      replace (maxRequests - e_value e)%nat
        with (S (maxRequests - S (e_value e)))%nat by lia.
      reflexivity.
    + cbn [e_value]. lia.
    + cbn [e_start]. exact Hrest.
    + cbn [e_value]. simpl in Hlen. lia.
Qed.

(** X12. The limit is not ten requests per minute: an admitted request
    restarts the age of the caller's entry without resetting its count.
    Of eleven requests of a caller without an entry, each at most 60
    seconds after the one before, the first ten are admitted and the
    eleventh is refused, even when each of them comes up to a minute
    after the last and the first is ten minutes old. *)
Theorem spaced_requests_exhaust_the_allowance
    (userId : string) (c : LRUCache.t) (times : list Z) :
  lookup (rate_key userId) c = None ->
  Sorted (fun a b => (a <= b <= a + ttl rateLimitCache_options)%Z) times ->
  length times = 11%nat ->
  admitted userId default_maxRequests
    (map (fun t => (t, userId)) (firstn 10 times)) c = 10%nat
  /\ admitted userId default_maxRequests
       (map (fun t => (t, userId)) times) c = 10%nat.
Proof.
  intros Hl Hsorted Hlen.
  destruct times as [|t times]; [discriminate|].
  assert (Hlen' : length times = 10%nat) by (simpl in Hlen; lia).
  destruct (checkRateLimit_restart t userId default_maxRequests c)
    as [Hyes Hnew];
    [unfold default_maxRequests; lia | now rewrite Hl |].
  assert (Hfirst : Sorted
            (fun a b => (a <= b <= a + ttl rateLimitCache_options)%Z)
            (t :: firstn 9 times)).
  { clear - Hsorted. remember 9%nat as n. clear Heqn.
    revert t times Hsorted.
    induction n as [|n IH]; intros t times Hs.
    - repeat constructor.
    - destruct times as [|t' times]; [repeat constructor|].
      inversion Hs as [|? ? Hrest Hhd]; subst.
      inversion Hhd; subst.
      cbn [firstn]. constructor; [now apply IH|now constructor]. }
  change (firstn 10 (t :: times)) with (t :: firstn 9 times).
  cbn [map admitted].
  destruct (checkRateLimit t userId default_maxRequests c)
    as [answer c'].
  cbn [fst snd] in *. subst answer.
  rewrite String.eqb_refl. cbn [andb].
  rewrite (admitted_spaced userId default_maxRequests (firstn 9 times)
             c' _ Hnew);
    [|cbn [e_value]; unfold default_maxRequests; lia
     |exact Hfirst
     |rewrite length_firstn; cbn [e_value]; unfold default_maxRequests;
      lia].
  rewrite (admitted_spaced userId default_maxRequests times c' _ Hnew);
    [|cbn [e_value]; unfold default_maxRequests; lia
     |exact Hsorted
     |cbn [e_value]; unfold default_maxRequests; lia].
  rewrite length_firstn, Hlen'. cbn [e_value].
  unfold default_maxRequests. split; reflexivity.
Qed.

(** X13. The cache of the limiter keeps its shape under every check: it
    never holds more than a thousand entries, and never two entries for
    one key. *)
Theorem rate_limit_cache_stays_bounded
    (now : Z) (userId : string) (maxRequests : nat) (c : LRUCache.t) :
  (length c <= max rateLimitCache_options)%nat ->
  NoDup (map e_key c) ->
  (length (snd (checkRateLimit now userId maxRequests c))
   <= max rateLimitCache_options)%nat
  /\ NoDup (map e_key (snd (checkRateLimit now userId maxRequests c))).
Proof.
  intros Hlen Hnd.
  unfold checkRateLimit, get, set.
  set (key := rate_key userId) in *.
  pose proof (length_delete key c) as Hd.
  pose proof (NoDup_filter_keys (fun e => negb (e_key e =? key)) c Hnd)
    as Hndd.
  fold (delete key c) in Hndd.
  pose proof (key_not_in_delete key c) as Hnotin.
  destruct (lookup key c) as [e|] eqn:Hl.
  - pose proof (lookup_key _ _ _ Hl) as Hk.
    pose proof (length_delete_found _ _ _ Hl) as Hlt.
    destruct (isStale rateLimitCache_options now e).
    + destruct (maxRequests <=? 0)%nat; cbn [fst snd].
      * split; [lia|assumption].
      * rewrite lookup_delete_same.
        rewrite set_not_full by lia.
        cbn [length map e_key]. split; [lia|].
        constructor; assumption.
    + match goal with
      | |- context [(maxRequests <=? ?x)%nat] =>
          destruct (maxRequests <=? x)%nat
      end; cbn [fst snd].
      * cbn [length map]. split; [lia|].
        rewrite Hk. constructor; assumption.
      * rewrite lookup_cons_same by assumption.
        rewrite delete_cons_same by assumption.
        pose proof (length_delete key (delete key c)).
        cbn [length map e_key]. split; [lia|].
        constructor.
        -- apply key_not_in_delete.
        -- now apply NoDup_filter_keys.
  - pose proof (lookup_None_not_in _ _ Hl) as Hfree.
    destruct (maxRequests <=? 0)%nat; cbn [fst snd];
      [split; assumption|].
    rewrite Hl.
    destruct (length c =? max rateLimitCache_options)%nat eqn:Hfull.
    + apply Nat.eqb_eq in Hfull.
      pose proof (removelast_length c) as Hr.
      cbn [length map e_key]. split.
      * destruct c as [|x c']; [simpl in *; lia|].
        assert (length (removelast (x :: c')) = length c').
        { clear. revert x. induction c' as [|y c' IH]; intros x;
            [reflexivity|].
          change (removelast (x :: y :: c'))
            with (x :: removelast (y :: c')).
          cbn [length]. now rewrite IH. }
        cbn [length] in *. lia.
      * constructor;
          [now apply not_in_removelast_keys
          |now apply NoDup_removelast_keys].
    + apply Nat.eqb_neq in Hfull.
      cbn [length map e_key]. split; [lia|].
      constructor; assumption.
Qed.

(** X14. Callers do not draw on each other's allowance: while the cache
    has room, a check for one caller leaves the count that the limiter
    reads for any other caller as it was. *)
Theorem check_leaves_other_callers_count
    (now later : Z) (caller other : string) (maxRequests : nat)
    (c : LRUCache.t) :
  caller <> other ->
  (length c < max rateLimitCache_options)%nat ->
  current_count later other
    (snd (checkRateLimit now caller maxRequests c))
  = current_count later other c.
Proof.
  intros Hne Hlen. unfold current_count.
  rewrite checkRateLimit_other_key; [reflexivity| |assumption].
  intros Heq. apply rate_key_inj in Heq. congruence.
Qed.

End LimiterFacts.

(* ================================================================== *)
(** ** The page of one lead *)
(* ================================================================== *)

Section DetailFacts.
Import Auth Actions Detail.
Context {E : Externals}.

Lemma whereCondition_spec user id b :
  whereCondition user id b = true
  <-> b_id b = id /\ canEditBuyer user (b_ownerId b) = true.
Proof.
  unfold whereCondition, canViewAllBuyers, canEditBuyer.
  destruct (isAdmin user); simpl.
  - rewrite String.eqb_eq. tauto.
  - rewrite andb_true_iff, !String.eqb_eq. intuition congruence.
Qed.


Lemma insert_entry_perm x l :
  Permutation (insert_entry x l) (x :: l).
Proof.
  induction l as [|y l IH]; simpl; [reflexivity|].
  destruct (changedAt_desc x y); [reflexivity|].
  rewrite IH. apply perm_swap.
Qed.

Lemma sort_entries_perm l : Permutation (sort_entries l) l.
Proof.
  induction l as [|x l IH]; simpl; [reflexivity|].
  rewrite insert_entry_perm. now constructor.
Qed.

Lemma insert_entry_sorted x l :
  StronglySorted
    (fun a b => (Db.h_changedAt b <= Db.h_changedAt a)%Z) l ->
  StronglySorted
    (fun a b => (Db.h_changedAt b <= Db.h_changedAt a)%Z)
    (insert_entry x l).
Proof.
  induction l as [|y l IH]; intros Hs; simpl.
  - repeat constructor.
  - inversion Hs as [|? ? Hl Hy]; subst.
    unfold changedAt_desc.
    destruct (Db.h_changedAt y <=? Db.h_changedAt x)%Z eqn:Hle.
    + apply Z.leb_le in Hle. constructor; [assumption|].
      constructor; [assumption|].
      eapply Forall_impl; [|exact Hy]. simpl. intros; lia.
    + apply Z.leb_gt in Hle. constructor; [now apply IH|].
      eapply Permutation_Forall.
      * symmetry. apply insert_entry_perm.
      * constructor; [lia|assumption].
Qed.

Lemma sort_entries_sorted l :
  StronglySorted
    (fun a b => (Db.h_changedAt b <= Db.h_changedAt a)%Z)
    (sort_entries l).
Proof.
  induction l as [|x l IH]; simpl; [constructor|].
  now apply insert_entry_sorted.
Qed.

(** X16. The history on the page of a lead is the latest five: the list
    that [getBuyer] returns is the first five of the entries of that lead
    arranged from the newest to the oldest, so it has at most five
    entries, all of that lead, and no entry left out is newer than one
    that is shown. *)
Theorem detail_history_is_the_latest_five
    (session : option SupabaseUser) (id : string) (db : Db.t)
    (b : Buyer) (history : list Db.HistoryEntry) :
  getBuyer session id db = Done (Some (b, history)) ->
  (length history <= 5)%nat
  /\ exists arranged,
       Permutation arranged
         (filter (fun h => Db.h_buyerId h =? id) (Db.buyerHistory db))
       /\ StronglySorted
            (fun x y => (Db.h_changedAt y <= Db.h_changedAt x)%Z)
            arranged
       /\ history = firstn 5 arranged.
Proof.
  unfold getBuyer.
  destruct (getCurrentUser session) as [user|]; [|discriminate].
  destruct (find _ _); [|discriminate].
  intros H.
  assert (Hh : history
               = firstn 5
                   (sort_entries
                      (filter (fun h => Db.h_buyerId h =? id)
                              (Db.buyerHistory db)))) by congruence.
  rewrite Hh. clear H Hh.
  split; [apply firstn_le_length|].
  eexists. split; [apply sort_entries_perm|].
  split; [apply sort_entries_sorted|reflexivity].
Qed.

End DetailFacts.

(* ================================================================== *)
(** ** The export, read back and imported again *)
(* ================================================================== *)

Section ExportFacts.
Import Auth Actions JSText CsvExport.
Context {E : Externals}.

(** X17. The text of an export can be read back without loss, whatever
    the leads contain: read as quoted fields separated by commas and
    lines separated by line feeds, a doubled quote standing for a quote,
    the text that [exportCSV] returns gives the sixteen headers and then,
    for every lead of the result and in its order, the sixteen values of
    the lead; commas, quotes and line feeds inside a name, the notes or a
    tag do not break the table. *)
Theorem exported_text_reads_back
    (scan : Query.scan_order) (rq : Request)
    (params : Query.SearchParams) (db : Db.t) (file : ExportFile) :
  exportCSV scan rq params db = Done file ->
  exists results,
    Query.exportCSV_results scan (session rq) params db = Done results
    /\ read_csv (content file) = Some (headers :: map csvRow results)
    /\ Forall (fun l => length l = length headers)
              (headers :: map csvRow results).
Proof.
  unfold exportCSV.
  destruct (Query.exportCSV_results scan (session rq) params db)
    as [results|e]; [|discriminate].
  intros H. injection H as <-. exists results.
  split; [reflexivity|]. split.
  - cbn [content]. unfold csvContent, read_csv.
    rewrite read_lines; [reflexivity|discriminate|].
    constructor; [discriminate|].
    apply Forall_forall. intros l Hl.
    apply in_map_iff in Hl as (b & <- & _). discriminate.
  - constructor; [reflexivity|].
    apply Forall_forall. intros l Hl.
    apply in_map_iff in Hl as (b & <- & _). reflexivity.
Qed.

Lemma transformed_headers :
  map transformHeader headers
  = ["fullname"; "email"; "phone"; "city"; "propertytype"; "bhk";
     "purpose"; "budgetmin"; "budgetmax"; "timeline"; "source"; "status";
     "notes"; "tags"; "createdat"; "updatedat"].
Proof. vm_compute. reflexivity. Qed.

Lemma text_cell (c : string) :
  match
    match (if c =? "" then None else Some c) with
    | Some s => Some s
    | None => None
    end
  with
  | Some s => s
  | None => ""
  end = c.
Proof.
  destruct (c =? "") eqn:Hc; [|reflexivity].
  apply String.eqb_eq in Hc. now subst.
Qed.

Lemma optional_cell (c : string) :
  match (if c =? "" then None else Some c) with
  | Some s => JS.Str s
  | None => JS.Undefined
  end = or_undefined (Some c).
Proof. unfold or_undefined. destruct (c =? ""); reflexivity. Qed.

Lemma number_cell (c : string) :
  match
    match (if c =? "" then None else Some c) with
    | Some s => Some s
    | None => None
    end
  with
  | Some s => JS.Number (JS.parseInt s)
  | None => JS.Undefined
  end = budget_of_form (Some c).
Proof.
  unfold budget_of_form. cbn [JS.truthy].
  destruct (c =? ""); reflexivity.
Qed.

Lemma list_cell (c : string) :
  match (if c =? "" then None else Some c) with
  | Some t => JS.Array (split_tags t)
  | None => JS.Array []
  end = tags_of_form (Some c).
Proof. unfold tags_of_form. destruct (c =? ""); reflexivity. Qed.

(** The object that the import builds from the cells of an exported
    line: the texts of the required columns as they are, the others read
    as the forms read them. *)
Lemma transformedRow_of_cells
    (c1 c2 c3 c4 c5 c6 c7 c8 c9 c10 c11 c12 c13 c14 c15 c16 : string) :
  Csv.transformedRow
    (combine
       ["fullname"; "email"; "phone"; "city"; "propertytype"; "bhk";
        "purpose"; "budgetmin"; "budgetmax"; "timeline"; "source";
        "status"; "notes"; "tags"; "createdat"; "updatedat"]
       [c1; c2; c3; c4; c5; c6; c7; c8; c9; c10; c11; c12; c13; c14; c15;
        c16])
  = {| raw_fullName := JS.Str c1;
       raw_email := or_undefined (Some c2);
       raw_phone := JS.Str c3;
       raw_city := JS.Str c4;
       raw_propertyType := JS.Str c5;
       raw_bhk := or_undefined (Some c6);
       raw_purpose := JS.Str c7;
       raw_budgetMin := budget_of_form (Some c8);
       raw_budgetMax := budget_of_form (Some c9);
       raw_timeline := JS.Str c10;
       raw_source := JS.Str c11;
       raw_status := JS.Undefined;
       raw_notes := or_undefined (Some c13);
       raw_tags := tags_of_form (Some c14) |}.
Proof.
  unfold Csv.transformedRow, Csv.text_or_empty, Csv.text_or_undefined,
    Csv.budget_cell, Csv.tags_cell.
  cbn [combine Csv.first_truthy].
  unfold Csv.truthy_cell. simpl find. cbn [snd].
  rewrite !text_cell, !optional_cell, !number_cell, list_cell.
  reflexivity.
Qed.

Lemma or_undefined_or_empty (o : option string) :
  o <> Some "" ->
  Db.nullable_text_column (or_undefined (Some (or_empty o))) = Some o.
Proof.
  destruct o as [s|]; [|reflexivity].
  intros H. simpl.
  destruct (s =? "") eqn:Hs; [|reflexivity].
  apply String.eqb_eq in Hs. congruence.
Qed.

Lemma budget_cell_read (o : option Z) :
  o <> Some 0%Z -> Db.opt_int4 o = true ->
  Db.integer_column (budget_of_form (Some (budget_text o))) = Some o.
Proof.
  destruct o as [z|]; [|reflexivity].
  intros Hz Hint. unfold budget_text, budget_of_form.
  destruct (z =? 0)%Z eqn:H0; [apply Z.eqb_eq in H0; congruence|].
  cbn [JS.truthy]. rewrite of_Z_not_empty. cbn [negb andb].
  rewrite parseInt_of_Z. cbn [Db.integer_column].
  simpl in Hint. now rewrite Hint.
Qed.

Lemma bhk_cell_read (o : option BHK) :
  Db.nullable_enum_column Validation.bhkSchema
    (or_undefined (Some (or_empty (option_map bhk_text o))))
  = Some o.
Proof. destruct o as [[]|]; reflexivity. Qed.

Lemma tags_cell_read (sep : string) (l : list string) :
  sep = "," \/ sep = ", " ->
  forallb clean_tag l = true ->
  tags_of_form (Some (join sep l)) = JS.Array l.
Proof.
  intros Hsep Hclean.
  destruct (clean_tags_kept l Hclean) as [Hfree Hkept].
  unfold tags_of_form.
  destruct (join sep l =? "") eqn:Hj.
  - apply String.eqb_eq in Hj.
    f_equal. rewrite <- Hkept.
    rewrite <- (split_tags_join sep l Hsep Hfree), Hj. reflexivity.
  - now rewrite (split_tags_join sep l Hsep Hfree), Hkept.
Qed.

(** X18. An exported lead comes back from an import as it was, up to
    what an import always renews.  Take a stored lead whose texts and
    numbers fit their columns, whose e-mail and notes are not the empty
    text, whose budgets are not zero and whose tags are not empty, have no
    comma and no white space at either end (as every lead has that the
    forms created); the row that the import builds from the line of the
    lead in an export, read under the transformed headers, is inserted
    as a lead with the same name, e-mail, phone, city, property type,
    bedrooms, purpose, budgets, timeline, source, notes and tags.  The
    id, the owner and both times are new, and the status is [New]
    whatever it was: the import does not read that column. *)
Theorem exported_lead_is_imported_unchanged
    (b : Buyer) (tags : list string) (now : Z) (ownerId : string)
    (tx : Db.t) :
  Db.constraints_ok b = true ->
  b_email b <> Some "" ->
  b_notes b <> Some "" ->
  b_budgetMin b <> Some 0%Z ->
  b_budgetMax b <> Some 0%Z ->
  b_tags b = Some tags ->
  forallb clean_tag tags = true ->
  Db.insert_buyer now (Csv.transformedRow (reimported b)) ownerId tx
  = Some (imported_copy (gen_random_uuid (Db.ids_drawn tx)) ownerId now b,
          {| Db.buyers :=
               Db.buyers tx
               ++ [imported_copy (gen_random_uuid (Db.ids_drawn tx))
                     ownerId now b];
             Db.buyerHistory := Db.buyerHistory tx;
             Db.ids_drawn := S (Db.ids_drawn tx) |}).
Proof.
  intros Hok Hemail Hnotes Hmin Hmax Htags Hclean.
  unfold reimported. rewrite transformed_headers.
  unfold csvRow. rewrite transformedRow_of_cells.
  unfold Db.insert_buyer.
  cbn [raw_fullName raw_email raw_phone raw_city raw_propertyType raw_bhk
       raw_purpose raw_budgetMin raw_budgetMax raw_timeline raw_source
       raw_status raw_notes raw_tags].
  pose proof Hok as Hok'.
  unfold Db.constraints_ok in Hok'.
  apply andb_true_iff in Hok' as [Hok' Hi2].
  apply andb_true_iff in Hok' as [Hok' Hi1].
  rewrite (or_undefined_or_empty _ Hemail).
  rewrite (or_undefined_or_empty _ Hnotes).
  rewrite (budget_cell_read _ Hmin Hi1), (budget_cell_read _ Hmax Hi2).
  rewrite bhk_cell_read.
  rewrite Htags. cbn [tags_text].
  rewrite (tags_cell_read ", " tags (or_intror eq_refl) Hclean).
  cbn [Db.text_column Db.enum_column Db.status_column Db.tags_column].
  assert (Hc : Validation.citySchema (city_text (b_city b))
               = Some (b_city b)) by (destruct (b_city b); reflexivity).
  assert (Hp : Validation.propertyTypeSchema
                 (propertyType_text (b_propertyType b))
               = Some (b_propertyType b))
    by (destruct (b_propertyType b); reflexivity).
  assert (Hu : Validation.purposeSchema (purpose_text (b_purpose b))
               = Some (b_purpose b))
    by (destruct (b_purpose b); reflexivity).
  assert (Ht : Validation.timelineSchema (timeline_text (b_timeline b))
               = Some (b_timeline b))
    by (destruct (b_timeline b); reflexivity).
  assert (Hs : Validation.sourceSchema (source_text (b_source b))
               = Some (b_source b))
    by (destruct (b_source b); reflexivity).
  rewrite Hc, Hp, Hu, Ht, Hs.
  unfold imported_copy. rewrite Htags.
  match goal with
  | |- (if Db.constraints_ok ?r then _ else _) = _ =>
      replace (Db.constraints_ok r) with (Db.constraints_ok b)
        by reflexivity
  end.
  rewrite Hok. reflexivity.
Qed.

(** X19. What the server reads back from tags that a form has joined
    with commas, or that an export has joined with a comma and a space:
    when no tag contains a comma, the tags themselves, each without the
    white space at its ends, and without those that are then empty; so
    tags that are not empty and have no white space at their ends come
    back as they were. *)
Theorem joined_tags_are_read_back_trimmed
    (sep : string) (tags : list string) :
  sep = "," \/ sep = ", " ->
  forallb comma_free tags = true ->
  tags_of_form (Some (join sep tags))
  = JS.Array (filter (fun s => negb (s =? "")) (map JS.trim tags))
  /\ (forallb clean_tag tags = true ->
      tags_of_form (Some (join sep tags)) = JS.Array tags).
Proof.
  intros Hsep Hfree. split.
  - unfold tags_of_form.
    rewrite <- (split_tags_join sep tags Hsep Hfree).
    destruct (join sep tags =? "") eqn:Hj; [|reflexivity].
    apply String.eqb_eq in Hj. now rewrite Hj.
  - now apply tags_cell_read.
Qed.

End ExportFacts.

(* ================================================================== *)
(** ** From the form of a new lead to the server *)
(* ================================================================== *)

Section FormFacts.
Import Zod Validation Auth Actions JSText Create.
Context {E : Externals}.

(** What [createBuyer] reads from the form that [onSubmit] fills. *)
Lemma create_rawData_of_onSubmit data :
  create_rawData (onSubmit_formData data)
  = {| raw_fullName := JS.Str (fullName data);
       raw_email := or_undefined (email data);
       raw_phone := JS.Str (phone data);
       raw_city := JS.Str (city_text (city data));
       raw_propertyType := JS.Str (propertyType_text (propertyType data));
       raw_bhk := or_undefined (option_map bhk_text (bhk data));
       raw_purpose := JS.Str (purpose_text (purpose data));
       raw_budgetMin := budget_of_form (truthy_budget (budgetMin data));
       raw_budgetMax := budget_of_form (truthy_budget (budgetMax data));
       raw_timeline := JS.Str (timeline_text (timeline data));
       raw_source := JS.Str (source_text (source data));
       raw_status := JS.Undefined;
       raw_notes := or_undefined (notes data);
       raw_tags := tags_of_form (Some (join "," (tags data))) |}.
Proof.
  unfold create_rawData, onSubmit_formData, formData_get.
  destruct (email data), (option_map bhk_text (bhk data)),
    (truthy_budget (budgetMin data)), (truthy_budget (budgetMax data)),
    (notes data); reflexivity.
Qed.

Lemma budget_field_of_form path (o : option Z) :
  (forall z, o = Some z -> (0 < z)%Z) ->
  budget_field path (budget_of_form (truthy_budget o)) = (Some o, []).
Proof.
  intros Hpos. destruct o as [z|]; [|reflexivity].
  specialize (Hpos z eq_refl).
  unfold truthy_budget.
  assert (H0 : (z =? 0)%Z = false) by (apply Z.eqb_neq; lia).
  rewrite H0. unfold budget_of_form.
  cbn [JS.truthy]. rewrite of_Z_not_empty. cbn [negb andb].
  rewrite parseInt_of_Z.
  unfold budget_field, budget_transform, ok.
  cbn [JS.truthy JS.strict_eq JS.isNaN]. rewrite H0. reflexivity.
Qed.

(** X20. What the form of a new lead has validated, the server accepts.
    When [onSubmit] is handed the data that [buyerSchema] produced from
    the input of the form (its budgets below [10^21]), [createBuyer]
    reads from the [FormData] it fills an object that [buyerSchema]
    accepts again, with the same value in every field except two: the
    status is [New] whatever the form carried, and the tags are those
    read back from their text joined by commas. *)
Theorem validated_form_passes_server_validation
    (input : RawBuyer) (data : BuyerData) :
  buyerSchema_safeParse input = Success data ->
  (forall z, budgetMin data = Some z -> (z < 10 ^ 21)%Z) ->
  (forall z, budgetMax data = Some z -> (z < 10 ^ 21)%Z) ->
  buyerSchema_safeParse (create_rawData (onSubmit_formData data))
  = Success
      (with_tags_and_status (split_tags (join "," (tags data))) New data).
Proof.
  intros H _ _.
  destruct (accepted_data_rules _ _ H)
    as (R1 & R2 & R3 & R4 & R5 & R6 & _ & _).
  apply safeParse_success_iff in H as [Hp Hc].
  apply safeParse_success_iff. split; [|exact Hc].
  rewrite create_rawData_of_onSubmit.
  apply object_parse_of_fields;
    cbn [raw_fullName raw_email raw_phone raw_city raw_propertyType
         raw_bhk raw_purpose raw_budgetMin raw_budgetMax raw_timeline
         raw_source raw_status raw_notes raw_tags
         with_tags_and_status fullName email phone city propertyType bhk
         purpose budgetMin budgetMax timeline source status notes tags].
  - apply string_min_max_clean. auto.
  - destruct (email data) as [e|]; [|reflexivity].
    destruct (R3 e eq_refl) as [Hne He].
    apply String.eqb_neq in Hne.
    unfold or_undefined, email_field. rewrite Hne, He. cbn [orb].
    now rewrite Hne.
  - apply string_min_max_clean. auto.
  - destruct (city data); reflexivity.
  - destruct (propertyType data); reflexivity.
  - destruct (bhk data) as [[]|]; reflexivity.
  - destruct (purpose data); reflexivity.
  - now apply budget_field_of_form.
  - now apply budget_field_of_form.
  - destruct (timeline data); reflexivity.
  - destruct (source data); reflexivity.
  - reflexivity.
  - destruct (notes data) as [n|]; [|reflexivity].
    destruct (R4 n eq_refl) as [Hne Hlen].
    apply String.eqb_neq in Hne.
    unfold or_undefined, notes_field. rewrite Hne.
    assert (Hl : (1000 <? String.length n)%nat = false)
      by (apply Nat.ltb_ge; lia).
    now rewrite Hl, Hne.
  - unfold tags_of_form.
    destruct (join "," (tags data) =? "") eqn:Hj; [|reflexivity].
    apply String.eqb_eq in Hj. now rewrite Hj.
Qed.

End FormFacts.

(* ================================================================== *)
(** ** The pages of the list and the export *)
(* ================================================================== *)

Section ListingFacts.
Import Auth Actions Query.
Context {E : Externals}.





End ListingFacts.

(* ================================================================== *)
(** ** The diff of an update, and the page after a creation *)
(* ================================================================== *)

Section DiffFacts.
Import Auth Actions.
Context {E : Externals}.

Lemma changes_loop_spec fields currentBuyer validatedData : forall changes,
  changes_loop fields currentBuyer validatedData changes
  = changes
    ++ map (fun f => (field_name f,
                      (row_field currentBuyer f,
                       data_field validatedData f)))
           (filter (fun f =>
                      JS.stringify_differs (row_field currentBuyer f)
                        (data_field validatedData f))
                   fields).
Proof.
  induction fields as [|f rest IH]; intros changes; simpl.
  - now rewrite app_nil_r.
  - destruct (JS.stringify_differs (row_field currentBuyer f)
                (data_field validatedData f)).
    + rewrite IH, <- app_assoc. reflexivity.
    + apply IH.
Qed.

(** X22. The diff that [updateBuyer] records lists exactly the fields
    whose stored value and validated value differ in their JSON text, in
    the order of [fieldsToCheck], each once, under its name and with the
    pair of the old and the new value. *)
Theorem diff_lists_exactly_the_fields_that_differ
    (currentBuyer : Buyer) (validatedData : PartialBuyer) :
  compute_changes currentBuyer validatedData
  = map (fun f => (field_name f,
                   (row_field currentBuyer f, data_field validatedData f)))
        (filter (fun f =>
                   JS.stringify_differs (row_field currentBuyer f)
                     (data_field validatedData f))
                fieldsToCheck)
  /\ NoDup (map fst (compute_changes currentBuyer validatedData)).
Proof.
  assert (Heq : compute_changes currentBuyer validatedData
                = map (fun f => (field_name f,
                                 (row_field currentBuyer f,
                                  data_field validatedData f)))
                      (filter (fun f =>
                                 JS.stringify_differs
                                   (row_field currentBuyer f)
                                   (data_field validatedData f))
                              fieldsToCheck))
    by (unfold compute_changes; now rewrite changes_loop_spec).
  split; [exact Heq|].
  rewrite Heq, map_map. cbn [fst].
  assert (Hnd : NoDup (map field_name fieldsToCheck)).
  { vm_compute. repeat constructor; simpl; intuition discriminate. }
  revert Hnd. generalize fieldsToCheck as fields.
  induction fields as [|f fields IH]; intros Hnd; [constructor|].
  cbn [map filter] in *. inversion Hnd as [|? ? Hnotin Hnd']; subst.
  destruct (JS.stringify_differs _ _); [|now apply IH].
  cbn [map]. constructor; [|now apply IH].
  intros Hin. apply Hnotin.
  apply in_map_iff in Hin as (g & Hg & Hin).
  apply filter_In in Hin as [Hin _].
  apply in_map_iff. eauto.
Qed.

Lemma row_field_never_undefined b f :
  JS.stringify_differs (row_field b f) JS.Undefined = true.
Proof.
  destruct f; simpl;
    repeat match goal with
           | |- context [or_null _ ?o] => destruct o; simpl
           end;
    reflexivity.
Qed.

Lemma apply_set_keeps_undefined now d b f :
  data_field d f = JS.Undefined ->
  row_field (Db.apply_set now d b) f = row_field b f.
Proof.
  destruct f; simpl;
    match goal with
    | |- or_undef _ ?o = _ -> _ => destruct o; simpl
    end;
    intros H; try discriminate H; reflexivity.
Qed.

(** X23. A field that the validated data of an update leaves undefined
    (an optional field that the form sent empty, for one) is not written:
    after [updateBuyer] has returned, the column holds what it held.  The
    history nevertheless lists the field as changed, with the pair of the
    stored value and [undefined] (which the JSON text writes [null]), also
    when the column was and stays [NULL]. *)
Theorem field_left_undefined_is_kept_but_logged
    (rq : Request) (formData : FormData) (w : World) (id : string)
    (currentBuyer : Buyer) (validatedData : PartialBuyer) (f : Field) :
  fst (updateBuyer rq formData w) = Done tt ->
  formData_get "id" formData = Some id ->
  Db.select_by_id id (db w) = Some currentBuyer ->
  updateBuyerSchema_parse (update_rawData formData) (JS.Str id)
    (as_string (formData_get "updatedAt" formData)) = Some validatedData ->
  data_field validatedData f = JS.Undefined ->
  exists user after,
    getCurrentUser (session rq) = Some user
    /\ Db.select_by_id id (db (snd (updateBuyer rq formData w)))
       = Some after
    /\ row_field after f = row_field currentBuyer f
    /\ Db.buyerHistory (db (snd (updateBuyer rq formData w)))
       = Db.buyerHistory (db w)
         ++ [{| Db.h_id := gen_random_uuid (Db.ids_drawn (db w));
                Db.h_buyerId := id;
                Db.h_changedBy := user_id user;
                Db.h_changedAt := now rq;
                Db.h_diff :=
                  Db.Changes
                    (compute_changes currentBuyer validatedData) |}]
    /\ In (field_name f, (row_field currentBuyer f, JS.Undefined))
          (compute_changes currentBuyer validatedData).
Proof.
  intros Hdone Hid Hsel Hparse Hundef.
  assert (Hin : In (field_name f,
                    (row_field currentBuyer f, JS.Undefined))
                   (compute_changes currentBuyer validatedData)).
  { unfold compute_changes. rewrite changes_loop_spec. cbn [app].
    apply in_map_iff. exists f. rewrite Hundef. split; [reflexivity|].
    apply filter_In. split.
    - destruct f; simpl; tauto.
    - rewrite Hundef. apply row_field_never_undefined. }
  assert (Hhas : has_changes (compute_changes currentBuyer validatedData)
                 = true).
  { destruct (compute_changes currentBuyer validatedData);
      [contradiction|reflexivity]. }
  revert Hdone. rewrite updateBuyer_steps.
  destruct (requireAuth (session rq)) as [user|e] eqn:Hauth;
    [|discriminate].
  apply requireAuth_done in Hauth. cbv zeta.
  destruct (negb (fst _)); [discriminate|].
  rewrite Hid. cbn [as_string]. rewrite Hparse, Hsel.
  destruct (negb (canEditBuyer user (b_ownerId currentBuyer)));
    [discriminate|].
  destruct (stale_token _ currentBuyer); [discriminate|].
  destruct (Db.update_buyers (now rq) id validatedData (db w))
    as [tx1|] eqn:Hup; [|discriminate].
  intros _. rewrite Hhas.
  pose proof Hup as Hids.
  unfold Db.update_buyers in Hids.
  destruct (Db.no_values validatedData); [discriminate|].
  destruct (forallb _ _); [|discriminate].
  injection Hids as Hids. subst tx1. clear Hup.
  exists user, (Db.apply_set (now rq) validatedData currentBuyer).
  cbn [snd db Db.insert_history Db.buyers Db.buyerHistory Db.ids_drawn].
  split; [assumption|]. split.
  - unfold Db.select_by_id in *. cbn [Db.buyers].
    now apply find_rewritten.
  - split; [now apply apply_set_keeps_undefined|].
    split; [reflexivity|exact Hin].
Qed.

Lemma find_app_none {A} (p : A -> bool) (l l' : list A) :
  find p l = None -> find p (l ++ l') = find p l'.
Proof.
  induction l as [|x l IH]; intros H; [reflexivity|].
  simpl in *. destruct (p x); [discriminate|]. now apply IH.
Qed.

(** X24. The page that [createBuyer] redirects to shows the new lead to
    its creator.  When the returned id is new to both tables (as a
    generated primary key is), [getBuyer] for that id and the same session
    returns the lead just stored, and its history is the one entry of the
    creation. *)
Theorem created_lead_is_shown_to_its_creator
    (show : BuyerData -> string) (rq : Request) (formData : FormData)
    (w : World) (id : string) :
  fst (Create.createBuyer show rq formData w) = Done id ->
  ~ In id (map b_id (Db.buyers (db w))) ->
  ~ In id (map Db.h_buyerId (Db.buyerHistory (db w))) ->
  exists b entry,
    Detail.getBuyer (session rq) id
      (db (snd (Create.createBuyer show rq formData w)))
    = Done (Some (b, [entry]))
    /\ b_id b = id
    /\ b_status b = New
    /\ Db.h_buyerId entry = id
    /\ Db.h_changedBy entry = b_ownerId b.
Proof.
  intros Hdone Hfresh Hnew.
  destruct (createBuyer_appends_one_lead_helper show rq formData w id Hdone)
    as (user & data & Hu & Hparse & Hrows & Hhist).
  eexists. eexists.
  unfold Detail.getBuyer. rewrite Hu, Hrows, Hhist.
  assert (Hnone : find (Detail.whereCondition user id) (Db.buyers (db w))
                  = None).
  { destruct (find _ _) as [b|] eqn:Hf; [|reflexivity].
    apply find_some in Hf as [Hin Hc].
    apply whereCondition_spec in Hc as [Hid _].
    exfalso. apply Hfresh. rewrite <- Hid. now apply in_map. }
  rewrite (find_app_none _ _ _ Hnone). cbn [find].
  assert (Hc : Detail.whereCondition user id
                 (Create.row_of_data id (now rq) (user_id user) data)
               = true).
  { apply whereCondition_spec. split; [reflexivity|].
    unfold canEditBuyer. cbn [Create.row_of_data b_ownerId].
    rewrite String.eqb_refl. apply orb_true_r. }
  rewrite Hc.
  rewrite filter_app.
  assert (Hold : filter (fun h => Db.h_buyerId h =? id)
                        (Db.buyerHistory (db w)) = []).
  { clear - Hnew. induction (Db.buyerHistory (db w)) as [|h l IH];
      [reflexivity|].
    simpl in *. destruct (Db.h_buyerId h =? id) eqn:Hh.
    - apply String.eqb_eq in Hh. exfalso. apply Hnew. now left.
    - apply IH. intros Hin. apply Hnew. now right. }
  rewrite Hold. cbn [filter Db.h_buyerId app]. rewrite String.eqb_refl.
  cbn [Detail.sort_entries Detail.insert_entry firstn].
  split; [reflexivity|]. split; [reflexivity|].
  split; [|split; reflexivity].
  cbn [Create.row_of_data b_status].
  eapply created_status_is_New; eauto.
Qed.

End DiffFacts.

Section BudgetHelper.
Import Validation.

(** X25. [validateBudgetConstraints] rejects a pair of budgets exactly
    when both are present, neither is zero and the maximum is below the
    minimum; a missing or zero budget on either side is accepted, and so
    is a negative one.  It answers as the second cross-field rule of
    [buyerSchema] does on data with those budgets. *)
Theorem budget_helper_rejects_only_inverted_ranges
    (minimum maximum : option Z) :
  (validateBudgetConstraints minimum maximum = false
   <-> exists lo hi,
         minimum = Some lo /\ maximum = Some hi
         /\ lo <> 0%Z /\ hi <> 0%Z /\ (hi < lo)%Z)
  /\ (forall data,
        budgetMin data = minimum ->
        budgetMax data = maximum ->
        check budget_order data
        = validateBudgetConstraints minimum maximum).
Proof.
  split.
  - unfold validateBudgetConstraints, some_nonzero.
    destruct minimum as [lo|], maximum as [hi|]; simpl.
    + destruct (Z.eqb_spec lo 0), (Z.eqb_spec hi 0), (Z.ltb_spec hi lo);
        simpl;
        (split;
         [intros Hfalse; try discriminate Hfalse; exists lo, hi; auto
         |intros (a & b & Ha & Hb & Hna & Hnb & Hlt);
          injection Ha as <-; injection Hb as <-;
          first [reflexivity | lia]]).
    + destruct (lo =? 0)%Z; simpl;
        (split; [discriminate|intros (a & b & _ & Hb & _); discriminate]).
    + split; [discriminate|intros (a & b & Ha & _); discriminate].
    + split; [discriminate|intros (a & b & Ha & _); discriminate].
  - intros data <- <-. reflexivity.
Qed.

End BudgetHelper.

(* ================================================================== *)
(** ** From the page of a lead to its update *)
(* ================================================================== *)

Section EditFormFacts.
Import Auth Actions EditForm.
Context {E : Externals}.

Lemma onSubmit_id data :
  formData_get "id" (onSubmit_formData data) = Some (f_id data).
Proof. reflexivity. Qed.

Lemma formData_get_skip k k' (o : option string) (rest : FormData) :
  (k' =? k) = false ->
  formData_get k (Create.optional_entry k' o ++ rest)
  = formData_get k rest.
Proof.
  intros H. unfold formData_get.
  destruct o; [|reflexivity].
  cbn [Create.optional_entry app find fst]. now rewrite H.
Qed.

Lemma onSubmit_updatedAt data :
  formData_get "updatedAt" (onSubmit_formData data) = f_updatedAt data.
Proof.
  unfold onSubmit_formData.
  change (formData_get "updatedAt" ([("id", f_id data)] ++ ?l))
    with (formData_get "updatedAt" l).
  destruct (f_updatedAt data) as [t|]; [reflexivity|].
  cbn [Create.optional_entry app].
  rewrite !formData_get_skip by reflexivity.
  destruct (option_map (JSText.join ",") (f_tags data)); reflexivity.
Qed.

(** X26. A form loaded from the page of a lead is not refused for what
    the page has already established.  When [getBuyer] has returned a lead
    to a session and the edit form, whatever the user changed in its other
    fields, still carries the id and the [updatedAt] of its default
    values, then [updateBuyer] for what [onSubmit] sends, called with the
    same session while the lead is as it was loaded (ids being unique),
    never fails on sign-in, a missing lead, authorization or a conflict:
    it returns, or it fails on the rate limit, validation or the
    database. *)
Theorem loaded_edit_form_is_refused_only_downstream
    (rq : Request) (w : World) (id : string) (buyer : Buyer)
    (history : list Db.HistoryEntry) (data : UpdateBuyerFormData) :
  Detail.getBuyer (session rq) id (db w) = Done (Some (buyer, history)) ->
  NoDup (map b_id (Db.buyers (db w))) ->
  f_id data = f_id (defaultValues buyer) ->
  f_updatedAt data = f_updatedAt (defaultValues buyer) ->
  fst (updateBuyer rq (onSubmit_formData data) w) = Done tt
  \/ fst (updateBuyer rq (onSubmit_formData data) w) = Thrown RateLimited
  \/ fst (updateBuyer rq (onSubmit_formData data) w)
     = Thrown ValidationFailed
  \/ fst (updateBuyer rq (onSubmit_formData data) w)
     = Thrown PersistenceFailure.
Proof.
  intros Hget Hnd Hid Htoken.
  unfold Detail.getBuyer in Hget.
  destruct (getCurrentUser (session rq)) as [user|] eqn:Hu;
    [|discriminate].
  destruct (find (Detail.whereCondition user id) (Db.buyers (db w)))
    as [b|] eqn:Hfind; [|discriminate].
  assert (b = buyer) by congruence. subst b. clear Hget.
  apply find_some in Hfind as [Hin Hc].
  apply whereCondition_spec in Hc as [Hbid Hcan].
  assert (Hsel : Db.select_by_id (b_id buyer) (db w) = Some buyer).
  { unfold Db.select_by_id.
    destruct (find (fun x => b_id x =? b_id buyer) (Db.buyers (db w)))
      as [cur|] eqn:Hf.
    - f_equal. symmetry.
      eapply find_unique_id; eauto.
    - pose proof (find_none _ _ Hf buyer Hin) as Hno. simpl in Hno.
      rewrite String.eqb_refl in Hno. discriminate. }
  rewrite updateBuyer_steps.
  apply requireAuth_done in Hu. rewrite Hu. cbv zeta.
  destruct (negb (fst _)); [now auto|].
  rewrite onSubmit_id, onSubmit_updatedAt, Hid, Htoken.
  cbn [defaultValues f_id f_updatedAt].
  destruct (updateBuyerSchema_parse _ _ _) as [validatedData|];
    [|now auto].
  rewrite Hsel, Hcan. cbn [negb].
  assert (Hfresh : stale_token
                     (Some (toISOString (b_updatedAt buyer))) buyer
                   = false).
  { unfold stale_token. rewrite String.eqb_refl.
    cbn [negb]. apply andb_false_r. }
  rewrite Hfresh.
  destruct (Db.update_buyers _ _ _ _); auto.
Qed.

End EditFormFacts.

(* ================================================================== *)
(** ** The properties above on sample data *)
(* ================================================================== *)

Lemma createBuyer_appends_one_lead_and_its_history_witness :
  let result :=
    @Create.createBuyer Sample.externals Scenario.stringify
      (Sample.request_of Sample.agent) Scenario.new_lead_form
      Sample.world in
  fst result = Done (Sample.sample_uuid 9)
  /\ exists user data,
       Db.buyers (Actions.db (snd result))
       = Db.buyers (Actions.db Sample.world)
         ++ [Create.row_of_data (Sample.sample_uuid 9) 1757000900000
               (Auth.user_id user) data]
       /\ status data = New
       /\ length (Db.buyerHistory (Actions.db (snd result))) = 1%nat.
Proof.
  cbv zeta. split; [vm_compute; reflexivity|].
  destruct (@createBuyer_appends_one_lead_and_its_history
              Sample.externals Scenario.stringify
              (Sample.request_of Sample.agent) Scenario.new_lead_form
              Sample.world (Sample.sample_uuid 9))
    as (user & data & _ & _ & _ & Hrows & Hstatus & Hhistory).
  - vm_compute. reflexivity.
  - exists user, data. split; [exact Hrows|]. split; [exact Hstatus|].
    rewrite Hhistory. reflexivity.
Defined.

Lemma created_lead_satisfies_schema_rules_witness :
  let result :=
    @Create.createBuyer Sample.externals Scenario.stringify
      (Sample.request_of Sample.agent) Scenario.new_lead_form
      Sample.world in
  fst result = Done (Sample.sample_uuid 9)
  /\ exists b,
       Db.buyers (Actions.db (snd result))
       = Db.buyers (Actions.db Sample.world) ++ [b]
       /\ (1 <= String.length (b_fullName b) <= 80)%nat
       /\ (b_propertyType b = Apartment \/ b_propertyType b = Villa ->
           exists n, b_bhk b = Some n).
Proof.
  cbv zeta. split; [vm_compute; reflexivity|].
  destruct (@created_lead_satisfies_schema_rules
              Sample.externals Scenario.stringify
              (Sample.request_of Sample.agent) Scenario.new_lead_form
              Sample.world (Sample.sample_uuid 9))
    as (b & Hrows & _ & Hname & _ & _ & _ & _ & _ & _ & Hbhk).
  - vm_compute. reflexivity.
  - exists b. auto.
Defined.

Lemma failed_action_writes_nothing_witness :
  let result :=
    @Actions.updateBuyerStatus Sample.externals
      (Sample.request_of Sample.agent) (Sample.sample_uuid 8) "Dropped"
      Sample.world in
  fst result = Thrown Forbidden
  /\ Actions.db (snd result) = Actions.db Sample.world.
Proof.
  cbv zeta. split; [vm_compute; reflexivity|].
  apply (proj2 (proj2 (@failed_action_writes_nothing
                         Sample.externals Scenario.stringify
                         (Sample.request_of Sample.agent) []
                         (Sample.sample_uuid 8) "Dropped" Sample.world))
           Forbidden).
  vm_compute. reflexivity.
Defined.

(** A creation, a status change and a refused edit of somebody else's
    lead, all by [agent]. *)
Lemma sample_run :
  exists w',
    @Pipeline.run Sample.externals Scenario.stringify
      [Sample.request_of Sample.agent; Sample.request_of Sample.agent;
       Sample.request_of Sample.agent]
      Sample.world w'
    /\ length (Db.buyers (Actions.db w')) = 3%nat
    /\ length (Db.buyerHistory (Actions.db w')) = 2%nat.
Proof.
  eexists. split.
  - eapply Pipeline.run_cons.
    + apply (Pipeline.CreateBuyer Scenario.stringify
               (Sample.request_of Sample.agent) Sample.world
               Scenario.new_lead_form).
    + eapply Pipeline.run_cons.
      * apply (Pipeline.UpdateBuyerStatus Scenario.stringify
                 (Sample.request_of Sample.agent) _
                 (Sample.sample_uuid 7) "Qualified").
      * eapply Pipeline.run_cons.
        -- apply (Pipeline.UpdateBuyerStatus Scenario.stringify
                    (Sample.request_of Sample.agent) _
                    (Sample.sample_uuid 8) "Dropped").
        -- apply Pipeline.run_nil.
  - split; vm_compute; reflexivity.
Defined.

Lemma history_is_append_only_witness :
  exists w' entries,
    @Pipeline.run Sample.externals Scenario.stringify
      [Sample.request_of Sample.agent; Sample.request_of Sample.agent;
       Sample.request_of Sample.agent]
      Sample.world w'
    /\ Db.buyerHistory (Actions.db w')
       = Db.buyerHistory (Actions.db Sample.world) ++ entries.
Proof.
  destruct sample_run as (w' & Hrun & _).
  destruct (@history_is_append_only Sample.externals Scenario.stringify
              _ _ _ Hrun) as (entries & Hh & _).
  exists w', entries. split; assumption.
Defined.

Lemma leads_keep_their_identity_witness :
  exists w' new,
    @Pipeline.run Sample.externals Scenario.stringify
      [Sample.request_of Sample.agent; Sample.request_of Sample.agent;
       Sample.request_of Sample.agent]
      Sample.world w'
    /\ map Pipeline.identity (Db.buyers (Actions.db w'))
       = map Pipeline.identity (Db.buyers (Actions.db Sample.world))
         ++ map Pipeline.identity new.
Proof.
  destruct sample_run as (w' & Hrun & _).
  destruct (@leads_keep_their_identity Sample.externals Scenario.stringify
              _ _ _ Hrun) as (new & Hnew).
  exists w', new. split; assumption.
Defined.

Lemma non_admin_changes_only_own_leads_witness :
  let w' :=
    snd (@Actions.updateBuyer Sample.externals
           (Sample.request_of Sample.agent)
           (Sample.edit_form "Jane Doe" (Some "")) Sample.world) in
  Db.buyers (Actions.db w') <> Db.buyers (Actions.db Sample.world)
  /\ filter (fun b => negb (b_ownerId b =? Sample.sample_uuid 1))
            (Db.buyers (Actions.db w'))
     = [Sample.other_lead].
Proof.
  cbv zeta. split; [vm_compute; discriminate|].
  pose proof (proj2 (@non_admin_changes_only_own_leads
                       Sample.externals Scenario.stringify
                       (Sample.request_of Sample.agent) Sample.world _
                       (Pipeline.UpdateBuyer Scenario.stringify
                          (Sample.request_of Sample.agent) Sample.world
                          (Sample.edit_form "Jane Doe" (Some "")))
                       ltac:(vm_compute; repeat constructor; simpl;
                             intuition discriminate))
                {| Auth.user_id := Sample.sample_uuid 1;
                   Auth.user_email := Some "agent@example.com";
                   Auth.isAdmin := false |}
                eq_refl eq_refl) as H.
  cbn [Auth.user_id] in H. rewrite H.
  vm_compute. reflexivity.
Defined.

Lemma edit_invalidates_older_tokens_witness :
  let token :=
    @toISOString Sample.externals (b_updatedAt Sample.stored_lead) in
  let first :=
    @Actions.updateBuyerStatus Sample.externals
      (Sample.request_of Sample.agent) (Sample.sample_uuid 7) "Qualified"
      Sample.world in
  let second :=
    @Actions.updateBuyer Sample.externals (Sample.request_of Sample.agent)
      (Sample.edit_form "Jane Doe" (Some token)) (snd first) in
  fst first = Done tt
  /\ fst second = Thrown Conflict
  /\ Actions.db (snd second) = Actions.db (snd first).
Proof.
  cbv zeta. split; [vm_compute; reflexivity|].
  split; [vm_compute; reflexivity|].
  apply (@edit_invalidates_older_tokens Sample.externals
           (Sample.request_of Sample.agent)
           (Sample.request_of Sample.agent) []
           (Sample.edit_form "Jane Doe"
              (Some (@toISOString Sample.externals
                       (b_updatedAt Sample.stored_lead))))
           "Qualified" (Sample.sample_uuid 7)
           (@toISOString Sample.externals (b_updatedAt Sample.stored_lead))
           Sample.world).
  - right. split; [vm_compute; reflexivity|reflexivity].
  - reflexivity.
  - reflexivity.
  - vm_compute. discriminate.
  - vm_compute. discriminate.
Defined.

Lemma conflict_only_for_stale_token_witness :
  let form :=
    Sample.edit_form "Jane Doe" (Some "2020-01-01T00:00:00.000Z") in
  fst (@Actions.updateBuyer Sample.externals
         (Sample.request_of Sample.agent) form Sample.world)
  = Thrown Conflict
  /\ exists user id current token,
       Actions.formData_get "updatedAt" form = Some token
       /\ Db.select_by_id id (Actions.db Sample.world) = Some current
       /\ Auth.canEditBuyer user (b_ownerId current) = true
       /\ @toISOString Sample.externals (b_updatedAt current) <> token.
Proof.
  cbv zeta. split; [vm_compute; reflexivity|].
  destruct (@conflict_only_for_stale_token Sample.externals
              (Sample.request_of Sample.agent)
              (Sample.edit_form "Jane Doe"
                 (Some "2020-01-01T00:00:00.000Z"))
              Sample.world)
    as (user & id & current & token & _ & _ & Hsel & Hcan & Htok & _
        & Hiso).
  - vm_compute. reflexivity.
  - exists user, id, current, token. auto.
Defined.

Lemma exhausted_caller_is_refused_by_every_edit_witness :
  fst (@Create.createBuyer Sample.externals Scenario.stringify
         (Sample.request_of Sample.agent) Scenario.new_lead_form
         Scenario.busy_world)
  = Thrown RateLimited
  /\ fst (@Actions.updateBuyerStatus Sample.externals
            (Sample.request_of Sample.agent) (Sample.sample_uuid 7)
            "Qualified" Scenario.busy_world)
     = Thrown RateLimited
  /\ fst (@Create.createBuyer Sample.externals Scenario.stringify
            (Sample.request_of Sample.agent) Scenario.new_lead_form
            Sample.world)
     = Done (Sample.sample_uuid 9).
Proof.
  pose proof (@exhausted_caller_is_refused_by_every_edit
                Sample.externals Scenario.stringify
                (Sample.request_of Sample.agent)
                {| Auth.user_id := Sample.sample_uuid 1;
                   Auth.user_email := Some "agent@example.com";
                   Auth.isAdmin := false |}
                Scenario.new_lead_form (Sample.sample_uuid 7) "Qualified"
                None Scenario.busy_world eq_refl) as H.
  destruct H as ((Hcreate & _) & _ & (Hstatus & _) & _).
  - vm_compute. repeat constructor.
  - split; [exact Hcreate|]. split; [exact Hstatus|].
    vm_compute. reflexivity.
Defined.

Lemma every_admitted_request_is_counted_witness :
  let result :=
    @Actions.updateBuyerStatus Sample.externals
      (Sample.request_of Sample.agent) (Sample.sample_uuid 8) "Dropped"
      Sample.world in
  fst result = Thrown Forbidden
  /\ RateLimit.current_count 1757000900000 (Sample.sample_uuid 1)
       (Actions.cache (snd result)) = 1%nat.
Proof.
  cbv zeta. split; [vm_compute; reflexivity|].
  apply (proj2 (proj2 (@every_admitted_request_is_counted
                         Sample.externals Scenario.stringify
                         (Sample.request_of Sample.agent)
                         {| Auth.user_id := Sample.sample_uuid 1;
                            Auth.user_email := Some "agent@example.com";
                            Auth.isAdmin := false |}
                         [] (Sample.sample_uuid 8) "Dropped" Sample.world
                         eq_refl))).
  vm_compute. discriminate.
Defined.

Lemma refused_caller_is_admitted_after_ttl_witness :
  let c := Actions.cache Scenario.busy_world in
  let refused :=
    RateLimit.checkRateLimit 1757000900000 (Sample.sample_uuid 1) 10 c in
  fst refused = false
  /\ fst (RateLimit.checkRateLimit 1757000950001 (Sample.sample_uuid 1) 10
            (snd refused)) = true.
Proof.
  cbv zeta. split; [vm_compute; reflexivity|].
  destruct (refused_caller_is_admitted_after_ttl 1757000900000
              (Sample.sample_uuid 1) 10
              (Actions.cache Scenario.busy_world))
    as (e & Hfound & _ & Hlater).
  - lia.
  - vm_compute. reflexivity.
  - apply Hlater.
    vm_compute in Hfound. injection Hfound as <-.
    vm_compute. reflexivity.
Defined.

Lemma spaced_requests_exhaust_the_allowance_witness :
  RateLimit.admitted "a" 10
    (map (fun t => (t, "a")) Scenario.every_minute) [] = 10%nat.
Proof.
  apply (spaced_requests_exhaust_the_allowance "a" [] Scenario.every_minute).
  - reflexivity.
  - replace Scenario.every_minute
      with [0; 60000; 120000; 180000; 240000; 300000; 360000; 420000;
            480000; 540000; 600000]%Z by reflexivity.
    repeat constructor; cbn [LRUCache.ttl RateLimit.rateLimitCache_options];
      lia.
  - reflexivity.
Defined.

Lemma rate_limit_cache_stays_bounded_witness :
  (length (snd (RateLimit.checkRateLimit 1757000900000
                  (Sample.sample_uuid 2) 10
                  (Actions.cache Scenario.busy_world)))
   <= 1000)%nat.
Proof.
  apply (rate_limit_cache_stays_bounded 1757000900000
           (Sample.sample_uuid 2) 10 (Actions.cache Scenario.busy_world)).
  - vm_compute. repeat constructor.
  - vm_compute. repeat constructor. simpl. tauto.
Defined.

Lemma check_leaves_other_callers_count_witness :
  RateLimit.current_count 1757000900000 (Sample.sample_uuid 1)
    (snd (RateLimit.checkRateLimit 1757000900000 (Sample.sample_uuid 2) 10
            (Actions.cache Scenario.busy_world)))
  = 10%nat.
Proof.
  rewrite (check_leaves_other_callers_count 1757000900000 1757000900000
             (Sample.sample_uuid 2) (Sample.sample_uuid 1) 10
             (Actions.cache Scenario.busy_world)).
  - vm_compute. reflexivity.
  - vm_compute. discriminate.
  - vm_compute. repeat constructor.
Defined.


Lemma detail_history_is_the_latest_five_witness :
  exists b history,
    Detail.getBuyer (Some Sample.agent) (Sample.sample_uuid 7)
      Scenario.db_with_history = Done (Some (b, history))
    /\ map Db.h_changedAt history = [600; 500; 400; 300; 200]%Z
    /\ (length history <= 5)%nat.
Proof.
  eexists. eexists. split; [vm_compute; reflexivity|].
  split; [reflexivity|].
  eapply (detail_history_is_the_latest_five (Some Sample.agent)
            (Sample.sample_uuid 7) Scenario.db_with_history).
  vm_compute. reflexivity.
Defined.

Lemma exported_text_reads_back_witness :
  exists file,
    @CsvExport.exportCSV Sample.externals (@rev Buyer)
      (Sample.request_of Sample.agent)
      Sample.no_params Scenario.quoted_db = Done file
    /\ CsvExport.read_csv (CsvExport.content file)
       = Some [CsvExport.headers;
               @CsvExport.csvRow Sample.externals Scenario.quoted_lead].
Proof.
  eexists. split; [vm_compute; reflexivity|].
  destruct (@exported_text_reads_back Sample.externals (@rev Buyer)
              (Sample.request_of Sample.agent) Sample.no_params
              Scenario.quoted_db _ eq_refl)
    as (results & Hresults & Hread & _).
  vm_compute in Hresults. injection Hresults as <-.
  exact Hread.
Defined.

Lemma exported_lead_is_imported_unchanged_witness :
  exists tx',
    @Db.insert_buyer Sample.externals 1757000900000
      (Csv.transformedRow
         (@CsvExport.reimported Sample.externals Sample.other_lead))
      (Sample.sample_uuid 1) (Actions.db Sample.world)
    = Some (CsvExport.imported_copy (Sample.sample_uuid 9)
              (Sample.sample_uuid 1) 1757000900000 Sample.other_lead,
            tx').
Proof.
  eexists.
  apply (@exported_lead_is_imported_unchanged Sample.externals
           Sample.other_lead ["urgent"] 1757000900000
           (Sample.sample_uuid 1) (Actions.db Sample.world)).
  - reflexivity.
  - discriminate.
  - discriminate.
  - discriminate.
  - discriminate.
  - reflexivity.
  - reflexivity.
Defined.

Lemma joined_tags_are_read_back_trimmed_witness :
  Actions.tags_of_form (Some (JSText.join "," [" hot "; ""; "north"]))
  = JS.Array ["hot"; "north"].
Proof.
  rewrite (proj1 (joined_tags_are_read_back_trimmed ","
                    [" hot "; ""; "north"] (or_introl eq_refl) eq_refl)).
  reflexivity.
Defined.

Lemma validated_form_passes_server_validation_witness :
  @Validation.buyerSchema_safeParse Sample.externals
    (Create.create_rawData (Create.onSubmit_formData Scenario.complete_data))
  = Validation.Success Scenario.complete_data.
Proof.
  rewrite (@validated_form_passes_server_validation Sample.externals
             Sample.complete_lead Scenario.complete_data).
  - vm_compute. reflexivity.
  - vm_compute. reflexivity.
  - intros z Hz. injection Hz as <-. reflexivity.
  - intros z Hz. injection Hz as <-. reflexivity.
Defined.


Lemma field_left_undefined_is_kept_but_logged_witness :
  let result :=
    @Actions.updateBuyer Sample.externals (Sample.request_of Sample.agent)
      (Sample.edit_form "Jane Doe" (Some "")) Sample.world in
  fst result = Done tt
  /\ exists after entry changes,
       Db.select_by_id (Sample.sample_uuid 7) (Actions.db (snd result))
       = Some after
       /\ b_email after = b_email Sample.stored_lead
       /\ Db.buyerHistory (Actions.db (snd result)) = [entry]
       /\ Db.h_diff entry = Db.Changes changes
       /\ In ("email", (JS.Null, JS.Undefined)) changes.
Proof.
  cbv zeta. split; [vm_compute; reflexivity|].
  assert (Hparsed :
            exists d,
              @Actions.updateBuyerSchema_parse Sample.externals
                (Actions.update_rawData
                   (Sample.edit_form "Jane Doe" (Some "")))
                (JS.Str (Sample.sample_uuid 7))
                (Actions.as_string
                   (Actions.formData_get "updatedAt"
                      (Sample.edit_form "Jane Doe" (Some ""))))
              = Some d
              /\ Actions.data_field d Actions.Email = JS.Undefined)
    by (eexists; split; vm_compute; reflexivity).
  destruct Hparsed as (d & Hparse & Hundef).
  destruct (@field_left_undefined_is_kept_but_logged Sample.externals
              (Sample.request_of Sample.agent)
              (Sample.edit_form "Jane Doe" (Some "")) Sample.world
              (Sample.sample_uuid 7) Sample.stored_lead d Actions.Email)
    as (user & after & _ & Hsel & Hkept & Hhist & Hin).
  - vm_compute. reflexivity.
  - reflexivity.
  - reflexivity.
  - exact Hparse.
  - exact Hundef.
  - exists after. eexists. eexists.
    split; [exact Hsel|].
    split; [|split; [exact Hhist|split; [reflexivity|exact Hin]]].
    simpl in Hkept.
    destruct (b_email after) as [e|]; [discriminate Hkept|reflexivity].
Defined.

Lemma created_lead_is_shown_to_its_creator_witness :
  let result :=
    @Create.createBuyer Sample.externals Scenario.stringify
      (Sample.request_of Sample.agent) Scenario.new_lead_form
      Sample.world in
  fst result = Done (Sample.sample_uuid 9)
  /\ exists b entry,
       Detail.getBuyer (Some Sample.agent) (Sample.sample_uuid 9)
         (Actions.db (snd result))
       = Done (Some (b, [entry]))
       /\ b_status b = New.
Proof.
  cbv zeta. split; [vm_compute; reflexivity|].
  destruct (@created_lead_is_shown_to_its_creator Sample.externals
              Scenario.stringify (Sample.request_of Sample.agent)
              Scenario.new_lead_form Sample.world (Sample.sample_uuid 9))
    as (b & entry & Hget & _ & Hstatus & _).
  - vm_compute. reflexivity.
  - vm_compute. intuition discriminate.
  - vm_compute. tauto.
  - exists b, entry. split; [exact Hget|exact Hstatus].
Defined.

Lemma loaded_edit_form_is_refused_only_downstream_witness :
  (exists history,
     Detail.getBuyer (Some Sample.agent) (Sample.sample_uuid 7)
       (Actions.db Sample.world)
     = Done (Some (Sample.stored_lead, history)))
  /\ fst (@Actions.updateBuyer Sample.externals
            (Sample.request_of Sample.agent)
            (EditForm.onSubmit_formData
               (@EditForm.defaultValues Sample.externals
                  Sample.stored_lead))
            Sample.world)
     = Done tt.
Proof.
  split; [eexists; vm_compute; reflexivity|].
  destruct (@loaded_edit_form_is_refused_only_downstream Sample.externals
              (Sample.request_of Sample.agent) Sample.world
              (Sample.sample_uuid 7) Sample.stored_lead []
              (@EditForm.defaultValues Sample.externals Sample.stored_lead))
    as [Hdone|[Hno|[Hno|Hno]]].
  - vm_compute. reflexivity.
  - vm_compute. repeat constructor; simpl; intuition discriminate.
  - reflexivity.
  - reflexivity.
  - exact Hdone.
  - vm_compute in Hno. discriminate Hno.
  - vm_compute in Hno. discriminate Hno.
  - vm_compute in Hno. discriminate Hno.
Defined.
